(** * The interpreter session loop of open-code-interpreter

    A shallow embedding of [libs/interpreter_lib.py] (class [Interpreter])
    and of the parts of [libs/utility_manager.py] it calls, followed by the
    properties of the session loop, the prompt builders, the execution
    dispatcher and the recovery loop.

    Conventions of the embedding:
    - a Python [str] is a Rocq [string]; [str.lower] acts on the letters
      [A]..[Z] only (the keywords the program compares with are ASCII);
    - a value that may be [None] is an [option];
    - [self] is the record [Interp]; what lives outside the process (standard
      input, files, environment variables) is the record [Host];
    - code of other modules and libraries (the model provider, the code
      runners, the package installer, [re], [os.path], [time]) is a field of
      the record [Env]; a call whose answer may change from one call to the
      next receives the number of calls made so far;
    - every method is a function in the monad [M]: it reads and writes the
      state, appends to a log of events and returns a value or raises. *)

From stdpp Require Import gmap strings list.
From Stdlib Require Import Ascii.
From Stdlib Require String.

Local Open Scope stdpp_scope.

(** ** Python strings *)

Module Py.

(** [c.lower()] for one character. *)
Definition lower_ascii (c : ascii) : ascii :=
  let n := nat_of_ascii c in
  if (65 <=? n)%nat && (n <=? 90)%nat then ascii_of_nat (n + 32) else c.

(** [s.lower()] *)
Fixpoint lower (s : string) : string :=
  match s with
  | EmptyString => EmptyString
  | String c s' => String (lower_ascii c) (lower s')
  end.

(** [s.startswith(p)] *)
Definition startswith (s p : string) : bool := String.prefix p s.

(** [sub in s] *)
Fixpoint contains (sub s : string) : bool :=
  String.prefix sub s ||
  match s with
  | EmptyString => false
  | String _ s' => contains sub s'
  end.

(** [any(word in s for word in words)] *)
Definition any_in (words : list string) (s : string) : bool :=
  existsb (fun word => contains word s) words.

(** [x in [a, b, ...]] for strings *)
Definition mem (x : string) (l : list string) : bool :=
  existsb (String.eqb x) l.

(** Truth value of a string: [if s:] *)
Definition truthy (s : string) : bool :=
  match s with EmptyString => false | _ => true end.

(** Truth value of [None] or a string. *)
Definition truthy_opt (o : option string) : bool :=
  match o with Some s => truthy s | None => false end.

(** White space as [str.strip] sees it in ASCII text. *)
Definition is_space (c : ascii) : bool :=
  let n := nat_of_ascii c in
  ((9 <=? n)%nat && (n <=? 13)%nat) || ((28 <=? n)%nat && (n <=? 32)%nat).

Fixpoint lstrip (s : string) : string :=
  match s with
  | String c s' => if is_space c then lstrip s' else s
  | EmptyString => EmptyString
  end.

Fixpoint rstrip (s : string) : string :=
  match s with
  | EmptyString => EmptyString
  | String c s' =>
      match rstrip s' with
      | EmptyString => if is_space c then EmptyString else String c EmptyString
      | r => String c r
      end
  end.

(** [s.strip()] *)
Definition strip (s : string) : string := rstrip (lstrip s).

(** [s.split(sep)] for a separator of one character. *)
Fixpoint split (sep : ascii) (s : string) : list string :=
  match s with
  | EmptyString => [EmptyString]
  | String c s' =>
      if Ascii.eqb c sep then EmptyString :: split sep s'
      else match split sep s' with
           | w :: ws => String c w :: ws
           | [] => [String c EmptyString]
           end
  end.

(** What a file opened in text mode gives for its content: with the
    default [newline=None] the line ends CR LF and CR are read as LF. *)
Fixpoint universal_newlines (s : string) : string :=
  match s with
  | EmptyString => EmptyString
  | String c s' =>
      if Ascii.eqb c "013"%char then
        match s' with
        | String d _ =>
            if Ascii.eqb d "010"%char then universal_newlines s'
            else String "010"%char (universal_newlines s')
        | EmptyString => String "010"%char EmptyString
        end
      else String c (universal_newlines s')
  end.

(** The pieces of a text that end with LF: each piece keeps its LF, the last
    one may lack it. *)
Fixpoint split_lines (s : string) : list string :=
  match s with
  | EmptyString => []
  | String c s' =>
      if Ascii.eqb c "010"%char then String c EmptyString :: split_lines s'
      else match split_lines s' with
           | w :: ws =>
               match s' with
               | EmptyString => [String c EmptyString]
               | _ => String c w :: ws
               end
           | [] => [String c EmptyString]
           end
  end.

(** The lines of a text file as iteration over the file, or [readline],
    yields them in text mode: a line ends at LF, CR LF or CR, and ends with
    LF in what is read; the last line may lack it. *)
Definition lines (s : string) : list string := split_lines (universal_newlines s).

(** [sep.join(l)] *)
Fixpoint join (sep : string) (l : list string) : string :=
  match l with
  | [] => EmptyString
  | [x] => x
  | x :: rest => x +:+ sep +:+ join sep rest
  end.

End Py.

(** The newline that the prompts are joined with. *)
Definition nl : string := String "010"%char EmptyString.

(** ** The interpreter object *)

(** The command line arguments [self.args]. *)
Record Args := {
  arg_lang : option string;
  arg_save_code : bool;
  arg_exec : bool;
  arg_display_code : bool;
  arg_model : option string;
  arg_mode : option string
}.

(** The fields of [self] that the session reads and writes. *)
Record Interp := {
  INTERPRETER_LANGUAGE : string;
  SAVE_CODE : bool;
  EXECUTE_CODE : bool;
  DISPLAY_CODE : bool;
  INTERPRRETER_MODEL : option string;
  INTERPRETER_MODE : string;
  CODE_MODE : bool;
  SCRIPT_MODE : bool;
  COMMAND_MODE : bool;
  VISION_MODE : bool;
  history : list (string * string);
  config_values : gmap string string;
  system_message : string
}.

Definition set_language (v : string) (i : Interp) : Interp :=
  {| INTERPRETER_LANGUAGE := v; SAVE_CODE := SAVE_CODE i;
     EXECUTE_CODE := EXECUTE_CODE i; DISPLAY_CODE := DISPLAY_CODE i;
     INTERPRRETER_MODEL := INTERPRRETER_MODEL i;
     INTERPRETER_MODE := INTERPRETER_MODE i; CODE_MODE := CODE_MODE i;
     SCRIPT_MODE := SCRIPT_MODE i; COMMAND_MODE := COMMAND_MODE i;
     VISION_MODE := VISION_MODE i; history := history i;
     config_values := config_values i; system_message := system_message i |}.

Definition set_model (v : option string) (i : Interp) : Interp :=
  {| INTERPRETER_LANGUAGE := INTERPRETER_LANGUAGE i; SAVE_CODE := SAVE_CODE i;
     EXECUTE_CODE := EXECUTE_CODE i; DISPLAY_CODE := DISPLAY_CODE i;
     INTERPRRETER_MODEL := v;
     INTERPRETER_MODE := INTERPRETER_MODE i; CODE_MODE := CODE_MODE i;
     SCRIPT_MODE := SCRIPT_MODE i; COMMAND_MODE := COMMAND_MODE i;
     VISION_MODE := VISION_MODE i; history := history i;
     config_values := config_values i; system_message := system_message i |}.

Definition set_mode (v : string) (i : Interp) : Interp :=
  {| INTERPRETER_LANGUAGE := INTERPRETER_LANGUAGE i; SAVE_CODE := SAVE_CODE i;
     EXECUTE_CODE := EXECUTE_CODE i; DISPLAY_CODE := DISPLAY_CODE i;
     INTERPRRETER_MODEL := INTERPRRETER_MODEL i;
     INTERPRETER_MODE := v; CODE_MODE := CODE_MODE i;
     SCRIPT_MODE := SCRIPT_MODE i; COMMAND_MODE := COMMAND_MODE i;
     VISION_MODE := VISION_MODE i; history := history i;
     config_values := config_values i; system_message := system_message i |}.

Definition set_flags (c s k v : bool) (i : Interp) : Interp :=
  {| INTERPRETER_LANGUAGE := INTERPRETER_LANGUAGE i; SAVE_CODE := SAVE_CODE i;
     EXECUTE_CODE := EXECUTE_CODE i; DISPLAY_CODE := DISPLAY_CODE i;
     INTERPRRETER_MODEL := INTERPRRETER_MODEL i;
     INTERPRETER_MODE := INTERPRETER_MODE i; CODE_MODE := c;
     SCRIPT_MODE := s; COMMAND_MODE := k;
     VISION_MODE := v; history := history i;
     config_values := config_values i; system_message := system_message i |}.

Definition set_history (v : list (string * string)) (i : Interp) : Interp :=
  {| INTERPRETER_LANGUAGE := INTERPRETER_LANGUAGE i; SAVE_CODE := SAVE_CODE i;
     EXECUTE_CODE := EXECUTE_CODE i; DISPLAY_CODE := DISPLAY_CODE i;
     INTERPRRETER_MODEL := INTERPRRETER_MODEL i;
     INTERPRETER_MODE := INTERPRETER_MODE i; CODE_MODE := CODE_MODE i;
     SCRIPT_MODE := SCRIPT_MODE i; COMMAND_MODE := COMMAND_MODE i;
     VISION_MODE := VISION_MODE i; history := v;
     config_values := config_values i; system_message := system_message i |}.

Definition set_config (v : gmap string string) (i : Interp) : Interp :=
  {| INTERPRETER_LANGUAGE := INTERPRETER_LANGUAGE i; SAVE_CODE := SAVE_CODE i;
     EXECUTE_CODE := EXECUTE_CODE i; DISPLAY_CODE := DISPLAY_CODE i;
     INTERPRRETER_MODEL := INTERPRRETER_MODEL i;
     INTERPRETER_MODE := INTERPRETER_MODE i; CODE_MODE := CODE_MODE i;
     SCRIPT_MODE := SCRIPT_MODE i; COMMAND_MODE := COMMAND_MODE i;
     VISION_MODE := VISION_MODE i; history := history i;
     config_values := v; system_message := system_message i |}.

Definition set_system_message (v : string) (i : Interp) : Interp :=
  {| INTERPRETER_LANGUAGE := INTERPRETER_LANGUAGE i; SAVE_CODE := SAVE_CODE i;
     EXECUTE_CODE := EXECUTE_CODE i; DISPLAY_CODE := DISPLAY_CODE i;
     INTERPRRETER_MODEL := INTERPRRETER_MODEL i;
     INTERPRETER_MODE := INTERPRETER_MODE i; CODE_MODE := CODE_MODE i;
     SCRIPT_MODE := SCRIPT_MODE i; COMMAND_MODE := COMMAND_MODE i;
     VISION_MODE := VISION_MODE i; history := history i;
     config_values := config_values i; system_message := v |}.

(** [a == 'literal'] where [a] may be [None]. *)
Definition opt_is (a : option string) (lit : string) : bool :=
  match a with Some x => String.eqb x lit | None => false end.

(** [Interpreter.initialize_mode] *)
Definition initialize_mode (mode : option string) (i : Interp) : Interp :=
  let code := opt_is mode "code" in
  let script := opt_is mode "script" in
  let command := opt_is mode "command" in
  let vision := opt_is mode "vision" in
  let code := if negb script && negb command && negb vision then true else code in
  set_flags code script command vision i.

(** ** Events, the world outside and the collaborators *)

(** The three executors of [CodeInterpreter]. *)
Inductive Runner := ScriptRunner | CommandRunner | CodeRunner.

(** The record that the loop names in its call of [save_history_json]. *)
Record Interaction := {
  i_task : string;
  i_mode : string;
  i_os_name : string;
  i_language : string;
  i_prompt : string;
  i_code : string;
  i_model : option string
}.

(** What [get_prompt] returns: the three messages, or in Vision mode the bare
    system text. *)
Inductive Messages :=
| Chat (system : option string) (assistant user : string)
| Bare (text : string).

(** The calls a session makes that are visible from outside, and the entries
    into the methods whose order the specification speaks about. *)
Inductive Event :=
| EvInput (ask line : string)              (* input(ask) returned line *)
| EvModePrompt (task os_name : string)     (* get_mode_prompt(task, os_name) *)
| EvClean                                  (* _clean_responses() *)
| EvRemove (file : string)                 (* os.remove(file) *)
| EvPrint (text : string)                  (* print(text) *)
| EvGenerate (prompt : string)             (* generate_text(prompt, ...) *)
| EvCompletion (model : string) (m : Messages)
| EvVision (image : string)
| EvDisplay (text : string)                (* display_code, display_markdown_message *)
| EvSaveCode (path code : string)          (* code_interpreter.save_code *)
| EvDispatch (code os_name : string)       (* execute_code(code, os_name) *)
| EvRun (r : Runner) (code arg : string)   (* one of the three executors *)
| EvInstall (package language : string)    (* package_installer.install_package *)
| EvSleep (n : nat)                        (* time.sleep(n) *)
| EvOpen (opener file : string)            (* subprocess.call([opener, file]) *)
| EvHistory (r : Interaction).             (* the loop is at save_history_json(...) *)

(** An exception, with its text [str(exception)]: an instance of the class
    [Exception], which a clause [except Exception] catches, or one of
    another class below [BaseException] ([KeyboardInterrupt], [SystemExit],
    [GeneratorExit]), which such a clause lets through. An exception given
    by its text alone is an instance of [Exception]. *)
Inductive Exn :=
| Exception (text : string)
| BaseException (text : string).
Coercion Exception : string >-> Exn.

(** [str(e)] *)
Definition exn_text (e : Exn) : string :=
  match e with Exception text | BaseException text => text end.

(** A value or a raised exception. *)
Inductive Res (A : Type) :=
| Ok (a : A)
| Raise (e : Exn).
Arguments Ok {A} a.
Arguments Raise {A} e.

(** What an executor answers: the pair [(stdout, stderr)] and the files it
    left behind, or an exception of either kind. *)
Inductive RunOutcome :=
| Returned (out err : option string) (written : list (string * string))
| Crashed (e : Exn).

(** The state outside the interpreter object. [calls] counts the calls made
    to the collaborators so far. *)
Record Host := {
  stdin : list string;
  files : gmap string string;
  environ : gmap string string;
  calls : nat
}.

Definition set_stdin (v : list string) (h : Host) : Host :=
  {| stdin := v; files := files h; environ := environ h; calls := calls h |}.
Definition set_files (v : gmap string string) (h : Host) : Host :=
  {| stdin := stdin h; files := v; environ := environ h; calls := calls h |}.
Definition set_environ (v : gmap string string) (h : Host) : Host :=
  {| stdin := stdin h; files := files h; environ := v; calls := calls h |}.
Definition set_calls (v : nat) (h : Host) : Host :=
  {| stdin := stdin h; files := files h; environ := environ h; calls := v |}.

(** The collaborators: library functions, and the modules of the repository
    that the interpreter uses through their interface only
    ([libs.code_interpreter], [libs.package_installer], [libs.gemini_vision]).
    The executors may raise, which [execute_code] catches; the extraction of
    code and of a package name return a value; saving code and installing a
    package return nothing and are events of the log. *)
Record Env := {
  (* platform.uname(): system and version *)
  uname_system : string;
  uname_version : string;
  (* re.search(pattern, prompt) of extract_file_name: match.group() *)
  re_search_file : string -> option string;
  (* os.path.splitext(p)[1], os.path.isabs, os.getcwd, os.path.join *)
  splitext_ext : string -> string;
  path_isabs : string -> bool;
  getcwd : string;
  path_join : string -> string -> string;
  (* open(path) of a file that exists: None when it opens, the text of the
     OSError (permission denied, is a directory, ...) otherwise *)
  open_error : string -> option string;
  (* decoding a file opened without an encoding, with the one of the locale;
     None: UnicodeDecodeError *)
  decode_default : string -> option string;
  (* decoding a file opened with encoding utf-8; None: UnicodeDecodeError *)
  decode_utf8 : string -> option string;
  (* str(read_csv_headers(path)) from the bytes of the file; None: it raised *)
  csv_headers_str : string -> option string;
  (* the .env file found by load_dotenv() and the one in the working directory *)
  dotenv_found : gmap string string;
  dotenv_cwd : gmap string string;
  (* do float(text) and int(text) accept the text *)
  float_ok : string -> bool;
  int_ok : string -> bool;
  (* litellm.completion: the content of the response (None: the response has
     no choices[0].message.content), or an exception *)
  completion : nat -> string -> Messages -> option string -> Res (option string);
  (* libs.gemini_vision: import, gemini_vision_url, gemini_vision_path *)
  gemini_import : Res unit;
  gemini_vision_url : nat -> Messages -> string -> Res string;
  gemini_vision_path : nat -> Messages -> string -> Res string;
  (* CodeInterpreter.extract_code(text, start_sep, end_sep, skip_first_line, code_mode) *)
  extract_code : string -> string -> string -> bool -> bool -> string;
  (* CodeInterpreter.execute_script / execute_command / execute_code *)
  run : nat -> Runner -> string -> string -> RunOutcome;
  (* PackageInstaller.extract_package_name(error, language) *)
  extract_package_name : string -> string -> option string;
  (* time.strftime("%Y_%m_%d-%H_%M_%S", time.localtime()) *)
  strftime : nat -> string;
  (* os.remove(file): None when it succeeds, the exception text otherwise *)
  remove_error : nat -> string -> option string;
  (* subprocess.call: None when it returns, the exception text otherwise *)
  subprocess_error : nat -> string -> string -> option string
}.

(** ** The monad of the methods *)

Record Sys := { self : Interp; host : Host }.

Record Run (A : Type) := MkRun {
  log : list Event;
  final : Sys;
  value : Res A
}.
Arguments MkRun {A} log final value.
Arguments log {A} r.
Arguments final {A} r.
Arguments value {A} r.

Definition M (A : Type) : Type := Sys -> Run A.

Definition ret {A} (a : A) : M A := fun s => MkRun [] s (Ok a).

(** [raise E(msg)] for a class [E] below [Exception] *)
Definition raise {A} (msg : string) : M A := fun s => MkRun [] s (Raise msg).

Definition bind {A B} (m : M A) (f : A -> M B) : M B := fun s =>
  let r := m s in
  match value r with
  | Ok a => let r' := f a (final r) in
            MkRun (log r ++ log r') (final r') (value r')
  | Raise e => MkRun (log r) (final r) (Raise e)
  end.

Notation "'let*' x ':=' m 'in' k" := (bind m (fun x => k))
  (at level 10, x name, m at level 100, k at level 200).
Notation "m ';;' k" := (bind m (fun _ => k))
  (at level 100, k at level 200, right associativity).

(** [try: m except Exception as e: h(str(e))]: the handler runs for an
    instance of [Exception]; any other exception goes on to the caller. *)
Definition try_except {A} (m : M A) (h : string -> M A) : M A := fun s =>
  let r := m s in
  match value r with
  | Ok a => r
  | Raise (Exception msg) =>
      let r' := h msg (final r) in
      MkRun (log r ++ log r') (final r') (value r')
  | Raise (BaseException _) => r
  end.

Definition emit (e : Event) : M unit := fun s => MkRun [e] s (Ok tt).

Definition get_self : M Interp := fun s => MkRun [] s (Ok (self s)).

Definition get_host : M Host := fun s => MkRun [] s (Ok (host s)).

Definition modify_self (f : Interp -> Interp) : M unit := fun s =>
  MkRun [] {| self := f (self s); host := host s |} (Ok tt).

Definition modify_host (f : Host -> Host) : M unit := fun s =>
  MkRun [] {| self := self s; host := f (host s) |} (Ok tt).

(** The index of the next call to a collaborator. *)
Definition tick : M nat := fun s =>
  MkRun [] {| self := self s; host := set_calls (S (calls (host s))) (host s) |}
        (Ok (calls (host s))).

(** A collaborator's answer becomes a value or an exception of the caller. *)
Definition lift {A} (r : Res A) : M A := fun s => MkRun [] s r.

(** [input(ask)]: the next line of standard input, [EOFError] at its end. *)
Definition input (ask : string) : M string := fun s =>
  match stdin (host s) with
  | line :: rest =>
      MkRun [EvInput ask line]
            {| self := self s; host := set_stdin rest (host s) |} (Ok line)
  | [] => MkRun [] s (Raise "EOF when reading a line")
  end.

(** [for x in l: f(x)] *)
Fixpoint for_each {A} (f : A -> M unit) (l : list A) : M unit :=
  match l with
  | [] => ret tt
  | x :: rest => f x;; for_each f rest
  end.

(** [os.path.isfile(path)] *)
Definition isfile (path : string) : M bool :=
  let* h := get_host in ret (bool_decide (is_Some (files h !! path))).

(** [os.getenv(name)] *)
Definition getenv (name : string) : M (option string) :=
  let* h := get_host in ret (environ h !! name).

(** [load_dotenv()] and [load_dotenv(dotenv_path=os.path.join(os.getcwd(), ".env"))]:
    the variables of the file that the environment does not have yet. *)
Definition load_dotenv (file : gmap string string) : M unit :=
  modify_host (fun h => set_environ (environ h ∪ file) h).

(** ** [libs/utility_manager.py] *)

Definition resource_files : list string := ["graph.png"; "chart.png"; "table.md"].

(** [UtilityManager.get_os_platform]: the name of the operating system. *)
Definition get_os_platform (env : Env) : string * string :=
  let os_name_mapping : gmap string string :=
    <["Darwin" := "MacOS"]> (<["Linux" := "Linux"]> (<["Windows" := "Windows"]> ∅)) in
  (default "Other" (os_name_mapping !! uname_system env), uname_version env).

(** The loop of [read_config_file] over the lines of the file. *)
Fixpoint parse_config (ls : list string) (config_data : gmap string string)
  : Res (gmap string string) :=
  match ls with
  | [] => Ok config_data
  | line :: rest =>
      if Py.startswith (Py.strip line) "#" || negb (Py.contains "=" line)
      then parse_config rest config_data
      else match Py.split "="%char (Py.strip line) with
           | [key; val] => parse_config rest (<[Py.strip key := Py.strip val]> config_data)
           | _ => Raise "too many values to unpack (expected 2)"
           end
  end.

(** [open(path, "r")] and the decoding of what is read: the content of the
    file as text, before the translation of its line ends. A file that is
    missing, cannot be opened or cannot be decoded raises. *)
Definition open_text (env : Env) (path : string) : M string :=
  let* h := get_host in
  match files h !! path with
  | None => raise ("[Errno 2] No such file or directory: '" +:+ path +:+ "'")
  | Some bytes =>
      match open_error env path with
      | Some msg => raise msg
      | None =>
          match decode_default env bytes with
          | Some text => ret text
          | None => raise "codec can't decode bytes of the file"
          end
      end
  end.

(** [UtilityManager.read_config_file]: the exceptions are logged and raised
    again. *)
Definition read_config_file (env : Env) (filename : string) : M (gmap string string) :=
  let* text := open_text env filename in
  lift (parse_config (Py.lines text) ∅).

Definition known_extensions : list string :=
  [".json"; ".csv"; ".xml"; ".xls"; ".txt"; ".md"; ".html"; ".png"; ".jpg";
   ".jpeg"; ".gif"; ".svg"; ".zip"; ".tar"; ".gz"; ".7z"; ".rar"].

(** [UtilityManager.extract_file_name]; the prompt is [None] when no mode
    flag is set. *)
Definition extract_file_name (env : Env) (prompt : option string) : M (option string) :=
  match prompt with
  | None => raise "expected string or bytes-like object"
  | Some p =>
      match re_search_file env p with
      | Some file_name =>
          let file_extension := Py.lower (splitext_ext env file_name) in
          if Py.mem file_extension known_extensions then ret (Some file_name)
          else ret None
      | None => ret None
      end
  end.

(** [UtilityManager.get_full_file_path] *)
Definition get_full_file_path (env : Env) (file_name : string) : option string :=
  if negb (Py.truthy file_name) then None
  else if negb (path_isabs env file_name) then Some (path_join env (getcwd env) file_name)
  else Some file_name.

(** The statement [self.utility_manager.save_history_json(task, mode, ...)]
    of the loop. The class [UtilityManager] of [libs/utility_manager.py]
    defines no attribute of that name, so the statement raises
    [AttributeError] and nothing is written. The event marks that the loop
    has come to the statement, with the values of the record it names. *)
Definition save_history_json (task mode os_name language prompt code : string)
    (model : option string) : M unit :=
  emit (EvHistory {| i_task := task; i_mode := mode; i_os_name := os_name;
                     i_language := language; i_prompt := prompt; i_code := code;
                     i_model := model |});;
  raise "'UtilityManager' object has no attribute 'save_history_json'".

(** ** [libs/interpreter_lib.py] *)

Definition display (text : string) : M unit := emit (EvDisplay text).

(** [Interpreter._open_resource_file] *)
Definition _open_resource_file (env : Env) (filename : string) : M unit :=
  try_except
    (let* present := isfile filename in
     if present then
       let opener :=
         if String.eqb (uname_system env) "Windows" then Some "start"
         else if String.eqb (uname_system env) "Darwin" then Some "open"
         else if String.eqb (uname_system env) "Linux" then Some "xdg-open"
         else None in
       match opener with
       | Some cmd =>
           let* n := tick in
           emit (EvOpen cmd filename);;
           match subprocess_error env n cmd filename with
           | None => ret tt
           | Some msg => raise msg
           end
       | None => ret tt
       end
     else ret tt)
    (fun msg => display ("Error in opening files: " +:+ msg)).

(** The body of the loop of [Interpreter._clean_responses] for one file. *)
Definition remove_response (env : Env) (file : string) : M unit :=
  try_except
    (let* present := isfile file in
     if present then
       let* n := tick in
       emit (EvRemove file);;
       match remove_error env n file with
       | None => modify_host (fun h => set_files (delete file (files h)) h)
       | Some msg => raise msg
       end
     else ret tt)
    (fun msg => emit (EvPrint ("Error in removing " +:+ file +:+ ": " +:+ msg))).

(** [Interpreter._clean_responses] *)
Definition _clean_responses (env : Env) : M unit :=
  emit EvClean;;
  let files_to_remove := resource_files in
  for_each (remove_response env) files_to_remove.

(** [Interpreter._extract_content] *)
Definition _extract_content (output : option string) : M string :=
  match output with
  | Some content => ret content
  | None => raise "content"
  end.

(** The check of one key of [initialize_client]: [not key], then the test
    [bad] on the key. *)
Definition check_key (name : string) (missing : string) (bad : string -> bool)
    (wrong : string) : M unit :=
  let* key := getenv name in
  if negb (Py.truthy_opt key) then raise missing
  else if bad (default "" key) then raise wrong
  else ret tt.

(** Looking a key up in the environment, then in the two [.env] files. *)
Definition find_key (env : Env) (name : string) : M unit :=
  let* k := getenv name in
  (if bool_decide (k = None) then load_dotenv (dotenv_found env) else ret tt);;
  let* k := getenv name in
  (if bool_decide (k = None) then load_dotenv (dotenv_cwd env) else ret tt).

(** The dictionary [model_api_keys] of [initialize_client], in the order of
    its items. *)
Definition model_api_keys : list (string * string) :=
  [("palm", "PALM_API_KEY"); ("gemini-pro", "GEMINI_API_KEY")].

(** One round of the loop over [model_api_keys]. *)
Definition check_provider (env : Env) (item : string * string) : M unit :=
  let model := item.1 in
  let api_key_name := item.2 in
  let* i := get_self in
  match INTERPRRETER_MODEL i with
  | None => raise "argument of type 'NoneType' is not iterable"
  | Some name =>
      if Py.contains model name then
        find_key env api_key_name;;
        check_key api_key_name (api_key_name +:+ " not found in .env file.")
          (fun api_key => Py.contains " " api_key || (String.length api_key <=? 15)%nat)
          (api_key_name +:+ " should have no spaces, length greater than 15. Please check your .env file.")
      else ret tt
  end.

(** The Hugging Face check: the [else] of the loop over [model_api_keys]. *)
Definition check_huggingface (env : Env) : M unit :=
  find_key env "HUGGINGFACE_API_KEY";;
  check_key "HUGGINGFACE_API_KEY" "HuggingFace token not found in .env file."
    (fun hf_key => negb (Py.startswith hf_key "hf_"))
    "HuggingFace token should start with 'hf_'. Please check your .env file.".

(** The OpenAI check. *)
Definition check_openai (env : Env) : M unit :=
  find_key env "OPENAI_API_KEY";;
  check_key "OPENAI_API_KEY" "OpenAI Key not found in .env file."
    (fun hf_key => negb (Py.startswith hf_key "sk-"))
    "OpenAI token should start with 'sk-'. Please check your .env file.".

(** [Interpreter.initialize_client] up to the end of the loop over
    [model_api_keys]: the configuration and the checks of the providers. *)
Definition provider_checks (env : Env) : M unit :=
  load_dotenv (dotenv_found env);;
  let* i := get_self in
  let* config_file_name :=
    match INTERPRRETER_MODEL i with
    | None => raise "'NoneType' object has no attribute 'strip'"
    | Some "" => ret "configs/gpt-3.5-turbo.config"
    | Some model => ret ("configs/" +:+ model +:+ ".config")
    end in
  let* config := read_config_file env config_file_name in
  modify_self (set_config config);;
  let model :=
    match config !! "HF_MODEL" with
    | Some m => m
    | None => match INTERPRRETER_MODEL i with Some m => m | None => "None" end
    end in
  modify_self (set_model (Some model));;
  (if Py.contains "gpt" model then check_openai env else ret tt);;
  for_each (check_provider env) model_api_keys.

(** [Interpreter.initialize_client]: the loop over [model_api_keys] has no
    [break], so its [else] clause always follows it. *)
Definition initialize_client (env : Env) : M unit :=
  provider_checks env;;
  check_huggingface env.

(** [Interpreter.initialize]: the object after [__init__]. The optional
    readline history, which the method sets up last inside an empty
    [except], leaves no trace on the state and is left out. *)
Definition initialize (env : Env) (args : Args) : M unit :=
  modify_self (fun _ =>
    {| INTERPRETER_LANGUAGE :=
         if Py.truthy_opt (arg_lang args) then default "" (arg_lang args) else "python";
       SAVE_CODE := arg_save_code args;
       EXECUTE_CODE := arg_exec args;
       DISPLAY_CODE := arg_display_code args;
       INTERPRRETER_MODEL :=
         if Py.truthy_opt (arg_model args) then arg_model args else None;
       INTERPRETER_MODE := "code";
       CODE_MODE := false; SCRIPT_MODE := false;
       COMMAND_MODE := false; VISION_MODE := false;
       history := [];
       config_values := ∅;
       system_message := "" |});;
  let* i := get_self in
  (if String.eqb (INTERPRETER_MODE i) "Vision" then
     modify_self (set_system_message
       "You are top tier image captioner and image analyzer. Please generate a well-written description of the image that is precise, easy to understand")
   else
     let* text := open_text env "system/system_message.txt" in
     modify_self (set_system_message (Py.universal_newlines text)));;
  initialize_client env;;
  modify_self (initialize_mode (arg_mode args)).

(** [Interpreter.get_prompt] *)
Definition get_prompt (i : Interp) (message : string) : Messages :=
  let assistant := "Please generate code wrapped inside triple backticks known as codeblock." in
  if CODE_MODE i then Chat (Some (system_message i)) assistant message
  else if SCRIPT_MODE i then
    Chat (Some "Please generate a well-written script that is precise, easy to understand, and compatible with the current operating system.")
         assistant message
  else if COMMAND_MODE i then
    Chat (Some "Please generate a single line command that is precise, easy to understand, and compatible with the current operating system.")
         assistant message
  else if VISION_MODE i then
    Bare "Please generate a well-written description of the image that is precise, easy to understand"
  else Chat None assistant message.

(** A call of [litellm.completion]. *)
Definition call_completion (env : Env) (model : string) (messages : Messages)
    (api_base : option string) : M (option string) :=
  let* n := tick in
  emit (EvCompletion model messages);;
  lift (completion env n model messages api_base).

(** [Interpreter.generate_text]. The numbers [temperature] and [max_tokens]
    are passed on to the provider unchanged and are not represented; their
    conversion from the text of the configuration can raise. *)
Definition generate_text (env : Env) (message : string) (image_file : option string)
  : M string :=
  emit (EvGenerate message);;
  let* i := get_self in
  let config := config_values i in
  let* api_base :=
    (if bool_decide (config = ∅) then ret None
     else
       (match config !! "temperature" with
        | Some t => if float_ok env t then ret tt
                    else raise ("could not convert string to float: " +:+ t)
        | None => ret tt
        end);;
       (match config !! "max_tokens" with
        | Some t => if int_ok env t then ret tt
                    else raise ("invalid literal for int() with base 10: " +:+ t)
        | None => ret tt
        end);;
       ret (Some (default "None" (config !! "api_base")))) in
  let messages := get_prompt i message in
  match INTERPRRETER_MODEL i with
  | None => raise "argument of type 'NoneType' is not iterable"
  | Some model =>
      let extracted (call : M (option string)) : M string :=
        let* response := call in _extract_content response in
      if Py.contains "gpt" model then
        match api_base with
        | None => raise "cannot access local variable 'api_base' where it is not associated with a value"
        | Some base =>
            if negb (String.eqb base "None")
            then extracted (call_completion env model messages (Some base))
            else extracted (call_completion env model messages None)
        end
      else if Py.contains "palm" model then
        modify_self (set_model (Some "palm/chat-bison"));;
        extracted (call_completion env "palm/chat-bison" messages None)
      else if Py.contains "gemini" model then
        if String.eqb (INTERPRETER_MODE i) "Vision" then
          lift (gemini_import env);;
          if negb (Py.truthy_opt image_file)
          then raise "Image file is not valid or Corrupted."
          else
            let image := default "" image_file in
            let* n := tick in
            emit (EvVision image);;
            if Py.contains "http" image || Py.contains "https" image
               || Py.contains "www." image
            then lift (gemini_vision_url env n messages image)
            else lift (gemini_vision_path env n messages image)
        else
          modify_self (set_model (Some "gemini/gemini-pro"));;
          extracted (call_completion env "gemini/gemini-pro" messages None)
      else
        let model' :=
          if negb (Py.contains "huggingface/" model) then "huggingface/" +:+ model
          else model in
        modify_self (set_model (Some model'));;
        extracted (call_completion env model' messages None)
  end.

(** [Interpreter.get_code_prompt] *)
Definition get_code_prompt (task os_name : string) : M string :=
  let* i := get_self in
  let prompt := "Generate the code in " +:+ INTERPRETER_LANGUAGE i
                +:+ " language for this task '" +:+ task
                +:+ " for Operating System: " +:+ os_name +:+ "'." in
  modify_self (fun i => set_history (history i ++ [(task, prompt)]) i);;
  ret prompt.

(** The dictionary [language_map] of [get_script_prompt]. *)
Definition language_map : gmap string string :=
  <["macos" := "applescript"]> (<["linux" := "bash"]> (<["windows" := "powershell"]> ∅)).

(** The wording [script_type] of [get_script_prompt]. *)
Definition script_type (os_name : string) : string :=
  if String.eqb (Py.lower os_name) "macos" then "Apple script"
  else if String.eqb (Py.lower os_name) "linux" then "Bash Shell script"
  else if String.eqb (Py.lower os_name) "windows" then "Powershell script"
  else "script".

(** [Interpreter.get_script_prompt] *)
Definition get_script_prompt (task os_name : string) : M string :=
  modify_self (set_language (default "python" (language_map !! Py.lower os_name)));;
  ret (nl +:+ "Generate " +:+ script_type os_name
       +:+ " for this prompt and make this script easy to read and understand for this task '"
       +:+ task +:+ " for Operating System is " +:+ os_name +:+ "'.").

(** [Interpreter.get_command_prompt] *)
Definition get_command_prompt (task os_name : string) : M string :=
  ret ("Generate the single terminal command for this task '" +:+ task
       +:+ " for Operating System is " +:+ os_name +:+ "'.").

(** [Interpreter.handle_vision_mode] *)
Definition handle_vision_mode (task : string) : M string :=
  ret ("Give accurate and detailed information about the image provided and be very detailed about the image '"
       +:+ task +:+ "'.").

(** [Interpreter.get_mode_prompt]; [None] when no mode flag is set. *)
Definition get_mode_prompt (task os_name : string) : M (option string) :=
  emit (EvModePrompt task os_name);;
  let* i := get_self in
  if CODE_MODE i then let* p := get_code_prompt task os_name in ret (Some p)
  else if SCRIPT_MODE i then let* p := get_script_prompt task os_name in ret (Some p)
  else if COMMAND_MODE i then let* p := get_command_prompt task os_name in ret (Some p)
  else if VISION_MODE i then let* p := handle_vision_mode task in ret (Some p)
  else ret None.

(** A call of one of the three executors. *)
Definition call_runner (env : Env) (r : Runner) (code arg : string)
  : M (option string * option string) :=
  let* n := tick in
  emit (EvRun r code arg);;
  match run env n r code arg with
  | Returned out err written =>
      modify_host (fun h =>
        set_files (foldl (fun fs kv => <[kv.1 := kv.2]> fs) (files h) written) h);;
      ret (out, err)
  | Crashed e => lift (Raise e)
  end.

(** The routing of [execute_code] to one executor by the mode flags. *)
Definition run_by_mode (env : Env) (i : Interp) (extracted_code os_name : string)
  : M (option string * option string) :=
  if SCRIPT_MODE i then call_runner env ScriptRunner extracted_code os_name
  else if COMMAND_MODE i then call_runner env CommandRunner extracted_code ""
  else if CODE_MODE i then
    call_runner env CodeRunner extracted_code (INTERPRETER_LANGUAGE i)
  else ret (Some "", Some "").

(** [Interpreter.execute_code], the Execution Dispatcher. *)
Definition execute_code (env : Env) (extracted_code os_name : string)
  : M (option string * option string) :=
  emit (EvDispatch extracted_code os_name);;
  let* i := get_self in
  if String.eqb (INTERPRETER_MODE i) "Vision" then ret (None, None)
  else
    let* execute :=
      if EXECUTE_CODE i then ret "y" else input "Execute the code? (Y/N): " in
    if String.eqb (Py.lower execute) "y" then
      try_except (run_by_mode env i extracted_code os_name)
                 (fun msg => ret (None, Some msg))
    else ret (None, None).

(** *** The body of the loop of [interpreter_main] *)

(** The text read from the file the prompt names: 20 lines of a JSON or XML
    file, the header row of a CSV file (which [read_csv_headers] opens on its
    own), the whole file otherwise. An exception is caught by the caller and
    leaves the prompt as it is. *)
Definition read_file_data (env : Env) (full_path bytes : string) : M string :=
  let file_extension := Py.lower (splitext_ext env full_path) in
  if Py.mem file_extension [".json"; ".xml"] then
    match decode_utf8 env bytes with
    | Some text => ret (Py.join nl (take 20 (Py.lines text ++ replicate 20 "")))
    | None => raise "'utf-8' codec can't decode"
    end
  else if String.eqb file_extension ".csv" then
    match csv_headers_str env bytes with
    | Some headers => ret headers
    | None => raise "csv"
    end
  else
    match decode_utf8 env bytes with
    | Some text => ret (Py.universal_newlines text)
    | None => raise "'utf-8' codec can't decode"
    end.

(** "Check if prompt contains any file uploaded by user": the prompt with the
    file data folded in, and the name found in it. *)
Definition fold_file_data (env : Env) (prompt0 : option string)
  : M (string * option string) :=
  let* extracted_file_name := extract_file_name env prompt0 in
  let prompt := default "" prompt0 in
  match extracted_file_name with
  | Some name =>
      if Py.contains "http" name || Py.contains "https" name || Py.contains "www." name
      then ret (prompt, extracted_file_name)
      else
        match get_full_file_path env name with
        | None => raise "stat: path should be string, bytes, os.PathLike or integer, not NoneType"
        | Some full_path =>
            let* h := get_host in
            match files h !! full_path with
            | Some bytes =>
                let file_size_max := 50000%N in
                if (N.of_nat (String.length bytes) <? file_size_max)%N then
                  try_except
                    (let* file_data := read_file_data env full_path bytes in
                     if Py.any_in ["graph"; "graphs"; "chart"; "charts"] (Py.lower prompt)
                     then ret (prompt +:+ nl +:+ "This is file data from user input: "
                               +:+ file_data +:+ " use this to analyze the data.",
                               extracted_file_name)
                     else ret (prompt, extracted_file_name))
                    (fun _ => ret (prompt, extracted_file_name))
                else ret (prompt, extracted_file_name)
            | None => ret (prompt, extracted_file_name)
            end
        end
  | None => ret (prompt, extracted_file_name)
  end.

(** "If graph were requested." *)
Definition augment_graph (language prompt : string) : string :=
  if Py.any_in ["graph"; "graphs"] (Py.lower prompt) then
    if String.eqb language "python" then
      prompt +:+ nl +:+ "using Python use Matplotlib save the graph in file called 'graph.png'"
    else if String.eqb language "javascript" then
      prompt +:+ nl +:+ "using JavaScript use Chart.js save the graph in file called 'graph.png'"
    else prompt
  else prompt.

(** "if Chart were requested" *)
Definition augment_chart (language prompt : string) : string :=
  if Py.any_in ["chart"; "charts"; "plot"; "plots"] (Py.lower prompt) then
    if String.eqb language "python" then
      prompt +:+ nl +:+ "using Python use Plotly save the chart in file called 'chart.png'"
    else if String.eqb language "javascript" then
      prompt +:+ nl +:+ "using JavaScript use Chart.js save the chart in file called 'chart.png'"
    else prompt
  else prompt.

(** "if Table were requested" *)
Definition augment_table (language prompt : string) : string :=
  if Py.contains "table" (Py.lower prompt) then
    if String.eqb language "python" then
      prompt +:+ nl +:+ "using Python use Pandas save the table in file called 'table.md'"
    else if String.eqb language "javascript" then
      prompt +:+ nl +:+ "using JavaScript use DataTables save the table in file called 'table.html'"
    else prompt
  else prompt.

(** The three augmentations in the order of the source. *)
Definition augment (language prompt : string) : string :=
  augment_table language (augment_chart language (augment_graph language prompt)).

(** The saving of the extracted code, by language and mode. *)
Definition save_extracted (env : Env) (extracted_code : string) : M unit :=
  let* n := tick in
  let current_time := strftime env n in
  let* i := get_self in
  if String.eqb (INTERPRETER_LANGUAGE i) "javascript" && SAVE_CODE i && CODE_MODE i then
    emit (EvSaveCode ("output/code_" +:+ current_time +:+ ".js") extracted_code)
  else if String.eqb (INTERPRETER_LANGUAGE i) "python" && SAVE_CODE i && CODE_MODE i then
    emit (EvSaveCode ("output/code_" +:+ current_time +:+ ".py") extracted_code)
  else if SAVE_CODE i && COMMAND_MODE i then
    emit (EvSaveCode ("output/command_" +:+ current_time +:+ ".txt") extracted_code)
  else if SAVE_CODE i && SCRIPT_MODE i then
    emit (EvSaveCode ("output/script_" +:+ current_time +:+ ".txt") extracted_code)
  else ret tt.

(** What the loop shows of an execution: the output, or else the error. *)
Definition show_result (result : option string * option string) : M unit :=
  if Py.truthy_opt result.1 then display (default "" result.1)
  else if Py.truthy_opt result.2 then display ("Error: " +:+ default "" result.2)
  else ret tt.

Definition error_messages : list string :=
  ["ModuleNotFound"; "ImportError"; "No module named"; "Cannot find module"].

(** Does the error of an execution carry one of the signatures of a missing
    package. *)
Definition missing_package (code_error : option string) : bool :=
  match code_error with
  | Some text => existsb (fun error_message => Py.contains error_message text) error_messages
  | None => false
  end.

(** "install Package on error": the Recovery Loop. *)
Definition recover (env : Env) (extracted_code os_name : string)
    (code_error : option string) : M unit :=
  if missing_package code_error then
    let* i := get_self in
    let package_name :=
      extract_package_name env (default "" code_error) (INTERPRETER_LANGUAGE i) in
    if Py.truthy_opt package_name then
      emit (EvInstall (default "" package_name) (INTERPRETER_LANGUAGE i));;
      emit (EvSleep 10);;
      let* result := execute_code env extracted_code os_name in
      show_result result
    else ret tt
  else ret tt.

(** The opening of the three resource files. *)
Definition open_resources (env : Env) : M unit :=
  try_except
    (_open_resource_file env "graph.png";;
     _open_resource_file env "chart.png";;
     _open_resource_file env "table.md")
    (fun msg => display ("Error in opening resource files: " +:+ msg)).

(** "Execute the code if the user has selected." and "install Package on
    error.": the first attempt, what is shown of it, and the recovery. *)
Definition execute_and_recover (env : Env) (extracted_code os_name : string) : M unit :=
  let* result := execute_code env extracted_code os_name in
  show_result result;;
  recover env extracted_code os_name result.2.

(** What follows the extraction when there is code: saving, execution,
    recovery, resources. *)
Definition run_extracted (env : Env) (extracted_code os_name : string) : M unit :=
  save_extracted env extracted_code;;
  execute_and_recover env extracted_code os_name;;
  open_resources env.

(** The local variables of [interpreter_main] that the loop reads. *)
Record Locals := {
  os_name : string;
  start_sep : string;
  end_sep : string;
  skip_first_line : bool
}.

(** From the task to the prompt that is sent to the model: the prompt of the
    mode, the cleaning of the response files, the file data, the three keyword
    augmentations. Returns the prompt and the file name found in it. *)
Definition build_prompt (env : Env) (l : Locals) (task : string)
  : M (string * option string) :=
  let* prompt0 := get_mode_prompt task (os_name l) in
  _clean_responses env;;
  let* folded := fold_file_data env prompt0 in
  let* i := get_self in
  ret (augment (INTERPRETER_LANGUAGE i) folded.1, folded.2).

(** What follows the answer of the model. In Vision mode the answer is shown
    and the loop continues with the next task ("No extra processing for
    Vision mode."); otherwise the code is extracted, run when there is some,
    and the loop comes to the statement that saves the interaction. *)
Definition after_generation (env : Env) (l : Locals) (task prompt generated_output : string)
  : M unit :=
  let* i := get_self in
  if String.eqb (INTERPRETER_MODE i) "Vision" then
    display generated_output
  else
    let extracted_code :=
      extract_code env generated_output (start_sep l) (end_sep l)
                   (skip_first_line l) (CODE_MODE i) in
    (if DISPLAY_CODE i then display extracted_code else ret tt);;
    (if Py.truthy extracted_code then run_extracted env extracted_code (os_name l)
     else ret tt);;
    let* i := get_self in
    save_history_json task (INTERPRETER_MODE i) (os_name l) (INTERPRETER_LANGUAGE i)
                      prompt extracted_code (INTERPRRETER_MODEL i).

(** One iteration of the loop for a task that is not [exit] or [quit]. *)
Definition iteration (env : Env) (l : Locals) (task : string) : M unit :=
  let* built := build_prompt env l task in
  let* generated_output := generate_text env built.1 built.2 in
  after_generation env l task built.1 generated_output.

(** [task.lower() in ['exit', 'quit']] *)
Definition is_exit (task : string) : bool := Py.mem (Py.lower task) ["exit"; "quit"].

(** How a run of the loop ends when it does not raise: by [break], or because
    the bound on the number of rounds was reached. *)
Inductive LoopEnd := Broke | Unfinished.

(** The [while True] loop, for at most [rounds] rounds. An exception of a
    round is logged and raised again by the [except] clause of the loop. *)
Fixpoint session_loop (rounds : nat) (env : Env) (l : Locals) : M LoopEnd :=
  match rounds with
  | 0 => ret Unfinished
  | S rounds' =>
      let* task := input "> " in
      if is_exit task then ret Broke
      else iteration env l task;; session_loop rounds' env l
  end.

(** "Seting the mode." *)
Definition set_interpreter_mode (i : Interp) : Interp :=
  if SCRIPT_MODE i then set_mode "Script" i
  else if COMMAND_MODE i then set_mode "Command" i
  else if VISION_MODE i then set_mode "Vision" i
  else i.

(** [str(x)] of a string or [None]. *)
Definition str_opt (x : option string) : string := default "None" x.

(** What [interpreter_main] does before the loop. *)
Definition prelude (env : Env) : M Locals :=
  let os_platform := get_os_platform env in
  let os_name := os_platform.1 in
  modify_self set_interpreter_mode;;
  let* i := get_self in
  let start_sep := default "```" (config_values i !! "start_sep") in
  let end_sep := default "```" (config_values i !! "end_sep") in
  let skip_first_line :=
    String.eqb (default "False" (config_values i !! "skip_first_line")) "True" in
  display ("OS: '" +:+ os_name +:+ "', Language: '" +:+ INTERPRETER_LANGUAGE i
           +:+ "', Mode: '" +:+ INTERPRETER_MODE i +:+ "' Model: '"
           +:+ str_opt (INTERPRRETER_MODEL i) +:+ "'");;
  display ("Welcome to the **Interpreter**. I'm here to **assist** you with your everyday tasks. "
           +:+ nl +:+ "Please enter your task and I'll do my best to help you out.");;
  ret {| os_name := os_name; start_sep := start_sep; end_sep := end_sep;
         skip_first_line := skip_first_line |}.

(** [Interpreter.interpreter_main]. Every round reads at least one line of
    standard input, so one round more than there are lines is enough for the
    loop to end. *)
Definition interpreter_main (env : Env) : M LoopEnd :=
  let* l := prelude env in
  let* h := get_host in
  session_loop (S (length (stdin h))) env l.

(** ** Reading a log *)

(** The number of events of a log that satisfy [P]. *)
Definition count_ev (P : Event -> bool) (l : list Event) : nat :=
  length (List.filter P l).

Definition is_dispatch (e : Event) : bool :=
  match e with EvDispatch _ _ => true | _ => false end.

Definition is_run (e : Event) : bool :=
  match e with EvRun _ _ _ => true | _ => false end.

Definition is_history (e : Event) : bool :=
  match e with EvHistory _ => true | _ => false end.

Definition is_mode_prompt (e : Event) : bool :=
  match e with EvModePrompt _ _ => true | _ => false end.

(** The deletion of the response files: the entry into [_clean_responses]
    and every [os.remove]. *)
Definition is_cleaning (e : Event) : bool :=
  match e with EvClean | EvRemove _ => true | _ => false end.

Definition is_generate (e : Event) : bool :=
  match e with EvGenerate _ => true | _ => false end.

(** The events of the recovery loop: a dispatch, an installation, a wait. *)
Definition is_recovery (e : Event) : bool :=
  match e with EvDispatch _ _ | EvInstall _ _ | EvSleep _ => true | _ => false end.

Definition is_print (e : Event) : bool :=
  match e with EvPrint _ => true | _ => false end.

(** The reading of a task. *)
Definition is_task (e : Event) : bool :=
  match e with EvInput "> " _ => true | _ => false end.

(** A record of a task that is [exit] or [quit]. *)
Definition exit_record (e : Event) : bool :=
  match e with
  | EvHistory r => Py.mem (Py.lower (i_task r)) ["exit"; "quit"]
  | _ => false
  end.

(** What [_clean_responses] may leave in the log after its entry. *)
Definition is_removal (e : Event) : bool :=
  match e with EvRemove _ | EvPrint _ => true | _ => false end.

(** The events that may follow the cleaning in an iteration. *)
Definition after_cleaning (e : Event) : bool :=
  match e with EvModePrompt _ _ | EvClean | EvRemove _ | EvInput "> " _ => false | _ => true end.

(** Every event of [l] that satisfies [P] comes before every event that
    satisfies [Q]: behind an event that satisfies [Q] none satisfies [P]. *)
Definition all_before (P Q : Event -> bool) (l : list Event) : Prop :=
  forall l1 e l2, l = l1 ++ e :: l2 -> Q e = true -> count_ev P l2 = 0.

(** No event of the log of [m] satisfies [P]. *)
Definition quiet {A} (P : Event -> bool) (m : M A) : Prop :=
  forall s, count_ev P (log (m s)) = 0.

(** Every event of the log of [m] satisfies [P]. *)
Definition only {A} (P : Event -> bool) (m : M A) : Prop :=
  forall s, forallb P (log (m s)) = true.

(** [m] keeps the property [I] of the state, also when it raises. *)
Definition keeps {A} (I : Sys -> Prop) (m : M A) : Prop :=
  forall s, I s -> I (final (m s)).

(** The logs an iteration may leave, seen from the recovery loop: no
    dispatch; one dispatch; or one dispatch followed, after an installation
    and a wait of 10, by one more dispatch of the same code for the same
    operating system. *)
Inductive recovery_shape : list Event -> Prop :=
| shape_none (a : list Event) :
    count_ev is_recovery a = 0 -> recovery_shape a
| shape_once (a b : list Event) (code os : string) :
    count_ev is_recovery a = 0 -> count_ev is_recovery b = 0 ->
    recovery_shape (a ++ EvDispatch code os :: b)
| shape_twice (a b c : list Event) (code os package language : string) :
    count_ev is_recovery a = 0 -> count_ev is_recovery b = 0 ->
    count_ev is_recovery c = 0 ->
    recovery_shape (a ++ EvDispatch code os :: b
                      ++ EvInstall package language :: EvSleep 10
                      :: EvDispatch code os :: c).

(** The instructions of the table and chart augmentations. *)
Definition table_python : string :=
  "using Python use Pandas save the table in file called 'table.md'".
Definition table_javascript : string :=
  "using JavaScript use DataTables save the table in file called 'table.html'".
Definition chart_python : string :=
  "using Python use Plotly save the chart in file called 'chart.png'".
Definition chart_javascript : string :=
  "using JavaScript use Chart.js save the chart in file called 'chart.png'".

(** The number of positions of [s] at which [sub] starts. *)
Fixpoint occurrences (sub s : string) : nat :=
  (if String.prefix sub s then 1 else 0) +
  match s with
  | EmptyString => 0
  | String _ s' => occurrences sub s'
  end.

(** The number of flags that are set. *)
Definition count_true (flags : list bool) : nat :=
  length (List.filter (fun b => b) flags).

(** The mode name and the mode flags agree, as [initialize] and the start of
    [interpreter_main] leave them: one flag is set and [INTERPRETER_MODE]
    names it. *)
Definition session_ready (i : Interp) : bool :=
  (count_true [CODE_MODE i; SCRIPT_MODE i; COMMAND_MODE i; VISION_MODE i] =? 1)%nat
  && String.eqb (INTERPRETER_MODE i)
       (if SCRIPT_MODE i then "Script" else if COMMAND_MODE i then "Command"
        else if VISION_MODE i then "Vision" else "code").

(** Is the value of [HUGGINGFACE_API_KEY] present and does it start with
    [hf_]. *)
Definition hf_key_valid (key : option string) : bool :=
  match key with
  | Some token => Py.startswith token "hf_"
  | None => false
  end.

(** The variables a process finds once both [.env] files are loaded. *)
Definition effective_environ (env : Env) (h : Host) : gmap string string :=
  environ h ∪ dotenv_found env ∪ dotenv_cwd env.

(** What the environment holds once [load_dotenv()] has run: for every name
    the value of the process or of the first file, or else either nothing or
    the value of the second file. *)
Definition loaded (env : Env) (e0 e : gmap string string) : Prop :=
  forall k, e !! k = (e0 ∪ dotenv_found env) !! k \/
            ((e0 ∪ dotenv_found env) !! k = None /\
             (e !! k = None \/ e !! k = dotenv_cwd env !! k)).

(** A record that is saved is a record of the task. *)
Definition history_of (task : string) (e : Event) : bool :=
  match e with
  | EvHistory r => String.eqb (i_task r) task
  | _ => true
  end.

(** When [m] returns, the state it leaves satisfies [Q]. *)
Definition ensures {A} (Q : Sys -> Prop) (m : M A) : Prop :=
  forall s a, value (m s) = Ok a -> Q (final (m s)).

(** Every log of [m] satisfies [R]. *)
Definition leaves {A} (R : list Event -> Prop) (m : M A) : Prop :=
  forall s, R (log (m s)).

(** *** Further readings of a log and of a state *)


(** A call of the model provider. *)
Definition is_provider (e : Event) : bool :=
  match e with EvCompletion _ _ | EvVision _ => true | _ => false end.

Definition is_save (e : Event) : bool :=
  match e with EvSaveCode _ _ => true | _ => false end.

Definition is_open (e : Event) : bool :=
  match e with EvOpen _ _ => true | _ => false end.

(** What an iteration does with extracted code: saving it, dispatching it,
    running it, installing a package, waiting, opening a resource file. *)
Definition is_execution (e : Event) : bool :=
  match e with
  | EvSaveCode _ _ | EvDispatch _ _ | EvRun _ _ _ | EvInstall _ _ | EvSleep _
  | EvOpen _ _ => true
  | _ => false
  end.

(** The lines that the events of a log read from standard input. *)
Fixpoint input_lines (lg : list Event) : list string :=
  match lg with
  | [] => []
  | EvInput _ line :: rest => line :: input_lines rest
  | _ :: rest => input_lines rest
  end.

(** The tasks that the events of a log read. *)
Fixpoint tasks_read (lg : list Event) : list string :=
  match lg with
  | [] => []
  | EvInput "> " line :: rest => line :: tasks_read rest
  | _ :: rest => tasks_read rest
  end.

(** What [m] reads from standard input is what its log says, in that order,
    and [m] does nothing else to standard input. *)
Definition reads {A} (m : M A) : Prop :=
  forall s, stdin (host s) = input_lines (log (m s)) ++ stdin (host (final (m s))).

(** The log of [m] has at most one event that satisfies [P]. *)
Definition at_most_one {A} (P : Event -> bool) (m : M A) : Prop :=
  forall s, count_ev P (log (m s)) <= 1.

(** The model name with the tag of the Hugging Face provider, as
    [generate_text] writes it for a model of no other provider. *)
Definition hf_tagged (model : string) : string :=
  if negb (Py.contains "huggingface/" model) then "huggingface/" +:+ model else model.

(** The instructions of the graph augmentation. *)
Definition graph_python : string :=
  "using Python use Matplotlib save the graph in file called 'graph.png'".
Definition graph_javascript : string :=
  "using JavaScript use Chart.js save the graph in file called 'graph.png'".

(** The command that opens a file on the platform of the host, if it has one. *)
Definition opener_of (system : string) : option string :=
  if String.eqb system "Windows" then Some "start"
  else if String.eqb system "Darwin" then Some "open"
  else if String.eqb system "Linux" then Some "xdg-open"
  else None.

(** The name of the configuration file that [initialize_client] reads for a
    model name. *)
Definition config_file_of (model : string) : string :=
  match model with
  | "" => "configs/gpt-3.5-turbo.config"
  | _ => "configs/" +:+ model +:+ ".config"
  end.

(** The settings of a session: the options, the mode name and flags, the
    configuration and the system message. *)
Definition settings (i : Interp) :=
  (SAVE_CODE i, EXECUTE_CODE i, DISPLAY_CODE i, INTERPRETER_MODE i,
   (CODE_MODE i, SCRIPT_MODE i, COMMAND_MODE i, VISION_MODE i),
   config_values i, system_message i).

(** The runner that [execute_code] calls for the mode flags, and what it
    gives it besides the code. *)
Definition mode_runner (i : Interp) : Runner :=
  if SCRIPT_MODE i then ScriptRunner
  else if COMMAND_MODE i then CommandRunner
  else CodeRunner.

Definition runner_argument (i : Interp) (os_name : string) : string :=
  if SCRIPT_MODE i then os_name
  else if COMMAND_MODE i then ""
  else INTERPRETER_LANGUAGE i.

(** An event that the opening of the resource files may leave: a message, or
    the call of the command of the platform [system] on one of the files
    [names] that exists in [fs]. *)
Definition opened_by (system : string) (fs : gmap string string) (names : list string)
    (e : Event) : Prop :=
  match e with
  | EvOpen cmd file =>
      opener_of system = Some cmd /\ In file names /\ is_Some (fs !! file)
  | EvDisplay _ => True
  | _ => False
  end.

(** The log of [m] has at most one event that satisfies [P], and exactly one
    when [m] returns. *)
Definition once_to_return {A} (P : Event -> bool) (m : M A) : Prop :=
  forall s, count_ev P (log (m s)) <= 1 /\
            forall a, value (m s) = Ok a -> count_ev P (log (m s)) = 1.

(** The providers that [generate_text] tells apart, and the provider it
    chooses for a model name. *)
Inductive Provider := OpenAI | Palm | Gemini | HuggingFace.

Definition provider_of (model : string) : Provider :=
  if Py.contains "gpt" model then OpenAI
  else if Py.contains "palm" model then Palm
  else if Py.contains "gemini" model then Gemini
  else HuggingFace.


(** The variable [name] of the environment [e] is set, is not empty and
    passes the test of the key: [bad] rejects it not. *)
Definition key_accepted (bad : string -> bool) (name : string)
    (e : gmap string string) : Prop :=
  exists key, e !! name = Some key /\ Py.truthy key = true /\ bad key = false.

(** The tests that [initialize_client] applies to the keys: the prefix of an
    OpenAI and of a Hugging Face key, and the form of the keys of the
    dictionary [model_api_keys]. *)
Definition bad_openai_key (key : string) : bool := negb (Py.startswith key "sk-").
Definition bad_huggingface_key (key : string) : bool := negb (Py.startswith key "hf_").
Definition bad_api_key (key : string) : bool :=
  Py.contains " " key || (String.length key <=? 15)%nat.

Definition is_install (e : Event) : bool :=
  match e with EvInstall _ _ => true | _ => false end.

(** The error that [execute_code] returns for the outcome of a runner: the
    second component of the pair, or the text of the exception. *)
Definition error_of (outcome : RunOutcome) : option string :=
  match outcome with
  | Returned _ err _ => err
  | Crashed e => Some (exn_text e)
  end.

(** ** A sample installation

    A Linux host with a configuration for [gpt-4]; the model answers with a
    code block that imports [pandas]; the first run of it fails for the
    missing package and every later run succeeds and leaves [graph.png]. *)

Definition sample_env : Env := {|
  uname_system := "Linux";
  uname_version := "6.1";
  re_search_file := fun _ => None;
  splitext_ext := fun _ => "";
  path_isabs := fun _ => false;
  getcwd := "/home/user";
  path_join := fun a b => a +:+ "/" +:+ b;
  open_error := fun _ => None;
  decode_default := Some;
  decode_utf8 := Some;
  csv_headers_str := fun _ => Some "[]";
  dotenv_found := ∅;
  dotenv_cwd := ∅;
  float_ok := fun _ => true;
  int_ok := fun _ => true;
  completion := fun _ _ _ _ => Ok (Some "```import pandas```");
  gemini_import := Ok tt;
  gemini_vision_url := fun _ _ _ => Ok "a picture";
  gemini_vision_path := fun _ _ _ => Ok "a picture";
  extract_code := fun _ _ _ _ _ => "import pandas";
  run := fun n _ _ _ =>
    if (n <=? 2)%nat
    then Returned None (Some "ModuleNotFoundError: No module named 'pandas'") []
    else Returned (Some "done") None [("graph.png", "")];
  extract_package_name := fun _ _ => Some "pandas";
  strftime := fun _ => "2024_01_01-00_00_00";
  remove_error := fun _ _ => None;
  subprocess_error := fun _ _ _ => None
|}.

Definition sample_host (lines : list string) : Host := {|
  stdin := lines;
  files := <["system/system_message.txt" := "You are a helpful assistant."]>
           (<["configs/gpt-4.config" :=
                "temperature = 0.1" +:+ nl +:+ "# limits" +:+ nl +:+ "max_tokens=100" +:+ nl]> ∅);
  environ := <["OPENAI_API_KEY" := "sk-0123456789"]>
             (<["HUGGINGFACE_API_KEY" := "hf_0123456789"]> ∅);
  calls := 0
|}.

(** The object before [initialize] has filled it. *)
Definition blank : Interp := {|
  INTERPRETER_LANGUAGE := ""; SAVE_CODE := false; EXECUTE_CODE := false;
  DISPLAY_CODE := false; INTERPRRETER_MODEL := None; INTERPRETER_MODE := "";
  CODE_MODE := false; SCRIPT_MODE := false; COMMAND_MODE := false;
  VISION_MODE := false; history := []; config_values := ∅; system_message := "" |}.

Definition sample_args (mode : option string) (exec : bool) : Args := {|
  arg_lang := None; arg_save_code := true; arg_exec := exec;
  arg_display_code := false; arg_model := Some "gpt-4"; arg_mode := mode |}.

(** The state in which the loop of [interpreter_main] starts, and the local
    variables of the loop. *)
Definition sample_start (mode : option string) (exec : bool) (lines : list string)
  : Run Locals :=
  (initialize sample_env (sample_args mode exec);; prelude sample_env)
    {| self := blank; host := sample_host lines |}.

Definition sample_sys (mode : option string) (exec : bool) (lines : list string) : Sys :=
  final (sample_start mode exec lines).

Definition sample_locals : Locals :=
  {| os_name := "Linux"; start_sep := "```"; end_sep := "```"; skip_first_line := false |}.

(** A second installation, for Vision mode: the model is Gemini Pro Vision,
    the task names the picture [cat.png], which lies in the working directory
    and is no text. *)

Definition vision_env : Env := {|
  uname_system := "Linux";
  uname_version := "6.1";
  re_search_file := fun prompt =>
    if Py.contains "cat.png" prompt then Some "cat.png" else None;
  splitext_ext := fun path => if Py.contains ".png" path then ".png" else "";
  path_isabs := fun _ => false;
  getcwd := "/home/user";
  path_join := fun a b => a +:+ "/" +:+ b;
  open_error := fun _ => None;
  decode_default := Some;
  decode_utf8 := fun _ => None;
  csv_headers_str := fun _ => Some "[]";
  dotenv_found := ∅;
  dotenv_cwd := ∅;
  float_ok := fun _ => true;
  int_ok := fun _ => true;
  completion := fun _ _ _ _ => Raise "vision model";
  gemini_import := Ok tt;
  gemini_vision_url := fun _ _ _ => Ok "A cat on a sofa.";
  gemini_vision_path := fun _ _ _ => Ok "A cat on a sofa.";
  extract_code := fun _ _ _ _ _ => "";
  run := fun _ _ _ _ => Crashed "not called";
  extract_package_name := fun _ _ => None;
  strftime := fun _ => "2024_01_01-00_00_00";
  remove_error := fun _ _ => None;
  subprocess_error := fun _ _ _ => None
|}.

Definition vision_host (lines : list string) : Host := {|
  stdin := lines;
  files := <["system/system_message.txt" := "You are a helpful assistant."]>
           (<["configs/gemini-pro-vision.config" := "temperature = 0.1" +:+ nl]>
           (<["/home/user/cat.png" := "PNG"]> ∅));
  environ := <["GEMINI_API_KEY" := "0123456789abcdefgh"]>
             (<["HUGGINGFACE_API_KEY" := "hf_0123456789"]> ∅);
  calls := 0
|}.

Definition vision_args : Args := {|
  arg_lang := None; arg_save_code := false; arg_exec := true;
  arg_display_code := false; arg_model := Some "gemini-pro-vision";
  arg_mode := Some "vision" |}.

(** The state in which the loop starts in this installation. *)
Definition vision_sys (lines : list string) : Sys :=
  final ((initialize vision_env vision_args;; prelude vision_env)
           {| self := blank; host := vision_host lines |}).

(** Variations of the sample installation. *)

(** The sample installation with runners that raise. *)
Definition crash_env : Env := {|
  uname_system := uname_system sample_env;
  uname_version := uname_version sample_env;
  re_search_file := re_search_file sample_env;
  splitext_ext := splitext_ext sample_env;
  path_isabs := path_isabs sample_env;
  getcwd := getcwd sample_env;
  path_join := path_join sample_env;
  open_error := open_error sample_env;
  decode_default := decode_default sample_env;
  decode_utf8 := decode_utf8 sample_env;
  csv_headers_str := csv_headers_str sample_env;
  dotenv_found := dotenv_found sample_env;
  dotenv_cwd := dotenv_cwd sample_env;
  float_ok := float_ok sample_env;
  int_ok := int_ok sample_env;
  completion := completion sample_env;
  gemini_import := gemini_import sample_env;
  gemini_vision_url := gemini_vision_url sample_env;
  gemini_vision_path := gemini_vision_path sample_env;
  extract_code := extract_code sample_env;
  run := fun _ _ _ _ => Crashed "killed";
  extract_package_name := extract_package_name sample_env;
  strftime := strftime sample_env;
  remove_error := remove_error sample_env;
  subprocess_error := subprocess_error sample_env
|}.

(** The sample installation with a model whose answer holds no code block,
    and an extractor that finds code only behind a start separator. *)
Definition silent_env : Env := {|
  uname_system := uname_system sample_env;
  uname_version := uname_version sample_env;
  re_search_file := re_search_file sample_env;
  splitext_ext := splitext_ext sample_env;
  path_isabs := path_isabs sample_env;
  getcwd := getcwd sample_env;
  path_join := path_join sample_env;
  open_error := open_error sample_env;
  decode_default := decode_default sample_env;
  decode_utf8 := decode_utf8 sample_env;
  csv_headers_str := csv_headers_str sample_env;
  dotenv_found := dotenv_found sample_env;
  dotenv_cwd := dotenv_cwd sample_env;
  float_ok := float_ok sample_env;
  int_ok := int_ok sample_env;
  completion := fun _ _ _ _ => Ok (Some "I cannot help with that.");
  gemini_import := gemini_import sample_env;
  gemini_vision_url := gemini_vision_url sample_env;
  gemini_vision_path := gemini_vision_path sample_env;
  extract_code := fun text start_sep _ _ _ =>
    if Py.contains start_sep text then "print(1)" else "";
  run := run sample_env;
  extract_package_name := extract_package_name sample_env;
  strftime := strftime sample_env;
  remove_error := remove_error sample_env;
  subprocess_error := subprocess_error sample_env
|}.

(** The sample installation when the prompts name the file [sales.csv]. *)
Definition data_env : Env := {|
  uname_system := uname_system sample_env;
  uname_version := uname_version sample_env;
  re_search_file := fun _ => Some "sales.csv";
  splitext_ext := fun _ => ".csv";
  path_isabs := path_isabs sample_env;
  getcwd := getcwd sample_env;
  path_join := path_join sample_env;
  open_error := open_error sample_env;
  decode_default := decode_default sample_env;
  decode_utf8 := decode_utf8 sample_env;
  csv_headers_str := fun _ => Some "['month', 'total']";
  dotenv_found := dotenv_found sample_env;
  dotenv_cwd := dotenv_cwd sample_env;
  float_ok := float_ok sample_env;
  int_ok := int_ok sample_env;
  completion := completion sample_env;
  gemini_import := gemini_import sample_env;
  gemini_vision_url := gemini_vision_url sample_env;
  gemini_vision_path := gemini_vision_path sample_env;
  extract_code := extract_code sample_env;
  run := run sample_env;
  extract_package_name := extract_package_name sample_env;
  strftime := strftime sample_env;
  remove_error := remove_error sample_env;
  subprocess_error := subprocess_error sample_env
|}.

Definition data_sys : Sys :=
  {| self := self (sample_sys None true []);
     host := set_files (<["/home/user/sales.csv" := "month,total" +:+ nl +:+ "1,10" +:+ nl]>
                          (files (host (sample_sys None true []))))
                       (host (sample_sys None true [])) |}.

(** The sample installation where [chart.png] cannot be removed. *)
Definition locked_env : Env := {|
  uname_system := uname_system sample_env;
  uname_version := uname_version sample_env;
  re_search_file := re_search_file sample_env;
  splitext_ext := splitext_ext sample_env;
  path_isabs := path_isabs sample_env;
  getcwd := getcwd sample_env;
  path_join := path_join sample_env;
  open_error := open_error sample_env;
  decode_default := decode_default sample_env;
  decode_utf8 := decode_utf8 sample_env;
  csv_headers_str := csv_headers_str sample_env;
  dotenv_found := dotenv_found sample_env;
  dotenv_cwd := dotenv_cwd sample_env;
  float_ok := float_ok sample_env;
  int_ok := int_ok sample_env;
  completion := completion sample_env;
  gemini_import := gemini_import sample_env;
  gemini_vision_url := gemini_vision_url sample_env;
  gemini_vision_path := gemini_vision_path sample_env;
  extract_code := extract_code sample_env;
  run := run sample_env;
  extract_package_name := extract_package_name sample_env;
  strftime := strftime sample_env;
  remove_error := fun _ file =>
    if String.eqb file "chart.png"
    then Some "[Errno 13] Permission denied: 'chart.png'" else None;
  subprocess_error := subprocess_error sample_env
|}.

(** The sample session with the response files of an earlier task. *)
Definition locked_sys : Sys :=
  {| self := self (sample_sys None true []);
     host := set_files (<["graph.png" := "PNG"]> (<["chart.png" := "PNG"]>
                          (files (host (sample_sys None true [])))))
                       (host (sample_sys None true [])) |}.

(** ** Proof rules for logs and states *)

Lemma count_ev_app P (l1 l2 : list Event) :
  count_ev P (l1 ++ l2) = count_ev P l1 + count_ev P l2.
Proof. unfold count_ev. by rewrite List.filter_app, length_app. Qed.

Lemma count_ev_cons P e (l : list Event) :
  count_ev P (e :: l) = (if P e then 1 else 0) + count_ev P l.
Proof. unfold count_ev. simpl. by destruct (P e). Qed.

Lemma log_bind {A B} (m : M A) (f : A -> M B) s :
  log (bind m f s) =
  log (m s) ++ match value (m s) with
               | Ok a => log (f a (final (m s)))
               | Raise _ => []
               end.
Proof. unfold bind. destruct (value (m s)); simpl; by rewrite ?app_nil_r. Qed.

Lemma value_bind {A B} (m : M A) (f : A -> M B) s :
  value (bind m f s) =
  match value (m s) with
  | Ok a => value (f a (final (m s)))
  | Raise msg => Raise msg
  end.
Proof. unfold bind. by destruct (value (m s)). Qed.

Lemma final_bind {A B} (m : M A) (f : A -> M B) s :
  final (bind m f s) =
  match value (m s) with
  | Ok a => final (f a (final (m s)))
  | Raise _ => final (m s)
  end.
Proof. unfold bind. by destruct (value (m s)). Qed.

Lemma log_try {A} (m : M A) (h : string -> M A) s :
  log (try_except m h s) =
  log (m s) ++ match value (m s) with
               | Raise (Exception msg) => log (h msg (final (m s)))
               | _ => []
               end.
Proof.
  unfold try_except. destruct (value (m s)) as [a|[msg|t]]; simpl; by rewrite ?app_nil_r.
Qed.

Lemma final_try {A} (m : M A) (h : string -> M A) s :
  final (try_except m h s) =
  match value (m s) with
  | Raise (Exception msg) => final (h msg (final (m s)))
  | _ => final (m s)
  end.
Proof. unfold try_except. by destruct (value (m s)) as [a|[msg|t]]. Qed.

Lemma value_try {A} (m : M A) (h : string -> M A) s :
  value (try_except m h s) =
  match value (m s) with
  | Ok a => Ok a
  | Raise (Exception msg) => value (h msg (final (m s)))
  | Raise (BaseException t) => Raise (BaseException t)
  end.
Proof. unfold try_except. by destruct (value (m s)) as [a|[msg|t]] eqn:E. Qed.

Section Rules.
Context {A B : Type}.
Variable P : Event -> bool.
Variable I : Sys -> Prop.

Lemma quiet_bind (m : M A) (f : A -> M B) :
  quiet P m -> (forall a, quiet P (f a)) -> quiet P (bind m f).
Proof.
  intros Hm Hf s. rewrite log_bind, count_ev_app, Hm.
  destruct (value (m s)); [apply Hf | done].
Qed.

Lemma quiet_try (m : M A) (h : string -> M A) :
  quiet P m -> (forall msg, quiet P (h msg)) -> quiet P (try_except m h).
Proof.
  intros Hm Hh s. rewrite log_try, count_ev_app, Hm.
  destruct (value (m s)) as [a|[msg|t]]; [done | apply Hh | done].
Qed.

Lemma quiet_ret (a : A) : quiet P (ret a).
Proof. done. Qed.

Lemma quiet_raise msg : quiet P (@raise A msg).
Proof. done. Qed.

Lemma quiet_lift (r : Res A) : quiet P (lift r).
Proof. done. Qed.

Lemma quiet_emit e : P e = false -> quiet P (emit e).
Proof. intros H s. unfold emit, count_ev. simpl. by rewrite H. Qed.

Lemma quiet_input ask :
  (forall line, P (EvInput ask line) = false) -> quiet P (input ask).
Proof.
  intros H s. unfold input. destruct (stdin (host s)); [done |].
  unfold count_ev. simpl. by rewrite H.
Qed.

Lemma only_bind (m : M A) (f : A -> M B) :
  only P m -> (forall a, only P (f a)) -> only P (bind m f).
Proof.
  intros Hm Hf s. rewrite log_bind, forallb_app, Hm.
  destruct (value (m s)); [apply Hf | done].
Qed.

Lemma only_try (m : M A) (h : string -> M A) :
  only P m -> (forall msg, only P (h msg)) -> only P (try_except m h).
Proof.
  intros Hm Hh s. rewrite log_try, forallb_app, Hm.
  destruct (value (m s)) as [a|[msg|t]]; [done | apply Hh | done].
Qed.

Lemma only_emit e : P e = true -> only P (emit e).
Proof. intros H s. unfold emit. simpl. by rewrite H. Qed.

Lemma only_input ask :
  (forall line, P (EvInput ask line) = true) -> only P (input ask).
Proof.
  intros H s. unfold input. destruct (stdin (host s)); [done |].
  simpl. by rewrite H.
Qed.

Lemma keeps_bind (m : M A) (f : A -> M B) :
  keeps I m -> (forall a, keeps I (f a)) -> keeps I (bind m f).
Proof.
  intros Hm Hf s Hs. rewrite final_bind.
  destruct (value (m s)); [apply Hf |]; by apply Hm.
Qed.

Lemma keeps_try (m : M A) (h : string -> M A) :
  keeps I m -> (forall msg, keeps I (h msg)) -> keeps I (try_except m h).
Proof.
  intros Hm Hh s Hs. rewrite final_try.
  destruct (value (m s)) as [a|[msg|t]]; [| apply Hh |]; by apply Hm.
Qed.

Lemma keeps_input ask :
  (forall line rest s, stdin (host s) = line :: rest -> I s ->
     I {| self := self s; host := set_stdin rest (host s) |}) ->
  keeps I (input ask).
Proof.
  intros H s Hs. unfold input. destruct (stdin (host s)) eqn:E; [done |].
  by apply (H _ _ _ E).
Qed.

Lemma keeps_same (m : M A) : (forall s, final (m s) = s) -> keeps I m.
Proof. intros H s Hs. by rewrite H. Qed.
End Rules.

Lemma quiet_for_each {A} P (f : A -> M unit) (l : list A) :
  (forall x, quiet P (f x)) -> quiet P (for_each f l).
Proof.
  intros Hf. induction l as [|x l IH]; [done |].
  cbn [for_each]. apply quiet_bind; [apply Hf | by intros _].
Qed.

Lemma only_for_each {A} P (f : A -> M unit) (l : list A) :
  (forall x, only P (f x)) -> only P (for_each f l).
Proof.
  intros Hf. induction l as [|x l IH]; [done |].
  cbn [for_each]. apply only_bind; [apply Hf | by intros _].
Qed.

Lemma keeps_for_each {A} I (f : A -> M unit) (l : list A) :
  (forall x, keeps I (f x)) -> keeps I (for_each f l).
Proof.
  intros Hf. induction l as [|x l IH]; [by intros s Hs |].
  cbn [for_each]. apply keeps_bind; [apply Hf | by intros _].
Qed.

Create HintDb quiet discriminated.

Ltac head_of t :=
  lazymatch t with
  | ?f _ => head_of f
  | _ => t
  end.

(** Leaves of a method: the primitives of the monad. *)
Ltac quiet_leaf :=
  first [ apply quiet_ret | apply quiet_raise | apply quiet_lift
        | apply quiet_emit; reflexivity
        | apply quiet_input; intros; reflexivity
        | intros ?; reflexivity ].

(** [quiet P m] by descent into the structure of [m]. *)
Ltac quiet_tac :=
  repeat first
    [ quiet_leaf
    | solve [auto with quiet]
    | apply quiet_bind; [| intros ?]
    | apply quiet_for_each; intros ?
    | apply quiet_try; [| intros ?]
    | progress cbv zeta
    | lazymatch goal with
      | |- quiet _ (if ?b then _ else _) => destruct b
      | |- quiet _ (match ?x with _ => _ end) => destruct x
      end
    | lazymatch goal with
      | |- quiet _ ?m => let h := head_of m in progress unfold h
      end ].

Create HintDb keeps discriminated.

(** [keeps I m] by descent; [leaf] proves [I s -> I s'] for the state [s']
    that a primitive leaves. *)
Ltac keeps_tac leaf :=
  repeat first
    [ solve [intros ?; leaf]
    | solve [apply keeps_input; do 4 intro; leaf]
    | solve [auto with keeps]
    | apply keeps_bind; [| intros ?]
    | apply keeps_for_each; intros ?
    | apply keeps_try; [| intros ?]
    | progress cbv zeta
    | lazymatch goal with
      | |- keeps _ (if ?b then _ else _) => destruct b
      | |- keeps _ (match ?x with _ => _ end) => destruct x
      end
    | lazymatch goal with
      | |- keeps _ ?m => let h := head_of m in progress unfold h
      end ].

(** The leaf for a property that the primitives do not touch. *)
Ltac untouched := exact (fun H => H).

Create HintDb only discriminated.

(** [only P m] by descent; [leaf] closes the events. *)
Ltac only_tac leaf :=
  repeat first
    [ solve [intros ?; reflexivity]
    | solve [apply only_emit; leaf]
    | solve [apply only_input; intros ?; leaf]
    | solve [auto with only]
    | apply only_bind; [| intros ?]
    | apply only_for_each; intros ?
    | apply only_try; [| intros ?]
    | progress cbv zeta
    | lazymatch goal with
      | |- only _ (if ?b then _ else _) => destruct b
      | |- only _ (match ?x with _ => _ end) => destruct x
      end
    | lazymatch goal with
      | |- only _ ?m => let h := head_of m in progress unfold h
      end ].

(** From a count over the log of [m] in some state to [quiet]. *)
Ltac by_quiet :=
  lazymatch goal with
  | |- count_ev ?P (log (?m ?s)) = 0 =>
      cut (quiet P m); [intros Hq; apply Hq | quiet_tac]
  end.

(** ** Strings *)

Lemma append_cons c (a b : string) : String c a +:+ b = String c (a +:+ b).
Proof. reflexivity. Qed.

Lemma append_nil_l (b : string) : "" +:+ b = b.
Proof. reflexivity. Qed.

Lemma append_nil_r (s : string) : s +:+ "" = s.
Proof. induction s; rewrite ?append_cons; [done | by f_equal]. Qed.

Lemma lower_append (a b : string) : Py.lower (a +:+ b) = Py.lower a +:+ Py.lower b.
Proof. induction a; rewrite ?append_cons; simpl; [done | by rewrite append_cons; f_equal]. Qed.

Lemma prefix_append (sub a b : string) :
  String.prefix sub a = true -> String.prefix sub (a +:+ b) = true.
Proof.
  revert sub. induction a as [|d a IH]; intros [|c sub]; rewrite ?append_cons; simpl; try done.
  - by destruct b.
  - destruct (ascii_dec c d); [apply IH | done].
Qed.

Lemma contains_append (sub a b : string) :
  Py.contains sub a = true -> Py.contains sub (a +:+ b) = true.
Proof.
  induction a as [|c a IH].
  - simpl. rewrite orb_false_r. intros H. destruct sub; [by destruct b | done].
  - rewrite append_cons. cbn [Py.contains].
    intros [H | H]%orb_true_iff; apply orb_true_iff.
    + left. by apply (prefix_append sub (String c a) b).
    + right. by apply IH.
Qed.

Lemma any_in_append (words : list string) (a b : string) :
  Py.any_in words a = true -> Py.any_in words (a +:+ b) = true.
Proof.
  unfold Py.any_in. rewrite !existsb_exists.
  intros (w & Hw & H). exists w. split; [done | by apply contains_append].
Qed.

(** A text without newline starts at a position of [q] in [q +:+ nl +:+ x]
    exactly when it starts there in [q]. *)
Lemma prefix_before_newline (t q x : string) :
  Py.contains nl t = false ->
  String.prefix t (q +:+ nl +:+ x) = String.prefix t q.
Proof.
  revert t. induction q as [|d q IH]; intros [|c t];
    rewrite ?append_cons, ?append_nil_l; try done.
  - intros H. unfold nl. rewrite append_cons. simpl.
    destruct (ascii_dec c "010"%char) as [-> | Hne]; [| done].
    simpl in H. by destruct t.
  - intros H. simpl. destruct (ascii_dec c d); [| done]. apply IH.
    cbn [Py.contains] in H. apply orb_false_iff in H as [_ H]. exact H.
Qed.

(** Appending a line adds the occurrences inside that line and no other. *)
Lemma occurrences_append_line (t q x : string) :
  Py.contains nl t = false -> t <> "" ->
  occurrences t (q +:+ nl +:+ x) = occurrences t q + occurrences t x.
Proof.
  intros Ht Hne. induction q as [|d q IH].
  - rewrite append_nil_l. unfold nl. rewrite append_cons, append_nil_l.
    destruct t as [|c t]; [done |]. cbn [occurrences]. simpl.
    destruct (ascii_dec c "010"%char) as [-> | Hc]; [| done].
    simpl in Ht. by destruct t.
  - rewrite append_cons. cbn [occurrences]. rewrite IH.
    rewrite <- append_cons.
    rewrite (prefix_before_newline t (String d q) x Ht). lia.
Qed.

(** ** Mode initialization *)

(** C10. After [initialize_mode], for every value of the mode argument
    (absent ones included), exactly one of the four flags [CODE_MODE],
    [SCRIPT_MODE], [COMMAND_MODE], [VISION_MODE] is set; the three named
    modes set their own flag, and every other argument gives Code mode. *)
Theorem initialize_mode_exactly_one (mode : option string) (i : Interp) :
  let i' := initialize_mode mode i in
  count_true [CODE_MODE i'; SCRIPT_MODE i'; COMMAND_MODE i'; VISION_MODE i'] = 1 /\
  SCRIPT_MODE i' = opt_is mode "script" /\
  COMMAND_MODE i' = opt_is mode "command" /\
  VISION_MODE i' = opt_is mode "vision" /\
  CODE_MODE i' =
    negb (opt_is mode "script" || opt_is mode "command" || opt_is mode "vision").
Proof.
  destruct mode as [m|]; [| by cbv].
  unfold initialize_mode, opt_is. cbn [CODE_MODE SCRIPT_MODE COMMAND_MODE VISION_MODE set_flags].
  destruct (String.eqb_spec m "script") as [-> | _]; [by cbv |].
  destruct (String.eqb_spec m "command") as [-> | _]; [by cbv |].
  destruct (String.eqb_spec m "vision") as [-> | _]; [by cbv |].
  by cbv.
Qed.

(** ** The prompt builders *)

Lemma language_map_lookup (k : string) :
  default "python" (language_map !! k) =
  if String.eqb k "macos" then "applescript"
  else if String.eqb k "linux" then "bash"
  else if String.eqb k "windows" then "powershell"
  else "python".
Proof.
  unfold language_map.
  destruct (String.eqb_spec k "macos") as [-> | H1]; [done |].
  rewrite lookup_insert_ne by done.
  destruct (String.eqb_spec k "linux") as [-> | H2]; [done |].
  rewrite lookup_insert_ne by done.
  destruct (String.eqb_spec k "windows") as [-> | H3]; [done |].
  by rewrite lookup_insert_ne by done.
Qed.

(** C2, as the code has it. In Script mode, for every task and [os_name],
    building the prompt sets the target language from the lowercased
    [os_name]: [macos] to [applescript], [linux] to [bash], [windows] to
    [powershell], and every other name to [python]; the prompt carries the
    wording "Apple script", "Bash Shell script", "Powershell script", and the
    generic "script" for every other name. *)
Theorem script_prompt_dialect (i0 : Interp) (h : Host) (task os_name : string) :
  let s := {| self := initialize_mode (Some "script") i0; host := h |} in
  let r := get_mode_prompt task os_name s in
  INTERPRETER_LANGUAGE (self (final r)) =
    (if String.eqb (Py.lower os_name) "macos" then "applescript"
     else if String.eqb (Py.lower os_name) "linux" then "bash"
     else if String.eqb (Py.lower os_name) "windows" then "powershell"
     else "python") /\
  value r =
    Ok (Some (nl +:+ "Generate "
              +:+ (if String.eqb (Py.lower os_name) "macos" then "Apple script"
                   else if String.eqb (Py.lower os_name) "linux" then "Bash Shell script"
                   else if String.eqb (Py.lower os_name) "windows" then "Powershell script"
                   else "script")
              +:+ " for this prompt and make this script easy to read and understand for this task '"
              +:+ task +:+ " for Operating System is " +:+ os_name +:+ "'.")).
Proof.
  split.
  - cbn. apply language_map_lookup.
  - reflexivity.
Qed.

(** C2 fails as stated: on a host whose system is none of the three, which
    [get_os_platform] names [Other], Script mode sets the target language to
    [python], not to a generic [script] dialect. *)
Lemma script_prompt_dialect_counterexample :
  let s := {| self := initialize_mode (Some "script") blank; host := sample_host [] |} in
  let r := get_mode_prompt "list the files" "Other" s in
  Py.mem (Py.lower "Other") ["macos"; "linux"; "windows"] = false /\
  INTERPRETER_LANGUAGE (self (final r)) = "python" /\
  INTERPRETER_LANGUAGE (self (final r)) <> "script".
Proof. by vm_compute. Qed.

(** ** The keyword augmentations *)

(** C5, as the code has it. For every prompt whose lowercased text contains
    [table], the augmentation appends the instruction to save the table to
    [table.md] when the target language is [python], the instruction to save
    it to [table.html] when the target language is [javascript], and nothing
    for any other target language; this also holds of the prompt that went
    through the graph and chart augmentations before. *)
Theorem table_augmentation (language prompt : string)
    (Htable : Py.contains "table" (Py.lower prompt) = true) :
  let instruction :=
    if String.eqb language "python" then nl +:+ table_python
    else if String.eqb language "javascript" then nl +:+ table_javascript
    else "" in
  augment_table language prompt = prompt +:+ instruction /\
  augment language prompt =
    augment_chart language (augment_graph language prompt) +:+ instruction.
Proof.
  assert (Hstep : forall p, Py.contains "table" (Py.lower p) = true ->
            augment_table language p =
            p +:+ (if String.eqb language "python" then nl +:+ table_python
                   else if String.eqb language "javascript" then nl +:+ table_javascript
                   else "")).
  { intros p Hp. unfold augment_table. rewrite Hp.
    destruct (String.eqb language "python"); [done |].
    destruct (String.eqb language "javascript"); [done |].
    by rewrite append_nil_r. }
  split; [by apply Hstep |].
  unfold augment. apply Hstep.
  assert (Hg : Py.contains "table" (Py.lower (augment_graph language prompt)) = true).
  { unfold augment_graph.
    repeat match goal with |- context [if ?b then _ else _] => destruct b end;
      rewrite ?lower_append; by try apply contains_append. }
  unfold augment_chart.
  repeat match goal with |- context [if ?b then _ else _] => destruct b end;
    rewrite ?lower_append; by try apply contains_append.
Qed.

Lemma table_augmentation_witness :
  augment_table "javascript" "Show a Table of users" =
    "Show a Table of users" +:+ nl +:+ table_javascript.
Proof.
  apply (table_augmentation "javascript" "Show a Table of users"). reflexivity.
Defined.

(** C5 fails as stated: for the target language [bash], which Script mode
    sets on Linux, a prompt that contains [table] gets no instruction at all,
    so none that names [table.html]. *)
Lemma table_augmentation_counterexample :
  Py.contains "table" (Py.lower "make a table") = true /\
  "bash" <> "python" /\
  augment_table "bash" "make a table" = "make a table" /\
  Py.contains "table.html" (augment_table "bash" "make a table") = false.
Proof. by vm_compute. Qed.

(** C9, as the code has it. Whenever the lowercased prompt contains any of
    [chart], [charts], [plot], [plots], however many of them, the chart
    augmentation appends the chart instruction exactly once when the target
    language is [python] or [javascript], and not at all for any other target
    language: the result is the prompt followed by at most one instruction,
    and the number of places where the instruction occurs grows by one. *)
Theorem chart_augmentation_once (language prompt : string)
    (Hchart : Py.any_in ["chart"; "charts"; "plot"; "plots"] (Py.lower prompt) = true) :
  augment_chart language prompt =
    prompt +:+ (if String.eqb language "python" then nl +:+ chart_python
                else if String.eqb language "javascript" then nl +:+ chart_javascript
                else "") /\
  occurrences chart_python (augment_chart language prompt) =
    occurrences chart_python prompt + (if String.eqb language "python" then 1 else 0) /\
  occurrences chart_javascript (augment_chart language prompt) =
    occurrences chart_javascript prompt + (if String.eqb language "javascript" then 1 else 0).
Proof.
  unfold augment_chart. rewrite Hchart.
  destruct (String.eqb_spec language "python") as [-> | Hpy].
  - cbn [String.eqb]. repeat split;
      rewrite ?occurrences_append_line by done; by vm_compute occurrences at 2.
  - destruct (String.eqb_spec language "javascript") as [-> | Hjs].
    + repeat split; rewrite ?occurrences_append_line by done; by vm_compute occurrences at 2.
    + rewrite append_nil_r. repeat split; lia.
Qed.

Lemma chart_augmentation_once_witness :
  augment_chart "python" "Plot a chart of the sales" =
    "Plot a chart of the sales" +:+ nl +:+ chart_python /\
  occurrences chart_python (augment_chart "python" "Plot a chart of the sales") =
    occurrences chart_python "Plot a chart of the sales" + 1 /\
  occurrences chart_javascript (augment_chart "python" "Plot a chart of the sales") =
    occurrences chart_javascript "Plot a chart of the sales" + 0.
Proof.
  apply (chart_augmentation_once "python" "Plot a chart of the sales"). reflexivity.
Defined.

(** C9 fails as stated: for the target language [bash], which Script mode
    sets on Linux, a prompt that contains both [plot] and [chart] is left as
    it is, so the chart instruction is appended zero times, not once. *)
Lemma chart_augmentation_once_counterexample :
  Py.any_in ["chart"; "charts"; "plot"; "plots"] (Py.lower "plot a chart") = true /\
  augment_chart "bash" "plot a chart" = "plot a chart" /\
  occurrences chart_python (augment_chart "bash" "plot a chart") = 0 /\
  occurrences chart_javascript (augment_chart "bash" "plot a chart") = 0.
Proof. by vm_compute. Qed.

(** ** The Execution Dispatcher *)

Lemma call_runner_runs env k code a s :
  List.filter is_run (log (call_runner env k code a s)) = [EvRun k code a].
Proof. unfold call_runner, bind, tick. cbn. by destruct (run env (calls (host s)) k code a). Qed.

Lemma execute_code_vision env code os s :
  INTERPRETER_MODE (self s) = "Vision" ->
  execute_code env code os s = MkRun [EvDispatch code os] s (Ok (None, None)).
Proof. intros Hv. unfold execute_code, bind. cbn. rewrite Hv. by cbn. Qed.

Lemma execute_code_declined env code os s answer rest :
  INTERPRETER_MODE (self s) <> "Vision" -> EXECUTE_CODE (self s) = false ->
  stdin (host s) = answer :: rest -> Py.lower answer <> "y" ->
  execute_code env code os s =
    MkRun [EvDispatch code os; EvInput "Execute the code? (Y/N): " answer]
          {| self := self s; host := set_stdin rest (host s) |} (Ok (None, None)).
Proof.
  intros Hv%String.eqb_neq Hx Hin Hans%String.eqb_neq.
  unfold execute_code, bind, input. cbn. rewrite Hv, Hx. cbn. rewrite Hin. cbn.
  rewrite Hans. by cbn.
Qed.

Lemma execute_code_auto env code os s :
  INTERPRETER_MODE (self s) <> "Vision" -> EXECUTE_CODE (self s) = true ->
  execute_code env code os s =
    let r := try_except (run_by_mode env (self s) code os) (fun msg => ret (None, Some msg)) s in
    MkRun (EvDispatch code os :: log r) (final r) (value r).
Proof.
  intros Hv%String.eqb_neq Hx.
  unfold execute_code, bind at 1 2 3. cbn [emit get_self ret log value final]. rewrite Hv, Hx.
  cbn [ret log value final]. change (Py.lower "y" =? "y")%string with true. cbv iota. 
  done.
Qed.

Lemma execute_code_confirmed env code os s answer rest :
  INTERPRETER_MODE (self s) <> "Vision" -> EXECUTE_CODE (self s) = false ->
  stdin (host s) = answer :: rest -> Py.lower answer = "y" ->
  execute_code env code os s =
    let r := try_except (run_by_mode env (self s) code os) (fun msg => ret (None, Some msg))
               {| self := self s; host := set_stdin rest (host s) |} in
    MkRun (EvDispatch code os :: EvInput "Execute the code? (Y/N): " answer :: log r)
          (final r) (value r).
Proof.
  intros Hv%String.eqb_neq Hx Hin Hans%String.eqb_eq.
  unfold execute_code, bind at 1 2 3, input. cbn [emit get_self ret log value final].
  rewrite Hv, Hx, Hin. cbn [log value final]. rewrite Hans. by cbv iota.
Qed.

Lemma execute_code_eof env code os s :
  INTERPRETER_MODE (self s) <> "Vision" -> EXECUTE_CODE (self s) = false ->
  stdin (host s) = [] ->
  execute_code env code os s =
    MkRun [EvDispatch code os] s (Raise "EOF when reading a line").
Proof.
  intros Hv%String.eqb_neq Hx Hin.
  unfold execute_code, bind, input. cbn [emit get_self ret log value final].
  rewrite Hv, Hx, Hin. by cbn.
Qed.

Lemma run_by_mode_runs env i code os s :
  session_ready i = true -> INTERPRETER_MODE i <> "Vision" ->
  List.filter is_run
    (log (try_except (run_by_mode env i code os) (fun msg => ret (None, Some msg)) s)) =
  [if SCRIPT_MODE i then EvRun ScriptRunner code os
   else if COMMAND_MODE i then EvRun CommandRunner code ""
   else EvRun CodeRunner code (INTERPRETER_LANGUAGE i)].
Proof.
  intros Hready Hv.
  assert (H : forall k a, List.filter is_run
            (log (try_except (call_runner env k code a) (fun msg => ret (None, Some msg)) s))
            = [EvRun k code a]).
  { intros k a. rewrite log_try, List.filter_app, call_runner_runs.
    by destruct (value (call_runner env k code a s)) as [?|[?|?]]. }
  unfold run_by_mode.
  destruct (SCRIPT_MODE i) eqn:Es; [apply H |].
  destruct (COMMAND_MODE i) eqn:Ec; [apply H |].
  destruct (CODE_MODE i) eqn:Ek; [apply H |].
  exfalso. unfold session_ready in Hready. rewrite Es, Ec, Ek in Hready.
  destruct (VISION_MODE i); [| done].
  apply andb_true_iff in Hready as [_ Hname%String.eqb_eq]. done.
Qed.

(** C7. In a session whose mode name and flags agree, the Execution
    Dispatcher returns [(None, None)] without a call of a runner when the
    mode is Vision and, with auto-execute off, when the answer to the
    confirmation is not [y] in either case; otherwise a call invokes exactly
    one runner, the one of the mode. *)
Theorem dispatcher_runs_one (env : Env) (code os : string) (s : Sys)
    (Hready : session_ready (self s) = true) :
  let r := execute_code env code os s in
  let i := self s in
  (INTERPRETER_MODE i = "Vision" ->
     value r = Ok (None, None) /\ List.filter is_run (log r) = []) /\
  (forall answer rest,
     INTERPRETER_MODE i <> "Vision" -> EXECUTE_CODE i = false ->
     stdin (host s) = answer :: rest -> Py.lower answer <> "y" ->
     value r = Ok (None, None) /\ List.filter is_run (log r) = []) /\
  (INTERPRETER_MODE i <> "Vision" ->
     (EXECUTE_CODE i = true \/
      exists answer rest, EXECUTE_CODE i = false /\
        stdin (host s) = answer :: rest /\ Py.lower answer = "y") ->
     List.filter is_run (log r) =
       [if SCRIPT_MODE i then EvRun ScriptRunner code os
        else if COMMAND_MODE i then EvRun CommandRunner code ""
        else EvRun CodeRunner code (INTERPRETER_LANGUAGE i)]).
Proof.
  cbv zeta. split; [| split].
  - intros Hv. by rewrite execute_code_vision.
  - intros answer rest Hv Hx Hin Hans.
    by rewrite (execute_code_declined env code os s answer rest).
  - intros Hv [Hx | (answer & rest & Hx & Hin & Hans)].
    + rewrite execute_code_auto by done. cbn [log]. cbn [List.filter is_run].
      by apply run_by_mode_runs.
    + rewrite (execute_code_confirmed env code os s answer rest) by done.
      cbn [log]. cbn [List.filter is_run]. by apply run_by_mode_runs.
Qed.

Lemma dispatcher_runs_one_witness :
  List.filter is_run
    (log (execute_code sample_env "import pandas" "Linux" (sample_sys None true []))) =
  [EvRun CodeRunner "import pandas" "python"].
Proof.
  destruct (dispatcher_runs_one sample_env "import pandas" "Linux" (sample_sys None true []))
    as (_ & _ & H); [by vm_compute |].
  apply H; [by vm_compute | left; by vm_compute].
Defined.

(** ** Client initialization *)

Lemma lookup_union_case (m1 m2 : gmap string string) (k : string) :
  (m1 ∪ m2) !! k = match m1 !! k with Some v => Some v | None => m2 !! k end.
Proof. rewrite lookup_union. by destruct (m1 !! k), (m2 !! k). Qed.

Lemma loaded_found env e0 e : loaded env e0 e -> loaded env e0 (e ∪ dotenv_found env).
Proof.
  intros H k. specialize (H k). rewrite !lookup_union_case in *.
  destruct (e !! k), (e0 !! k), (dotenv_found env !! k); intuition congruence.
Qed.

Lemma loaded_cwd env e0 e : loaded env e0 e -> loaded env e0 (e ∪ dotenv_cwd env).
Proof.
  intros H k. specialize (H k). rewrite !lookup_union_case in *.
  destruct (e !! k), (e0 !! k), (dotenv_found env !! k), (dotenv_cwd env !! k); intuition congruence.
Qed.

Lemma find_key_loaded env e0 name :
  keeps (fun s => loaded env e0 (environ (host s))) (find_key env name).
Proof.
  intros s Hs. unfold find_key, getenv, load_dotenv, bind. cbn.
  repeat case_bool_decide; cbn; repeat case_bool_decide; cbn;
    auto using loaded_found, loaded_cwd.
Qed.

Lemma find_key_effective env e0 name s :
  loaded env e0 (environ (host s)) ->
  environ (host (final (find_key env name s))) !! name =
    (e0 ∪ dotenv_found env ∪ dotenv_cwd env) !! name.
Proof.
  intros Hs. pose proof (Hs name) as H.
  unfold find_key, getenv, load_dotenv, bind. cbn.
  rewrite !lookup_union_case in *.
  repeat (case_bool_decide; cbn); rewrite ?lookup_union_case in *;
  destruct (environ (host s) !! name), (e0 !! name), (dotenv_found env !! name),
    (dotenv_cwd env !! name); intuition congruence.
Qed.

Lemma load_dotenv_found_loaded env e0 :
  keeps (fun s => loaded env e0 (environ (host s))) (load_dotenv (dotenv_found env)).
Proof. intros s Hs. by apply loaded_found. Qed.

Lemma load_dotenv_cwd_loaded env e0 :
  keeps (fun s => loaded env e0 (environ (host s))) (load_dotenv (dotenv_cwd env)).
Proof. intros s Hs. by apply loaded_cwd. Qed.

#[local] Hint Resolve load_dotenv_found_loaded load_dotenv_cwd_loaded find_key_loaded : keeps.

Lemma provider_checks_loaded env s :
  loaded env (environ (host s)) (environ (host (final (provider_checks env s)))).
Proof.
  unfold provider_checks. rewrite final_bind. cbn [load_dotenv modify_host value final].
  lazymatch goal with
  | |- loaded _ _ (environ (host (final (?m ?s1)))) =>
      cut (keeps (fun s' => loaded env (environ (host s)) (environ (host s'))) m);
        [intros Hk; apply Hk; intros k; by left |]
  end.
  keeps_tac untouched.
Qed.

Lemma check_key_value name missing bad wrong s :
  value (check_key name missing bad wrong s) =
    if negb (Py.truthy_opt (environ (host s) !! name)) then Raise missing
    else if bad (default "" (environ (host s) !! name)) then Raise wrong
    else Ok tt.
Proof.
  unfold check_key, getenv, bind. cbn.
  destruct (negb _); [done |]. by destruct (bad _).
Qed.

(** C6. For every model identifier, those containing [gpt], [palm] or
    [gemini-pro] included, client initialization raises whenever
    [HUGGINGFACE_API_KEY] is absent (or empty) or does not start with [hf_],
    in the environment and in the two [.env] files; when the checks of the
    provider pass, the Hugging Face check is performed after them and it is
    its exception that is raised. *)
Theorem client_requires_huggingface_key (env : Env) (s : Sys)
    (Hkey : hf_key_valid (effective_environ env (host s) !! "HUGGINGFACE_API_KEY") = false) :
  (exists msg, value (initialize_client env s) = Raise msg) /\
  (value (provider_checks env s) = Ok tt ->
   value (initialize_client env s) =
     Raise (if Py.truthy_opt (effective_environ env (host s) !! "HUGGINGFACE_API_KEY")
            then "HuggingFace token should start with 'hf_'. Please check your .env file."
            else "HuggingFace token not found in .env file.")).
Proof.
  assert (Hmain : value (provider_checks env s) = Ok tt ->
    value (initialize_client env s) =
     Raise (if Py.truthy_opt (effective_environ env (host s) !! "HUGGINGFACE_API_KEY")
            then "HuggingFace token should start with 'hf_'. Please check your .env file."
            else "HuggingFace token not found in .env file.")).
  { intros Hok. unfold initialize_client. rewrite value_bind, Hok.
    unfold check_huggingface. rewrite value_bind.
    pose proof (find_key_effective env (environ (host s)) "HUGGINGFACE_API_KEY" _
                  (provider_checks_loaded env s)) as Heff.
    fold (effective_environ env (host s)) in Heff.
    assert (Hfk : value (find_key env "HUGGINGFACE_API_KEY" (final (provider_checks env s))) = Ok tt).
    { unfold find_key, getenv, load_dotenv, bind. cbn. by repeat (case_bool_decide; cbn). }
    rewrite Hfk, check_key_value, Heff.
    destruct (effective_environ env (host s) !! "HUGGINGFACE_API_KEY") as [token|]; [| done].
    unfold hf_key_valid in Hkey. unfold Py.truthy_opt. cbn [default].
    unfold id. rewrite Hkey. by destruct (Py.truthy token). }
  split; [| exact Hmain].
  destruct (value (provider_checks env s)) as [[]|msg] eqn:Hpre.
  - eexists. by apply Hmain.
  - exists msg. unfold initialize_client. by rewrite value_bind, Hpre.
Qed.

(** A session for [gpt-4] with a valid OpenAI key and no Hugging Face key. *)
Lemma client_requires_huggingface_key_witness :
  let s := {| self := set_model (Some "gpt-4") blank;
              host := set_environ (<["OPENAI_API_KEY" := "sk-0123456789"]> ∅)
                        (sample_host []) |} in
  value (provider_checks sample_env s) = Ok tt /\
  value (initialize_client sample_env s) =
    Raise "HuggingFace token not found in .env file.".
Proof.
  split; [by vm_compute |].
  apply (client_requires_huggingface_key sample_env); by vm_compute.
Defined.

(** ** The iteration *)

Lemma build_prompt_no_recovery env l task : quiet is_recovery (build_prompt env l task).
Proof. quiet_tac. Qed.

Lemma generate_text_no_recovery env prompt image :
  quiet is_recovery (generate_text env prompt image).
Proof. quiet_tac. Qed.

Lemma save_extracted_no_recovery env code : quiet is_recovery (save_extracted env code).
Proof. quiet_tac. Qed.

Lemma open_resources_no_recovery env : quiet is_recovery (open_resources env).
Proof. quiet_tac. Qed.

Lemma show_result_no_recovery r : quiet is_recovery (show_result r).
Proof. quiet_tac. Qed.

Lemma iteration_history env l task :
  only (history_of task) (iteration env l task).
Proof. only_tac ltac:(first [reflexivity | apply String.eqb_refl]). Qed.

Lemma count_ev_weaken (P Q : Event -> bool) (l : list Event) :
  (forall e, Q e = true -> P e = true) -> count_ev P l = 0 -> count_ev Q l = 0.
Proof.
  intros HPQ. induction l as [|e l IH]; [done |].
  rewrite !count_ev_cons. intros H.
  destruct (P e) eqn:EP; [lia |].
  destruct (Q e) eqn:EQ; [by rewrite (HPQ e EQ) in EP |].
  by apply IH.
Qed.

Lemma count_ev_forallb (P Q : Event -> bool) (l : list Event) :
  (forall e, P e = true -> Q e = false) -> forallb P l = true -> count_ev Q l = 0.
Proof.
  intros HPQ. induction l as [|e l IH]; [done |].
  simpl. intros [He Hl]%andb_true_iff. rewrite count_ev_cons, (HPQ e He). by apply IH.
Qed.

(** *** The recovery loop *)

Lemma shape_prefix (a l : list Event) :
  count_ev is_recovery a = 0 -> recovery_shape l -> recovery_shape (a ++ l).
Proof.
  intros Ha [b Hb | b c code os Hb Hc | b c d code os package language Hb Hc Hd].
  - apply shape_none. rewrite count_ev_app. lia.
  - rewrite app_assoc. apply shape_once; [rewrite count_ev_app; lia | done].
  - rewrite app_assoc. apply shape_twice; [rewrite count_ev_app; lia | done | done].
Qed.

Lemma shape_suffix (l a : list Event) :
  recovery_shape l -> count_ev is_recovery a = 0 -> recovery_shape (l ++ a).
Proof.
  intros [b Hb | b c code os Hb Hc | b c d code os package language Hb Hc Hd] Ha.
  - apply shape_none. rewrite count_ev_app. lia.
  - rewrite <- app_assoc. cbn [app]. apply shape_once; [done | rewrite count_ev_app; lia].
  - rewrite <- app_assoc. cbn [app]. rewrite <- app_assoc. cbn [app].
    apply shape_twice; [done | done | rewrite count_ev_app; lia].
Qed.

(** A property of logs that holds of the logs without recovery events and
    that such logs, put in front or behind, do not break, holds of the log of
    an iteration as soon as it holds of the log of the recovery loop. *)
Section Around.
Variable R : list Event -> Prop.
Hypothesis R_none : forall a, count_ev is_recovery a = 0 -> R a.
Hypothesis R_prefix : forall a l, count_ev is_recovery a = 0 -> R l -> R (a ++ l).
Hypothesis R_suffix : forall l a, R l -> count_ev is_recovery a = 0 -> R (l ++ a).

Lemma leaves_quiet {A} (m : M A) : quiet is_recovery m -> leaves R m.
Proof. intros H s. apply R_none, H. Qed.

Lemma leaves_bind_l {A B} (m : M A) (f : A -> M B) :
  quiet is_recovery m -> (forall a, leaves R (f a)) -> leaves R (bind m f).
Proof.
  intros Hm Hf s. rewrite log_bind. apply R_prefix; [apply Hm |].
  destruct (value (m s)); [apply Hf | by apply R_none].
Qed.

Lemma leaves_bind_r {A B} (m : M A) (f : A -> M B) :
  leaves R m -> (forall a, quiet is_recovery (f a)) -> leaves R (bind m f).
Proof.
  intros Hm Hf s. rewrite log_bind. apply R_suffix; [apply Hm |].
  destruct (value (m s)); [apply Hf | done].
Qed.

Lemma iteration_leaves env l task :
  (forall code, leaves R (execute_and_recover env code (os_name l))) ->
  leaves R (iteration env l task).
Proof.
  intros Hrecover. unfold iteration.
  apply leaves_bind_l; [apply build_prompt_no_recovery | intros built].
  apply leaves_bind_l; [apply generate_text_no_recovery | intros generated_output].
  unfold after_generation.
  apply leaves_bind_l; [quiet_tac | intros i].
  destruct (String.eqb _ _); [apply leaves_quiet; quiet_tac |].
  apply leaves_bind_l; [quiet_tac | intros _].
  apply leaves_bind_r; [| intros _; quiet_tac].
  destruct (Py.truthy _); [| apply leaves_quiet; quiet_tac].
  unfold run_extracted.
  apply leaves_bind_l; [apply save_extracted_no_recovery | intros _].
  apply leaves_bind_r; [apply Hrecover | intros _].
  apply open_resources_no_recovery.
Qed.
End Around.

Lemma shape_dispatches (l : list Event) :
  recovery_shape l -> count_ev is_dispatch l <= 2.
Proof.
  assert (Hw : forall a, count_ev is_recovery a = 0 -> count_ev is_dispatch a = 0).
  { intros a. apply count_ev_weaken. by intros []. }
  intros [b Hb | b c code os Hb Hc | b c d code os package language Hb Hc Hd];
    repeat (rewrite ?count_ev_app, ?count_ev_cons; cbn [is_dispatch]);
    rewrite ?Hw by done; lia.
Qed.

Lemma execute_code_log env code os s :
  exists b, log (execute_code env code os s) = EvDispatch code os :: b /\
            count_ev is_recovery b = 0.
Proof.
  unfold execute_code. rewrite log_bind. cbn [emit log value final app].
  eexists. split; [reflexivity |]. by_quiet.
Qed.

Lemma execute_code_self env code os s :
  self (final (execute_code env code os s)) = self s.
Proof.
  enough (H : keeps (fun s' => self s' = self s) (execute_code env code os)) by by apply H.
  keeps_tac untouched.
Qed.

Lemma show_result_same r s : show_result r s = MkRun (log (show_result r s)) s (Ok tt).
Proof.
  unfold show_result, display, emit.
  destruct (Py.truthy_opt r.1); [done |]. by destruct (Py.truthy_opt r.2).
Qed.

Lemma execute_and_recover_shaped env code os :
  leaves recovery_shape (execute_and_recover env code os).
Proof.
  intros s. unfold execute_and_recover. rewrite log_bind.
  destruct (execute_code_log env code os s) as (b & -> & Hb).
  destruct (value (execute_code env code os s)) as [result|msg];
    [| rewrite app_nil_r; by apply (shape_once [])].
  rewrite log_bind, show_result_same. cbn [log value final].
  set (s1 := final (execute_code env code os s)).
  assert (Hshow : count_ev is_recovery (log (show_result result s1)) = 0) by by_quiet.
  unfold recover. destruct (missing_package result.2);
    [| rewrite !app_nil_r; apply (shape_once []); [done | rewrite count_ev_app; lia]].
  rewrite log_bind. cbn [get_self log value final app].
  destruct (Py.truthy_opt _);
    [| rewrite !app_nil_r; apply (shape_once []); [done | rewrite count_ev_app; lia]].
  rewrite !log_bind. cbn [emit log value final app].
  destruct (execute_code_log env code os s1) as (c & -> & Hc).
  cbn [app]. rewrite app_comm_cons, app_assoc.
  apply (shape_twice []); [done | rewrite count_ev_app; lia |].
  rewrite count_ev_app, Hc. cbn [Nat.add].
  destruct (value (execute_code env code os s1)); [by_quiet | done].
Qed.

Lemma iteration_shaped env l task : leaves recovery_shape (iteration env l task).
Proof.
  apply iteration_leaves;
    auto using shape_none, shape_prefix, shape_suffix, execute_and_recover_shaped.
Qed.

Lemma recovery_retries env code os s1 out err package :
  value (execute_code env code os s1) = Ok (out, Some err) ->
  missing_package (Some err) = true ->
  extract_package_name env err (INTERPRETER_LANGUAGE (self s1)) = Some package ->
  Py.truthy package = true ->
  exists b c,
    log (execute_and_recover env code os s1) =
      EvDispatch code os :: b
        ++ EvInstall package (INTERPRETER_LANGUAGE (self s1)) :: EvSleep 10
        :: EvDispatch code os :: c /\
    count_ev is_recovery b = 0 /\ count_ev is_recovery c = 0.
Proof.
  intros Hfirst Hsig Hname Htruthy.
  unfold execute_and_recover. rewrite log_bind, Hfirst.
  destruct (execute_code_log env code os s1) as (b & -> & Hb).
  rewrite log_bind, show_result_same. cbn [log value final snd].
  set (s2 := final (execute_code env code os s1)).
  assert (Hself : self s2 = self s1) by apply execute_code_self.
  unfold recover. rewrite Hsig, log_bind. cbn [get_self log value final app default].
  unfold id. rewrite Hself, Hname. cbn [Py.truthy_opt default]. unfold id. rewrite Htruthy.
  rewrite !log_bind. cbn [emit log value final app].
  destruct (execute_code_log env code os s2) as (c & -> & Hc).
  exists (b ++ log (show_result (out, Some err) s2)).
  eexists. split; [| split].
  - cbn [app]. rewrite <- !app_assoc. cbn [app]. reflexivity.
  - rewrite count_ev_app, Hb. cbn [Nat.add]. by_quiet.
  - rewrite count_ev_app, Hc. cbn [Nat.add].
    destruct (value (execute_code env code os s2)); [by_quiet | done].
Qed.

Lemma build_prompt_mode md env l task :
  keeps (fun s => INTERPRETER_MODE (self s) = md) (build_prompt env l task).
Proof. keeps_tac untouched. Qed.

Lemma generate_text_mode md env prompt image :
  keeps (fun s => INTERPRETER_MODE (self s) = md) (generate_text env prompt image).
Proof. keeps_tac untouched. Qed.

Lemma filter_quiet (P : Event -> bool) (lg : list Event) :
  count_ev P lg = 0 -> List.filter P lg = [].
Proof. unfold count_ev. by intros H%nil_length_inv. Qed.

Lemma filter_bind_l {A B} (P : Event -> bool) (m : M A) (f : A -> M B) s :
  quiet P m ->
  List.filter P (log (bind m f s)) =
    match value (m s) with
    | Ok a => List.filter P (log (f a (final (m s))))
    | Raise _ => []
    end.
Proof.
  intros Hm. rewrite log_bind, List.filter_app, (filter_quiet P (log (m s))) by apply Hm.
  by destruct (value (m s)).
Qed.

Lemma filter_bind_r {A B} (P : Event -> bool) (m : M A) (f : A -> M B) s :
  (forall a, quiet P (f a)) ->
  List.filter P (log (bind m f s)) = List.filter P (log (m s)).
Proof.
  intros Hf. rewrite log_bind, List.filter_app.
  destruct (value (m s)) as [a|e]; [| by rewrite app_nil_r].
  rewrite (filter_quiet P (log (f a (final (m s))))) by apply Hf. by rewrite app_nil_r.
Qed.

Lemma save_extracted_value env code s : value (save_extracted env code s) = Ok tt.
Proof.
  unfold save_extracted. rewrite value_bind. cbn [tick value final].
  rewrite value_bind. cbn [get_self value final].
  by repeat lazymatch goal with |- context [if ?b then _ else _] => destruct b end.
Qed.

Lemma display_code_run (shown : bool) (code : string) s :
  (if shown then display code else ret tt) s =
    MkRun (if shown then [EvDisplay code] else []) s (Ok tt).
Proof. by destruct shown. Qed.

(** Outside Vision mode and with code in the answer, the events of the
    recovery loop that follow the answer of the model are those of the
    execution of the extracted code, in the state that the saving of the code
    leaves. *)
Lemma after_generation_recovery env l task prompt answer s2 :
  INTERPRETER_MODE (self s2) <> "Vision" ->
  let code := extract_code env answer (start_sep l) (end_sep l) (skip_first_line l)
                           (CODE_MODE (self s2)) in
  Py.truthy code = true ->
  List.filter is_recovery (log (after_generation env l task prompt answer s2)) =
  List.filter is_recovery
    (log (execute_and_recover env code (os_name l) (final (save_extracted env code s2)))).
Proof.
  intros Hv%String.eqb_neq. cbv zeta. intros Hcode. unfold after_generation.
  rewrite filter_bind_l by quiet_tac. cbn [get_self value final]. rewrite Hv.
  rewrite filter_bind_l by quiet_tac.
  rewrite display_code_run. cbn [value final].
  rewrite filter_bind_r by (intros ?; quiet_tac).
  rewrite Hcode. unfold run_extracted.
  rewrite filter_bind_l by apply save_extracted_no_recovery.
  rewrite save_extracted_value.
  apply filter_bind_r. intros _. apply open_resources_no_recovery.
Qed.

(** C1. In every iteration the log of the recovery loop has one of three
    shapes: no dispatch; one dispatch; or one dispatch followed, after an
    installation and a wait of 10, by one more dispatch of the same code for
    the same operating system, so the dispatcher is invoked at most twice.
    And when, in an iteration outside Vision mode whose answer holds code,
    the first execution attempt of that code returns an error with one of
    the signatures of a missing package and a package name is extracted
    from it, the iteration dispatches the code, installs the package, waits
    10 and dispatches the same code for the same operating system once more,
    and these four are all its events of the recovery loop, whatever the
    second attempt gives. *)
Theorem recovery_retries_once (env : Env) (l : Locals) (task : string) (s : Sys) :
  let r := iteration env l task s in
  recovery_shape (log r) /\
  count_ev is_dispatch (log r) <= 2 /\
  forall (built : string * option string) (answer : string)
         (out : option string) (err package : string),
    INTERPRETER_MODE (self s) <> "Vision" ->
    value (build_prompt env l task s) = Ok built ->
    let s1 := final (build_prompt env l task s) in
    value (generate_text env built.1 built.2 s1) = Ok answer ->
    let s2 := final (generate_text env built.1 built.2 s1) in
    let code := extract_code env answer (start_sep l) (end_sep l) (skip_first_line l)
                             (CODE_MODE (self s2)) in
    let s3 := final (save_extracted env code s2) in
    Py.truthy code = true ->
    value (execute_code env code (os_name l) s3) = Ok (out, Some err) ->
    missing_package (Some err) = true ->
    extract_package_name env err (INTERPRETER_LANGUAGE (self s3)) = Some package ->
    Py.truthy package = true ->
    List.filter is_recovery (log r) =
      [EvDispatch code (os_name l);
       EvInstall package (INTERPRETER_LANGUAGE (self s3));
       EvSleep 10;
       EvDispatch code (os_name l)].
Proof.
  cbv zeta.
  split; [apply iteration_shaped |].
  split; [apply shape_dispatches, iteration_shaped |].
  intros built answer out err package Hmode Hbuilt Hanswer Hcode Hfirst Hsig Hname Htruthy.
  pose proof (build_prompt_mode (INTERPRETER_MODE (self s)) env l task s eq_refl) as Hm1.
  pose proof (generate_text_mode (INTERPRETER_MODE (self s)) env built.1 built.2 _ Hm1) as Hm2.
  cbv beta in Hm1, Hm2.
  unfold iteration.
  rewrite filter_bind_l by apply build_prompt_no_recovery. rewrite Hbuilt.
  rewrite filter_bind_l by apply generate_text_no_recovery. rewrite Hanswer.
  rewrite after_generation_recovery by (done || congruence).
  destruct (recovery_retries env _ _ _ out err package Hfirst Hsig Hname Htruthy)
    as (b & c & -> & Hb & Hc).
  cbn [List.filter is_recovery]. rewrite List.filter_app. cbn [List.filter is_recovery].
  by rewrite (filter_quiet _ b), (filter_quiet _ c).
Qed.

(** The sample iteration: the answer holds [import pandas], whose first run
    fails for the missing package. *)
Lemma recovery_retries_once_witness :
  let s := sample_sys None true [] in
  let r := iteration sample_env sample_locals "plot a graph" s in
  let built :=
    ("Generate the code in python language for this task 'plot a graph for Operating System: Linux'."
     +:+ nl +:+ graph_python +:+ nl +:+ chart_python, @None string) in
  let s1 := final (build_prompt sample_env sample_locals "plot a graph" s) in
  let s2 := final (generate_text sample_env built.1 built.2 s1) in
  let code := extract_code sample_env "```import pandas```" (start_sep sample_locals)
                (end_sep sample_locals) (skip_first_line sample_locals)
                (CODE_MODE (self s2)) in
  let s3 := final (save_extracted sample_env code s2) in
  List.filter is_recovery (log r) =
    [EvDispatch code (os_name sample_locals);
     EvInstall "pandas" (INTERPRETER_LANGUAGE (self s3));
     EvSleep 10;
     EvDispatch code (os_name sample_locals)].
Proof.
  cbv zeta.
  destruct (recovery_retries_once sample_env sample_locals "plot a graph"
              (sample_sys None true [])) as (_ & _ & H).
  apply (H _ "```import pandas```" None
           "ModuleNotFoundError: No module named 'pandas'" "pandas");
    by vm_compute.
Defined.

(** The log of the sample iteration: the first run fails for the missing
    package, the package is installed, and the second run succeeds. *)
Example sample_iteration :
  List.filter is_recovery
    (log (iteration sample_env sample_locals "plot a graph" (sample_sys None true []))) =
  [EvDispatch "import pandas" "Linux"; EvInstall "pandas" "python"; EvSleep 10;
   EvDispatch "import pandas" "Linux"] /\
  List.filter is_run
    (log (iteration sample_env sample_locals "plot a graph" (sample_sys None true []))) =
  [EvRun CodeRunner "import pandas" "python"; EvRun CodeRunner "import pandas" "python"] /\
  files (host (final (iteration sample_env sample_locals "plot a graph"
                        (sample_sys None true [])))) !! "graph.png" = Some "".
Proof. by vm_compute. Qed.

(** *** The interaction record *)

Lemma generate_text_log env prompt image s :
  exists rest, log (generate_text env prompt image s) = EvGenerate prompt :: rest.
Proof.
  unfold generate_text. rewrite log_bind. cbn [emit log value final app]. by eexists.
Qed.

Lemma build_prompt_no_history env l task : quiet is_history (build_prompt env l task).
Proof. quiet_tac. Qed.

Lemma generate_text_no_history env prompt image :
  quiet is_history (generate_text env prompt image).
Proof. quiet_tac. Qed.

Lemma run_extracted_no_history env code os : quiet is_history (run_extracted env code os).
Proof. quiet_tac. Qed.

Lemma after_generation_vision env l task prompt generated_output s :
  INTERPRETER_MODE (self s) = "Vision" ->
  after_generation env l task prompt generated_output s =
    MkRun [EvDisplay generated_output] s (Ok tt).
Proof. intros Hv. unfold after_generation, bind. cbn. rewrite Hv. by cbn. Qed.

(** Outside Vision mode, when the execution of the extracted code returns,
    what follows the answer of the model ends at the statement that names
    the interaction record, and comes to it once. *)
Lemma after_generation_record env l task prompt answer s :
  INTERPRETER_MODE (self s) <> "Vision" ->
  let code := extract_code env answer (start_sep l) (end_sep l) (skip_first_line l)
                           (CODE_MODE (self s)) in
  (Py.truthy code = true -> value (run_extracted env code (os_name l) s) = Ok tt) ->
  let r := after_generation env l task prompt answer s in
  exists pre,
    log r = pre ++ [EvHistory {| i_task := task;
                                 i_mode := INTERPRETER_MODE (self (final r));
                                 i_os_name := os_name l;
                                 i_language := INTERPRETER_LANGUAGE (self (final r));
                                 i_prompt := prompt;
                                 i_code := code;
                                 i_model := INTERPRRETER_MODEL (self (final r)) |}] /\
    count_ev is_history pre = 0.
Proof.
  intros Hv%String.eqb_neq. cbv zeta. intros Hrun. unfold after_generation.
  rewrite log_bind, final_bind. cbn [get_self log value final app].
  rewrite Hv.
  set (code := extract_code env answer _ _ _ _) in *.
  rewrite log_bind, final_bind, display_code_run. cbn [log value final].
  set (ran := if Py.truthy code then run_extracted env code (os_name l) else ret tt).
  rewrite log_bind, final_bind.
  assert (Hran : value (ran s) = Ok tt).
  { unfold ran. destruct (Py.truthy code); [by apply Hrun | done]. }
  rewrite Hran.
  cbn [get_self save_history_json emit raise bind log value final app].
  exists ((if DISPLAY_CODE (self s) then [EvDisplay code] else []) ++ log (ran s)). split.
  - by rewrite <- app_assoc.
  - rewrite count_ev_app.
    assert (H1 : count_ev is_history (if DISPLAY_CODE (self s) then [EvDisplay code] else []) = 0)
      by by destruct (DISPLAY_CODE (self s)).
    assert (H2 : count_ev is_history (log (ran s)) = 0).
    { unfold ran. destruct (Py.truthy code); [apply run_extracted_no_history | done]. }
    lia.
Qed.

(** C3, as the code has it. In Vision mode an iteration names no
    interaction record: once the model has answered, the answer is shown and
    the iteration ends. In Code, Script and Command mode, once the model has
    answered and the execution of the extracted code, if there is code, has
    returned (whatever it gave), the iteration comes exactly once, as its
    last step, to the statement that hands the interaction record to
    [save_history_json], with the task, the mode, the operating system, the
    language, the prompt that was sent to the model, the code extracted from
    the answer and the model. What that statement does with the record is
    not part of the claim. *)
Theorem interaction_record_saved (env : Env) (l : Locals) (task : string) (s : Sys) :
  let r := iteration env l task s in
  (INTERPRETER_MODE (self s) = "Vision" ->
     count_ev is_history (log r) = 0 /\
     forall (built : string * option string) (answer : string),
       value (build_prompt env l task s) = Ok built ->
       let s1 := final (build_prompt env l task s) in
       value (generate_text env built.1 built.2 s1) = Ok answer ->
       value r = Ok tt /\
       log r = log (build_prompt env l task s)
                 ++ log (generate_text env built.1 built.2 s1) ++ [EvDisplay answer]) /\
  (forall (built : string * option string) (answer : string),
     INTERPRETER_MODE (self s) <> "Vision" ->
     value (build_prompt env l task s) = Ok built ->
     let s1 := final (build_prompt env l task s) in
     value (generate_text env built.1 built.2 s1) = Ok answer ->
     let s2 := final (generate_text env built.1 built.2 s1) in
     let code := extract_code env answer (start_sep l) (end_sep l) (skip_first_line l)
                              (CODE_MODE (self s2)) in
     (Py.truthy code = true -> value (run_extracted env code (os_name l) s2) = Ok tt) ->
     count_ev is_history (log r) = 1 /\
     exists pre,
       log r = pre ++ [EvHistory {| i_task := task;
                                    i_mode := INTERPRETER_MODE (self s);
                                    i_os_name := os_name l;
                                    i_language := INTERPRETER_LANGUAGE (self (final r));
                                    i_prompt := built.1;
                                    i_code := code;
                                    i_model := INTERPRRETER_MODEL (self (final r)) |}] /\
       In (EvGenerate built.1) pre).
Proof.
  cbv zeta.
  pose proof (build_prompt_mode (INTERPRETER_MODE (self s)) env l task s eq_refl) as Hm1.
  pose proof (build_prompt_no_history env l task s) as Hq1.
  cbv beta in Hm1.
  split.
  - intros Hv. split.
    + unfold iteration. rewrite log_bind, count_ev_app, Hq1.
      destruct (value (build_prompt env l task s)) as [built|e]; [| done].
      rewrite log_bind, count_ev_app, generate_text_no_history.
      pose proof (generate_text_mode _ env built.1 built.2 _ Hm1) as Hm2. cbv beta in Hm2.
      destruct (value (generate_text env built.1 built.2 _)) as [answer|e]; [| done].
      by rewrite after_generation_vision by congruence.
    + intros built answer Hbuilt Hanswer.
      pose proof (generate_text_mode _ env built.1 built.2 _ Hm1) as Hm2. cbv beta in Hm2.
      unfold iteration.
      rewrite value_bind, log_bind, Hbuilt, value_bind, log_bind, Hanswer.
      by rewrite after_generation_vision by congruence.
  - intros built answer Hv Hbuilt Hanswer Hrun.
    pose proof (generate_text_mode _ env built.1 built.2 _ Hm1) as Hm2. cbv beta in Hm2.
    pose proof (generate_text_no_history env built.1 built.2
                  (final (build_prompt env l task s))) as Hq2.
    destruct (generate_text_log env built.1 built.2 (final (build_prompt env l task s)))
      as (rest & Hlog2).
    destruct (after_generation_record env l task built.1 answer
                (final (generate_text env built.1 built.2 (final (build_prompt env l task s)))))
      as (pre & Hlog & Hpre); [congruence | exact Hrun |].
    assert (Hm3 : INTERPRETER_MODE
                    (self (final (after_generation env l task built.1 answer
                       (final (generate_text env built.1 built.2
                                 (final (build_prompt env l task s)))))))
                  = INTERPRETER_MODE (self s)).
    { enough (H : keeps (fun s' => INTERPRETER_MODE (self s') = INTERPRETER_MODE (self s))
                    (after_generation env l task built.1 answer)) by by apply H.
      keeps_tac untouched. }
    rewrite Hm3 in Hlog.
    unfold iteration.
    rewrite !log_bind, !final_bind, Hbuilt, !log_bind, !final_bind, Hanswer, Hlog.
    split.
    + rewrite !count_ev_app, Hq1, Hq2, Hpre. done.
    + exists (log (build_prompt env l task s)
              ++ log (generate_text env built.1 built.2 (final (build_prompt env l task s)))
              ++ pre).
      split; [by rewrite <- !app_assoc |].
      rewrite Hlog2. apply in_or_app. right. by left.
Qed.

(** The sample iteration in Script mode. *)
Lemma interaction_record_saved_witness :
  let s := sample_sys (Some "script") true [] in
  let r := iteration sample_env sample_locals "plot a graph" s in
  let built :=
    (nl +:+ "Generate Bash Shell script for this prompt and make this script easy to read and understand for this task 'plot a graph for Operating System is Linux'.",
     @None string) in
  let s1 := final (build_prompt sample_env sample_locals "plot a graph" s) in
  let s2 := final (generate_text sample_env built.1 built.2 s1) in
  let code := extract_code sample_env "```import pandas```" (start_sep sample_locals)
                (end_sep sample_locals) (skip_first_line sample_locals)
                (CODE_MODE (self s2)) in
  count_ev is_history (log r) = 1 /\
  exists pre,
    log r = pre ++ [EvHistory {| i_task := "plot a graph";
                                 i_mode := INTERPRETER_MODE (self s);
                                 i_os_name := os_name sample_locals;
                                 i_language := INTERPRETER_LANGUAGE (self (final r));
                                 i_prompt := built.1;
                                 i_code := code;
                                 i_model := INTERPRRETER_MODEL (self (final r)) |}] /\
    In (EvGenerate built.1) pre.
Proof.
  cbv zeta.
  destruct (interaction_record_saved sample_env sample_locals "plot a graph"
              (sample_sys (Some "script") true [])) as [_ H].
  apply (H _ "```import pandas```"); by vm_compute.
Defined.

(** What the statement does in the sample iteration: the class has no
    attribute [save_history_json], the iteration ends with the exception. *)
Example sample_iteration_ends :
  value (iteration sample_env sample_locals "plot a graph"
           (sample_sys (Some "script") true [])) =
  Raise "'UtilityManager' object has no attribute 'save_history_json'".
Proof. by vm_compute. Qed.

(** C3 fails as stated: in Vision mode an iteration for a task that is not
    [exit] or [quit] runs to its end, shows the description of the picture and
    saves no interaction record. *)
Lemma interaction_record_saved_counterexample :
  let s := vision_sys [] in
  let r := iteration vision_env sample_locals "describe cat.png" s in
  is_exit "describe cat.png" = false /\
  INTERPRETER_MODE (self s) = "Vision" /\
  value r = Ok tt /\
  log r = [EvModePrompt "describe cat.png" "Linux"; EvClean;
           EvGenerate "Give accurate and detailed information about the image provided and be very detailed about the image 'describe cat.png'.";
           EvVision "cat.png";
           EvDisplay "A cat on a sofa."] /\
  count_ev is_history (log r) <> 1.
Proof. by vm_compute. Qed.

(** *** The cleaning of the response files *)

Lemma all_before_split (P Q : Event -> bool) (a b : list Event) :
  count_ev Q a = 0 -> count_ev P b = 0 -> all_before P Q (a ++ b).
Proof.
  intros Ha Hb l1 e l2 Heq He.
  apply app_eq_app in Heq as [k [[-> Hk] | [-> Hk]]].
  - destruct k as [|e' k]; cbn [app] in Hk.
    + subst b. rewrite count_ev_cons in Hb. lia.
    + injection Hk as <- ->. rewrite !count_ev_app, count_ev_cons, He in Ha. lia.
  - subst b. rewrite count_ev_app, count_ev_cons in Hb. lia.
Qed.

Lemma get_mode_prompt_log task os s :
  log (get_mode_prompt task os s) = [EvModePrompt task os].
Proof.
  unfold get_mode_prompt. rewrite log_bind. cbn [emit log value final app].
  rewrite log_bind. cbn [get_self log value final app].
  by repeat lazymatch goal with |- context [if ?b then _ else _] => destruct b end.
Qed.

Lemma remove_response_only env file : only is_removal (remove_response env file).
Proof. only_tac ltac:(reflexivity). Qed.

Lemma _clean_responses_log env s :
  exists removals,
    log (_clean_responses env s) = EvClean :: removals /\
    forallb is_removal removals = true.
Proof.
  unfold _clean_responses. rewrite log_bind. cbn [emit log value final app].
  eexists. split; [reflexivity |].
  lazymatch goal with
  | |- forallb ?P (log (?m ?s)) = true => cut (only P m); [intros H; apply H |]
  end.
  only_tac ltac:(reflexivity).
Qed.

Lemma fold_and_augment_after_cleaning env prompt0 :
  only after_cleaning
    (let* folded := fold_file_data env prompt0 in
     let* i := get_self in
     ret (augment (INTERPRETER_LANGUAGE i) folded.1, folded.2)).
Proof. only_tac ltac:(reflexivity). Qed.

Lemma generate_text_after_cleaning env prompt image :
  only after_cleaning (generate_text env prompt image).
Proof. only_tac ltac:(reflexivity). Qed.

Lemma after_generation_after_cleaning env l task prompt generated_output :
  only after_cleaning (after_generation env l task prompt generated_output).
Proof. only_tac ltac:(reflexivity). Qed.

Lemma get_mode_prompt_value task os s :
  exists prompt0, value (get_mode_prompt task os s) = Ok prompt0.
Proof.
  unfold get_mode_prompt, bind. cbn.
  repeat lazymatch goal with |- context [if ?b then _ else _] => destruct b end;
    by eexists.
Qed.

Lemma build_prompt_log_cleaning env l task s :
  exists removals rest,
    log (build_prompt env l task s) =
      EvModePrompt task (os_name l) :: EvClean :: removals ++ rest /\
    forallb is_removal removals = true /\
    forallb after_cleaning rest = true.
Proof.
  unfold build_prompt. rewrite log_bind, get_mode_prompt_log.
  destruct (get_mode_prompt_value task (os_name l) s) as (prompt0 & ->).
  set (s1 := final _). rewrite log_bind.
  destruct (_clean_responses_log env s1) as (removals & -> & Hremovals).
  exists removals. eexists. split; [reflexivity |]. split; [done |].
  destruct (value (_clean_responses env s1)); [| done].
  apply fold_and_augment_after_cleaning.
Qed.

Lemma iteration_log_cleaning env l task s :
  exists removals rest,
    log (iteration env l task s) =
      EvModePrompt task (os_name l) :: EvClean :: removals ++ rest /\
    forallb is_removal removals = true /\
    forallb after_cleaning rest = true.
Proof.
  unfold iteration. rewrite log_bind.
  destruct (build_prompt_log_cleaning env l task s) as (removals & rest & -> & Hrm & Hrest).
  exists removals. eexists. split; [| split; [done |]].
  - cbn [app]. rewrite <- app_assoc. reflexivity.
  - rewrite forallb_app, Hrest. cbn [andb].
    destruct (value (build_prompt env l task s)) as [built|]; [| done].
    rewrite log_bind, forallb_app, generate_text_after_cleaning. cbn [andb].
    destruct (value (generate_text _ _ _ _)); [| done].
    apply after_generation_after_cleaning.
Qed.

(** What [_clean_responses] leaves of one file: it is absent, or its removal
    raised and the message was printed with the name of the file; the other
    files are as they were. *)
Lemma remove_response_files env file s :
  let r := remove_response env file s in
  value r = Ok tt /\
  (files (host (final r)) !! file = None \/
   exists n msg,
     remove_error env n file = Some msg /\
     files (host (final r)) = files (host s) /\
     In (EvPrint ("Error in removing " +:+ file +:+ ": " +:+ msg)) (log r)) /\
  (forall other, files (host s) !! other = None ->
                 files (host (final r)) !! other = None) /\
  (forall other, other <> file ->
                 files (host (final r)) !! other = files (host s) !! other).
Proof.
  unfold remove_response, try_except, bind, isfile, tick, emit, modify_host. cbn.
  case_bool_decide as Hfile; cbn.
  - destruct (remove_error env (calls (host s)) file) as [msg|] eqn:Herr; cbn.
    + split; [done |]. split; [| done].
      right. exists (calls (host s)), msg. split; [done |]. split; [done |].
      right. by left.
    + split; [done |]. split; [left; apply lookup_delete_eq |]. split.
      * intros other Hother. destruct (decide (file = other)) as [-> | Hne];
          [apply lookup_delete_eq | by rewrite lookup_delete_ne].
      * intros other Hne. by rewrite lookup_delete_ne.
  - split; [done |]. split; [left | done].
    destruct (files (host s) !! file) eqn:E; [| done]. by destruct Hfile.
Qed.

Lemma for_each_remove_files env (l : list string) s :
  NoDup l ->
  let r := for_each (remove_response env) l s in
  value r = Ok tt /\
  (forall file, In file l ->
     files (host (final r)) !! file = None \/
     exists n msg,
       remove_error env n file = Some msg /\
       files (host (final r)) !! file = files (host s) !! file /\
       In (EvPrint ("Error in removing " +:+ file +:+ ": " +:+ msg)) (log r)) /\
  (forall other, files (host s) !! other = None ->
                 files (host (final r)) !! other = None) /\
  (forall other, ~ In other l ->
                 files (host (final r)) !! other = files (host s) !! other).
Proof.
  intros Hnodup. revert s.
  induction Hnodup as [|file l Hfresh Hnodup IH]; intros s; [by repeat split |].
  destruct (remove_response_files env file s) as (Hv & Hfile & Hnone & Hframe).
  destruct (IH (final (remove_response env file s))) as (IHv & IHin & IHnone & IHframe).
  cbv zeta. cbn [for_each].
  rewrite value_bind, log_bind, final_bind, Hv.
  split; [exact IHv |]. split; [| split].
  - intros f [<- | Hin].
    + destruct Hfile as [Hfile | (n & msg & Herr & Hsame & Hprint)];
        [left; by apply IHnone |].
      right. exists n, msg. split; [done |]. split.
      * rewrite IHframe by (by rewrite <- list_elem_of_In). by rewrite Hsame.
      * apply in_or_app. by left.
    + destruct (IHin f Hin) as [Hf | (n & msg & Herr & Hsame & Hprint)]; [by left |].
      right. exists n, msg. split; [done |]. split.
      * rewrite Hsame. apply Hframe. intros ->. apply Hfresh. by apply list_elem_of_In.
      * apply in_or_app. by right.
  - intros other Hother. by apply IHnone, Hnone.
  - intros other Hother. rewrite IHframe, Hframe; [done | |].
    + intros ->. apply Hother. by left.
    + intros Hin. apply Hother. by right.
Qed.

Lemma get_mode_prompt_host task os s :
  host (final (get_mode_prompt task os s)) = host s.
Proof.
  cut (keeps (fun s' => host s' = host s) (get_mode_prompt task os));
    [intros H; by apply H | keeps_tac untouched].
Qed.

Lemma iteration_log_clean env l task s :
  exists rest,
    log (iteration env l task s) =
      EvModePrompt task (os_name l)
        :: log (_clean_responses env (final (get_mode_prompt task (os_name l) s))) ++ rest.
Proof.
  unfold iteration, build_prompt. rewrite !log_bind, get_mode_prompt_log.
  destruct (get_mode_prompt_value task (os_name l) s) as (prompt0 & ->).
  rewrite log_bind. cbn [app]. rewrite <- !app_assoc. by eexists.
Qed.

Lemma _clean_responses_files env s :
  let c := _clean_responses env s in
  Forall (fun file =>
            files (host (final c)) !! file = None \/
            exists n msg,
              remove_error env n file = Some msg /\
              files (host (final c)) !! file = files (host s) !! file /\
              In (EvPrint ("Error in removing " +:+ file +:+ ": " +:+ msg)) (log c))
         resource_files.
Proof.
  destruct (for_each_remove_files env resource_files s) as (_ & Hin & _).
  { by apply (bool_decide_unpack (NoDup resource_files)). }
  apply List.Forall_forall. intros file Hfile.
  unfold _clean_responses. rewrite log_bind, final_bind.
  cbn [emit log value final app].
  destruct (Hin file Hfile) as [Hnone | (n & msg & Herr & Hsame & Hprint)]; [by left |].
  right. exists n, msg. split; [done |]. split; [done |]. by right.
Qed.

(** C4, as the code has it. In every iteration the prompt of the mode is
    built first and the response files [graph.png], [chart.png] and
    [table.md] are deleted right after it: the log of an iteration starts
    with the entry into [get_mode_prompt], then the entry into
    [_clean_responses] and its removals, and all the rest (the file data, the
    call of the model, every dispatch) comes behind them; after the cleaning
    each of the three files is absent, unless the removal of that very file
    raised: then the file is as it was before the iteration and the log holds
    the line [Error in removing <file>: <message>] for it. *)
Theorem cleaning_follows_mode_prompt (env : Env) (l : Locals) (task : string) (s : Sys) :
  let r := iteration env l task s in
  (exists removals rest,
     log r = EvModePrompt task (os_name l) :: EvClean :: removals ++ rest /\
     forallb is_removal removals = true /\
     forallb after_cleaning rest = true) /\
  all_before is_mode_prompt is_cleaning (log r) /\
  all_before is_cleaning is_generate (log r) /\
  all_before is_cleaning is_dispatch (log r) /\
  let cleaned := final (_clean_responses env (final (get_mode_prompt task (os_name l) s))) in
  Forall (fun file =>
            files (host cleaned) !! file = None \/
            exists n msg,
              remove_error env n file = Some msg /\
              files (host cleaned) !! file = files (host s) !! file /\
              In (EvPrint ("Error in removing " +:+ file +:+ ": " +:+ msg)) (log r))
         resource_files.
Proof.
  cbv zeta.
  destruct (iteration_log_cleaning env l task s) as (removals & rest & Hlog & Hrm & Hrest).
  assert (Hrm' : forall Q, (forall e, is_removal e = true -> Q e = false) ->
                           count_ev Q removals = 0).
  { intros Q HQ. by apply (count_ev_forallb is_removal). }
  assert (Hrest' : forall Q, (forall e, after_cleaning e = true -> Q e = false) ->
                             count_ev Q rest = 0).
  { intros Q HQ. by apply (count_ev_forallb after_cleaning). }
  split; [by exists removals, rest |].
  split; [| split; [| split]].
  - rewrite Hlog. apply (all_before_split _ _ [EvModePrompt task (os_name l)]); [done |].
    rewrite count_ev_cons, count_ev_app. cbn [is_mode_prompt].
    rewrite Hrm' by (intros []; done). rewrite Hrest' by (intros []; done). done.
  - rewrite Hlog. change (EvModePrompt task (os_name l) :: EvClean :: removals ++ rest)
      with ((EvModePrompt task (os_name l) :: EvClean :: removals) ++ rest).
    apply all_before_split; [| apply Hrest'; intros []; done ].
    rewrite !count_ev_cons. cbn [is_generate]. rewrite Hrm' by (intros []; done). done.
  - rewrite Hlog. change (EvModePrompt task (os_name l) :: EvClean :: removals ++ rest)
      with ((EvModePrompt task (os_name l) :: EvClean :: removals) ++ rest).
    apply all_before_split; [| apply Hrest'; intros []; done ].
    rewrite !count_ev_cons. cbn [is_dispatch]. rewrite Hrm' by (intros []; done). done.
  - destruct (iteration_log_clean env l task s) as (rest' & ->).
    eapply Forall_impl; [apply _clean_responses_files |].
    cbv beta zeta. intros file [Hnone | (n & msg & Herr & Hsame & Hprint)]; [by left |].
    right. exists n, msg. split; [done |].
    split; [by rewrite Hsame, get_mode_prompt_host |].
    right. apply in_or_app. by left.
Qed.

(** A removal that fails: [graph.png] is gone, [chart.png] stays and the
    failure is printed with its name. *)
Example cleaning_failure :
  let cleaned := final (_clean_responses locked_env locked_sys) in
  files (host cleaned) !! "graph.png" = None /\
  files (host cleaned) !! "chart.png" = Some "PNG" /\
  log (_clean_responses locked_env locked_sys) =
    [EvClean; EvRemove "graph.png"; EvRemove "chart.png";
     EvPrint "Error in removing chart.png: [Errno 13] Permission denied: 'chart.png'"].
Proof. by vm_compute. Qed.

(** C4 fails as stated: the deletion does not come before the prompt is
    built. In the sample iteration the entry into [get_mode_prompt] is the
    first event and the entry into [_clean_responses] the second. *)
Lemma cleaning_follows_mode_prompt_counterexample :
  let r := iteration sample_env sample_locals "plot a graph" (sample_sys None true []) in
  take 2 (log r) = [EvModePrompt "plot a graph" "Linux"; EvClean] /\
  ~ all_before is_cleaning is_mode_prompt (log r).
Proof.
  cbv zeta. split; [by vm_compute |].
  destruct (iteration_log_cleaning sample_env sample_locals "plot a graph"
              (sample_sys None true [])) as (removals & rest & Hlog & _ & _).
  intros H.
  specialize (H [] _ _ Hlog eq_refl). by rewrite count_ev_cons in H.
Qed.

(** ** The session loop *)

Lemma iteration_no_task env l task : quiet is_task (iteration env l task).
Proof. quiet_tac. Qed.

Lemma iteration_stdin n env l task :
  keeps (fun s => length (stdin (host s)) <= n) (iteration env l task).
Proof.
  keeps_tac ltac:(first [ exact (fun H => H)
                        | cbn; intros;
                          match goal with
                          | E : stdin _ = _ :: _ |- _ => rewrite E in *; cbn in *; lia
                          end ]).
Qed.

Lemma exit_record_history task (log : list Event) :
  is_exit task = false -> forallb (history_of task) log = true ->
  count_ev exit_record log = 0.
Proof.
  intros Htask. apply count_ev_forallb. intros [] He; try done.
  cbn in He |- *. apply String.eqb_eq in He. by rewrite He.
Qed.

Lemma session_loop_step rounds env l s :
  session_loop (S rounds) env l s =
  (let* task := input "> " in
   if is_exit task then ret Broke
   else iteration env l task;; session_loop rounds env l) s.
Proof. reflexivity. Qed.

Lemma session_loop_broke rounds env l s :
  value (session_loop rounds env l s) = Ok Broke ->
  exists pre task,
    log (session_loop rounds env l s) = pre ++ [EvInput "> " task] /\
    is_exit task = true.
Proof.
  revert s. induction rounds as [|rounds IH]; intros s; [done |].
  rewrite session_loop_step, value_bind, log_bind.
  unfold input at 1 2 3 4 5. destruct (stdin (host s)) as [|task rest]; [done |].
  cbn [log value final].
  set (s1 := {| self := self s; host := set_stdin rest (host s) |}).
  destruct (is_exit task) eqn:Htask.
  - intros _. exists [], task. by rewrite app_nil_r.
  - rewrite value_bind, log_bind.
    destruct (value (iteration env l task s1)); [| done].
    intros (pre & last & -> & Hlast)%IH.
    exists (EvInput "> " task :: log (iteration env l task s1) ++ pre), last.
    split; [| done]. cbn [app]. by rewrite app_assoc.
Qed.

Lemma session_loop_no_exit_record rounds env l s :
  count_ev exit_record (log (session_loop rounds env l s)) = 0.
Proof.
  revert s. induction rounds as [|rounds IH]; intros s; [done |].
  rewrite session_loop_step, log_bind.
  unfold input at 1 2 3. destruct (stdin (host s)) as [|task rest]; [done |].
  cbn [log value final]. rewrite count_ev_app. cbn [count_ev List.filter exit_record length].
  destruct (is_exit task) eqn:Htask; [done |].
  rewrite log_bind, count_ev_app.
  rewrite (exit_record_history task) by (done || apply iteration_history).
  destruct (value (iteration env l task _)); [apply IH | done].
Qed.

Lemma session_loop_finishes rounds env l s :
  length (stdin (host s)) < rounds ->
  value (session_loop rounds env l s) <> Ok Unfinished.
Proof.
  revert s. induction rounds as [|rounds IH]; intros s Hlen; [lia |].
  rewrite session_loop_step, value_bind.
  unfold input at 1 2. destruct (stdin (host s)) as [|task rest] eqn:Hin; [done |].
  cbn [log value final].
  destruct (is_exit task); [done |].
  rewrite value_bind.
  set (s1 := {| self := self s; host := set_stdin rest (host s) |}).
  pose proof (iteration_stdin (length rest) env l task s1 (le_n _)) as Hs1.
  destruct (value (iteration env l task s1)); [| done].
  apply IH. cbv beta in Hs1. cbn [length] in Hlen. lia.
Qed.

(** C8. When the task that is read equals [exit] or [quit] in any case, the
    loop ends at once: nothing but the reading of that task happens, so no
    record is written for it. A task that is not [exit] or [quit] starts its
    iteration and the loop goes on after it. A loop that ends by [break] has
    read [exit] or [quit] as its last task, no run of the loop saves a
    record of such a task, and as many rounds as there are lines of input,
    and one more, are enough for the loop to end, by [break] or by an
    exception. *)
Theorem loop_ends_on_exit (env : Env) (l : Locals) (rounds : nat) (s : Sys)
    (task : string) (rest : list string)
    (Hinput : stdin (host s) = task :: rest) :
  let s1 := {| self := self s; host := set_stdin rest (host s) |} in
  let r := session_loop (S rounds) env l s in
  (if is_exit task
   then r = MkRun [EvInput "> " task] s1 (Ok Broke)
   else r = (emit (EvInput "> " task);; iteration env l task;;
             session_loop rounds env l) s1) /\
  (value r = Ok Broke ->
   exists pre last, log r = pre ++ [EvInput "> " last] /\ is_exit last = true) /\
  count_ev exit_record (log r) = 0 /\
  (length rest < rounds -> value r <> Ok Unfinished).
Proof.
  cbv zeta. split; [| split; [| split]].
  - rewrite session_loop_step. unfold bind at 1 3, input. rewrite Hinput.
    cbn [log value final]. destruct (is_exit task); reflexivity.
  - apply session_loop_broke.
  - apply session_loop_no_exit_record.
  - intros Hlen. apply session_loop_finishes. rewrite Hinput. cbn [length]. lia.
Qed.

Lemma loop_ends_on_exit_witness :
  let s := sample_sys None true ["Quit"; "plot a graph"] in
  let s1 := {| self := self s; host := set_stdin ["plot a graph"] (host s) |} in
  let r := session_loop 3 sample_env sample_locals s in
  is_exit "Quit" = true /\
  r = MkRun [EvInput "> " "Quit"] s1 (Ok Broke) /\
  count_ev is_history (log r) = 0.
Proof.
  cbv zeta.
  destruct (loop_ends_on_exit sample_env sample_locals 2 (sample_sys None true ["Quit"; "plot a graph"])
              "Quit" ["plot a graph"]) as (H & _); [by vm_compute |].
  change (is_exit "Quit") with true in H.
  split; [done |]. split; [exact H |]. by rewrite H.
Defined.

(** A session of two tasks in Code mode: the first is answered and its code
    is run, the iteration comes to the statement that names the record and
    ends there with its exception, which ends the session; the second task is
    not read. *)
Example sample_session :
  let r := (initialize sample_env (sample_args None true);; interpreter_main sample_env)
             {| self := blank; host := sample_host ["plot a graph"; "exit"] |} in
  value r = Raise "'UtilityManager' object has no attribute 'save_history_json'" /\
  List.filter is_task (log r) = [EvInput "> " "plot a graph"] /\
  count_ev is_history (log r) = 1 /\
  stdin (host (final r)) = ["exit"].
Proof. by vm_compute. Qed.

(** [interpreter_main] gives its loop enough rounds: it ends by [break] or by
    an exception, the one of the end of the input included. *)
Lemma interpreter_main_finishes env s :
  value (interpreter_main env s) <> Ok Unfinished.
Proof.
  unfold interpreter_main. rewrite value_bind.
  destruct (value (prelude env s)) as [l|]; [| done].
  rewrite value_bind. cbn [get_host value final].
  apply session_loop_finishes. lia.
Qed.

(** The mode name and the flags agree from the start of the loop on. *)
Lemma prelude_ready (mode : option string) (i : Interp) :
  INTERPRETER_MODE i = "code" ->
  session_ready (set_interpreter_mode (initialize_mode mode i)) = true.
Proof.
  intros Hcode. destruct mode as [m|]; [| cbn; by rewrite Hcode].
  unfold initialize_mode, set_interpreter_mode, session_ready, opt_is.
  cbn [CODE_MODE SCRIPT_MODE COMMAND_MODE VISION_MODE set_flags].
  destruct (String.eqb_spec m "script") as [-> | _]; [by cbv |].
  destruct (String.eqb_spec m "command") as [-> | _]; [by cbv |].
  destruct (String.eqb_spec m "vision") as [-> | _]; [by cbv |].
  cbn. rewrite Hcode. by destruct (String.eqb m "code").
Qed.

Lemma iteration_ready env l task :
  keeps (fun s => session_ready (self s) = true) (iteration env l task).
Proof. keeps_tac untouched. Qed.

(** *** The state at the start of the loop *)

Lemma ensures_bind {A B} Q (m : M A) (f : A -> M B) :
  (forall a, ensures Q (f a)) -> ensures Q (bind m f).
Proof.
  intros Hf s b. rewrite value_bind, final_bind.
  destruct (value (m s)); [apply Hf | done].
Qed.

Lemma initialize_mode_flags (mode : option string) (i : Interp) :
  let i' := initialize_mode mode i in
  count_true [CODE_MODE i'; SCRIPT_MODE i'; COMMAND_MODE i'; VISION_MODE i'] = 1.
Proof.
  destruct mode as [m|]; [| by cbv].
  unfold initialize_mode, opt_is. cbn [CODE_MODE SCRIPT_MODE COMMAND_MODE VISION_MODE set_flags].
  destruct (String.eqb_spec m "script") as [-> | _]; [by cbv |].
  destruct (String.eqb_spec m "command") as [-> | _]; [by cbv |].
  destruct (String.eqb_spec m "vision") as [-> | _]; [by cbv |].
  by destruct (String.eqb m "code").
Qed.

Lemma initialize_flags env args :
  ensures (fun s => count_true [CODE_MODE (self s); SCRIPT_MODE (self s);
                                COMMAND_MODE (self s); VISION_MODE (self s)] = 1)
          (initialize env args).
Proof.
  unfold initialize. repeat (apply ensures_bind; intros ?).
  intros s _ _. apply initialize_mode_flags.
Qed.

Lemma initialize_mode_name env args s :
  INTERPRETER_MODE (self (final (initialize env args s))) = "code".
Proof.
  unfold initialize. rewrite final_bind. cbn [modify_self value final].
  lazymatch goal with
  | |- INTERPRETER_MODE (self (final (?m ?s1))) = _ =>
      cut (keeps (fun s' => INTERPRETER_MODE (self s') = "code") m);
        [intros Hk; by apply Hk |]
  end.
  keeps_tac untouched.
Qed.

Lemma prelude_self env s :
  self (final (prelude env s)) = set_interpreter_mode (self s).
Proof.
  unfold prelude. cbv zeta. rewrite final_bind. cbn [modify_self value final].
  lazymatch goal with
  | |- self (final (?m ?s1)) = ?i =>
      cut (keeps (fun s' => self s' = i) m); [intros Hk; by apply Hk |]
  end.
  keeps_tac untouched.
Qed.

Lemma set_interpreter_mode_ready (i : Interp) :
  count_true [CODE_MODE i; SCRIPT_MODE i; COMMAND_MODE i; VISION_MODE i] = 1 ->
  INTERPRETER_MODE i = "code" ->
  session_ready (set_interpreter_mode i) = true.
Proof.
  destruct i as [lang sv ex dc md name c sc cm v hist cfg sm].
  cbn [CODE_MODE SCRIPT_MODE COMMAND_MODE VISION_MODE INTERPRETER_MODE].
  intros Hflags ->.
  destruct c, sc, cm, v; cbv in Hflags; try discriminate Hflags; reflexivity.
Qed.

Lemma start_ready env args s l :
  value ((initialize env args;; prelude env) s) = Ok l ->
  session_ready (self (final ((initialize env args;; prelude env) s))) = true.
Proof.
  rewrite value_bind, final_bind.
  pose proof (initialize_flags env args s) as Hflags.
  pose proof (initialize_mode_name env args s) as Hname.
  destruct (value (initialize env args s)) as [[]|]; [| done].
  intros _. rewrite prelude_self.
  apply set_interpreter_mode_ready; [exact (Hflags tt eq_refl) | exact Hname].
Qed.

(** * Further properties of the code *)

(** ** Strings, further *)

Lemma append_assoc (a b c : string) : (a +:+ b) +:+ c = a +:+ b +:+ c.
Proof. induction a; rewrite ?append_cons, ?append_nil_l; [done | by f_equal]. Qed.

Lemma prefix_refl_append (a b : string) : String.prefix a (a +:+ b) = true.
Proof.
  induction a as [|c a IH]; [by destruct b |].
  rewrite append_cons. simpl. by destruct (ascii_dec c c).
Qed.

Lemma contains_here (sub b : string) : Py.contains sub (sub +:+ b) = true.
Proof.
  destruct sub as [|c sub].
  - rewrite append_nil_l. by destruct b.
  - rewrite append_cons. cbn [Py.contains]. rewrite <- append_cons.
    by rewrite prefix_refl_append.
Qed.

Lemma contains_prepend (sub a b : string) :
  Py.contains sub b = true -> Py.contains sub (a +:+ b) = true.
Proof.
  intros H. induction a as [|c a IH]; [done |].
  rewrite append_cons. cbn [Py.contains]. rewrite IH. apply orb_true_r.
Qed.

Lemma any_in_prepend (words : list string) (a b : string) :
  Py.any_in words b = true -> Py.any_in words (a +:+ b) = true.
Proof.
  unfold Py.any_in. rewrite !existsb_exists.
  intros (w & Hw & H). exists w. split; [done | by apply contains_prepend].
Qed.

(** ** The prompt, further *)

Lemma augment_graph_appends (language prompt : string) :
  exists x, augment_graph language prompt = prompt +:+ x.
Proof.
  unfold augment_graph.
  repeat lazymatch goal with |- context [if ?b then _ else _] => destruct b end;
    try (by eexists); exists ""; by rewrite append_nil_r.
Qed.

Lemma augment_chart_appends (language prompt : string) :
  exists x, augment_chart language prompt = prompt +:+ x.
Proof.
  unfold augment_chart.
  repeat lazymatch goal with |- context [if ?b then _ else _] => destruct b end;
    try (by eexists); exists ""; by rewrite append_nil_r.
Qed.

Lemma augment_table_appends (language prompt : string) :
  exists x, augment_table language prompt = prompt +:+ x.
Proof.
  unfold augment_table.
  repeat lazymatch goal with |- context [if ?b then _ else _] => destruct b end;
    try (by eexists); exists ""; by rewrite append_nil_r.
Qed.

(** X1. The keyword augmentations only append: whatever the target language
    and the keywords, the prompt that leaves the three augmentations starts
    with the prompt that entered them. *)
Theorem augment_keeps_prompt (language prompt : string) :
  exists suffix, augment language prompt = prompt +:+ suffix.
Proof.
  unfold augment.
  destruct (augment_graph_appends language prompt) as (x & ->).
  destruct (augment_chart_appends language (prompt +:+ x)) as (y & ->).
  destruct (augment_table_appends language ((prompt +:+ x) +:+ y)) as (z & ->).
  exists (x +:+ y +:+ z). by rewrite !append_assoc.
Qed.

(** X2. The graph instruction brings the chart instruction with it: the
    chart keywords are looked for in the prompt after the graph instruction
    was appended, and that instruction names [Matplotlib] for [python] and
    [Chart.js] for [javascript], which contain [plot] and [chart]. A prompt
    that mentions a graph gets both instructions whether it mentions a chart
    or not. *)
Theorem graph_brings_chart (prompt : string)
    (Hgraph : Py.any_in ["graph"; "graphs"] (Py.lower prompt) = true) :
  augment_chart "python" (augment_graph "python" prompt) =
    prompt +:+ nl +:+ graph_python +:+ nl +:+ chart_python /\
  augment_chart "javascript" (augment_graph "javascript" prompt) =
    prompt +:+ nl +:+ graph_javascript +:+ nl +:+ chart_javascript.
Proof.
  unfold augment_graph. rewrite Hgraph. cbn [String.eqb Ascii.eqb Bool.eqb].
  change (String.eqb "python" "python") with true.
  change (String.eqb "javascript" "python") with false.
  change (String.eqb "javascript" "javascript") with true.
  cbv iota. unfold augment_chart.
  change (String.eqb "python" "python") with true.
  change (String.eqb "javascript" "python") with false.
  change (String.eqb "javascript" "javascript") with true.
  cbv iota.
  rewrite !lower_append.
  rewrite !(any_in_prepend _ (Py.lower prompt)) by (by vm_compute).
  by rewrite !append_assoc.
Qed.

Lemma graph_brings_chart_witness :
  augment_chart "python" (augment_graph "python" "Draw a graph of the sales") =
    "Draw a graph of the sales" +:+ nl +:+ graph_python +:+ nl +:+ chart_python /\
  augment_chart "javascript" (augment_graph "javascript" "Draw a graph of the sales") =
    "Draw a graph of the sales" +:+ nl +:+ graph_javascript +:+ nl +:+ chart_javascript.
Proof. apply graph_brings_chart. reflexivity. Defined.

(** X3. In a session whose mode name and flags agree, the prompt of the mode
    is built for every task and carries the text of the task as it was
    typed. *)
Theorem mode_prompt_embeds_task (task os : string) (s : Sys)
    (Hready : session_ready (self s) = true) :
  exists prompt,
    value (get_mode_prompt task os s) = Ok (Some prompt) /\
    Py.contains task prompt = true.
Proof.
  destruct s as [i h]. destruct i as [lang sv ex dc md name c sc cm v hist cfg sm].
  unfold session_ready in Hready.
  cbn [self CODE_MODE SCRIPT_MODE COMMAND_MODE VISION_MODE] in Hready.
  apply andb_true_iff in Hready as [Hone _].
  destruct c, sc, cm, v; cbv in Hone; try discriminate Hone;
    (eexists; split; [reflexivity |]);
    repeat first [apply contains_here | apply contains_prepend].
Qed.

Lemma mode_prompt_embeds_task_witness :
  exists prompt,
    value (get_mode_prompt "list the files" "Linux" (sample_sys (Some "command") true []))
      = Ok (Some prompt) /\
    Py.contains "list the files" prompt = true.
Proof. apply mode_prompt_embeds_task. by vm_compute. Defined.

Lemma get_os_platform_name (env : Env) :
  (get_os_platform env).1 =
    if String.eqb (uname_system env) "Darwin" then "MacOS"
    else if String.eqb (uname_system env) "Linux" then "Linux"
    else if String.eqb (uname_system env) "Windows" then "Windows"
    else "Other".
Proof.
  unfold get_os_platform. cbn [fst].
  destruct (String.eqb_spec (uname_system env) "Darwin") as [-> | H1]; [done |].
  rewrite lookup_insert_ne by done.
  destruct (String.eqb_spec (uname_system env) "Linux") as [-> | H2]; [done |].
  rewrite lookup_insert_ne by done.
  destruct (String.eqb_spec (uname_system env) "Windows") as [-> | H3]; [done |].
  by rewrite lookup_insert_ne by done.
Qed.

(** X4. From the platform to the dialect: [get_os_platform] names the host
    [MacOS], [Linux], [Windows] or [Other], and for that name Script mode
    sets the target language to [applescript] on Darwin, [bash] on Linux,
    [powershell] on Windows and [python] on every other system. *)
Theorem platform_script_language (env : Env) (i0 : Interp) (h : Host) (task : string) :
  let os := (get_os_platform env).1 in
  let s := {| self := initialize_mode (Some "script") i0; host := h |} in
  Py.mem os ["MacOS"; "Linux"; "Windows"; "Other"] = true /\
  INTERPRETER_LANGUAGE (self (final (get_mode_prompt task os s))) =
    (if String.eqb (uname_system env) "Darwin" then "applescript"
     else if String.eqb (uname_system env) "Linux" then "bash"
     else if String.eqb (uname_system env) "Windows" then "powershell"
     else "python").
Proof.
  cbv zeta. rewrite get_os_platform_name.
  assert (Hlang : forall os,
            INTERPRETER_LANGUAGE
              (self (final (get_mode_prompt task os
                              {| self := initialize_mode (Some "script") i0; host := h |})))
            = default "python" (language_map !! Py.lower os)) by reflexivity.
  rewrite Hlang.
  by destruct (String.eqb (uname_system env) "Darwin"),
       (String.eqb (uname_system env) "Linux"),
       (String.eqb (uname_system env) "Windows").
Qed.

(** ** The state across an iteration *)

Lemma final_bind_keeps {A B} (I : Sys -> Prop) (m : M A) (f : A -> M B) s :
  I (final (m s)) -> (forall a, keeps I (f a)) -> I (final (bind m f s)).
Proof.
  intros Hm Hf. rewrite final_bind. destruct (value (m s)); [by apply Hf | done].
Qed.

Lemma get_mode_prompt_settings v task os :
  keeps (fun s => settings (self s) = v) (get_mode_prompt task os).
Proof. keeps_tac untouched. Qed.

Lemma iteration_settings v env l task :
  keeps (fun s => settings (self s) = v) (iteration env l task).
Proof. keeps_tac untouched. Qed.

Lemma get_mode_prompt_language v task os :
  keeps (fun s => SCRIPT_MODE (self s) = false /\ INTERPRETER_LANGUAGE (self s) = v)
        (get_mode_prompt task os).
Proof.
  intros [i h] [Hs Hl]. cbn [self] in Hs, Hl.
  unfold get_mode_prompt. rewrite final_bind. cbn [emit value final].
  rewrite final_bind. cbn [get_self value final self].
  rewrite Hs.
  destruct (CODE_MODE i); [by cbn |].
  destruct (COMMAND_MODE i); [by cbn |].
  destruct (VISION_MODE i); by cbn.
Qed.

Lemma session_loop_keeps (I : Sys -> Prop) rounds env l :
  (forall task, keeps I (iteration env l task)) ->
  (forall s rest, I s -> I {| self := self s; host := set_stdin rest (host s) |}) ->
  keeps I (session_loop rounds env l).
Proof.
  intros Hit Hin. induction rounds as [|rounds IH]; [by intros s Hs |].
  cbn [session_loop]. apply keeps_bind.
  - apply keeps_input. intros line rest s _. apply Hin.
  - intros task. destruct (is_exit task); [by intros s Hs |].
    apply keeps_bind; [apply Hit | by intros _].
Qed.

(** X5. A session never changes its settings: after any number of rounds of
    the loop, whether it ended by [break] or by an exception, the options
    [SAVE_CODE], [EXECUTE_CODE] and [DISPLAY_CODE], the mode name and the four
    mode flags, the configuration values and the system message are what
    they were at the start; and outside Script mode the target language is
    too. *)
Theorem session_keeps_settings (env : Env) (l : Locals) (rounds : nat) (s : Sys) :
  let i' := self (final (session_loop rounds env l s)) in
  settings i' = settings (self s) /\
  (SCRIPT_MODE (self s) = false ->
   INTERPRETER_LANGUAGE i' = INTERPRETER_LANGUAGE (self s)).
Proof.
  cbv zeta. split.
  - apply (session_loop_keeps (fun s' => settings (self s') = settings (self s)));
      [intros task; apply iteration_settings | by intros | done].
  - intros Hs.
    apply (session_loop_keeps
             (fun s' => SCRIPT_MODE (self s') = false /\
                        INTERPRETER_LANGUAGE (self s') = INTERPRETER_LANGUAGE (self s)));
      [| by intros | done].
    intros task. unfold iteration, build_prompt.
    apply keeps_bind; [apply keeps_bind; [apply get_mode_prompt_language |] |];
      intros ?; keeps_tac untouched.
Qed.

Lemma iteration_history_rest v env (p0 : option string) :
  keeps (fun s => history (self s) = v)
        (_clean_responses env;;
         let* folded := fold_file_data env p0 in
         let* i := get_self in
         ret (augment (INTERPRETER_LANGUAGE i) folded.1, folded.2)).
Proof. keeps_tac untouched. Qed.

Lemma generate_text_history v env prompt image :
  keeps (fun s => history (self s) = v) (generate_text env prompt image).
Proof. keeps_tac untouched. Qed.

Lemma after_generation_history v env l task prompt out :
  keeps (fun s => history (self s) = v) (after_generation env l task prompt out).
Proof. keeps_tac untouched. Qed.

(** X6. The history of the object grows by what [get_code_prompt] appends and
    by nothing else: an iteration in Code mode adds one pair, the task and
    the prompt of the mode as it was before the file data and the
    augmentations were added to it, whatever happens afterwards; an
    iteration in another mode leaves the history as it is. *)
Theorem iteration_history_entry (env : Env) (l : Locals) (task : string) (s : Sys) :
  history (self (final (iteration env l task s))) =
    if CODE_MODE (self s)
    then history (self s) ++
         [(task, "Generate the code in " +:+ INTERPRETER_LANGUAGE (self s)
                 +:+ " language for this task '" +:+ task
                 +:+ " for Operating System: " +:+ os_name l +:+ "'.")]
    else history (self s).
Proof.
  set (v := if CODE_MODE (self s) then _ else _).
  unfold iteration.
  apply (final_bind_keeps (fun s' => history (self s') = v)).
  - unfold build_prompt.
    apply (final_bind_keeps (fun s' => history (self s') = v)).
    + unfold v. destruct s as [i h]. unfold get_mode_prompt.
      rewrite final_bind. cbn [emit value final].
      rewrite final_bind. cbn [get_self value final self].
      destruct (CODE_MODE i); [by cbn |].
      destruct (SCRIPT_MODE i); [by cbn |].
      destruct (COMMAND_MODE i); [by cbn |].
      destruct (VISION_MODE i); by cbn.
    + intros p0. apply iteration_history_rest.
  - intros built. apply keeps_bind; [apply generate_text_history |].
    intros out. apply after_generation_history.
Qed.

(** ** Standard input *)

Lemma input_lines_app (l1 l2 : list Event) :
  input_lines (l1 ++ l2) = input_lines l1 ++ input_lines l2.
Proof.
  induction l1 as [|e l1 IH]; [done |].
  destruct e; cbn [app input_lines]; by rewrite ?IH.
Qed.

Lemma reads_bind {A B} (m : M A) (f : A -> M B) :
  reads m -> (forall a, reads (f a)) -> reads (bind m f).
Proof.
  intros Hm Hf s. rewrite log_bind, final_bind, input_lines_app, <- app_assoc.
  rewrite (Hm s) at 1. f_equal.
  destruct (value (m s)); [apply Hf | done].
Qed.

Lemma reads_try {A} (m : M A) (h : string -> M A) :
  reads m -> (forall msg, reads (h msg)) -> reads (try_except m h).
Proof.
  intros Hm Hh s. rewrite log_try, final_try, input_lines_app, <- app_assoc.
  rewrite (Hm s) at 1. f_equal.
  destruct (value (m s)) as [a|[msg|t]]; [done | apply Hh | done].
Qed.

Lemma reads_input ask : reads (input ask).
Proof.
  intros s. unfold input. destruct (stdin (host s)) eqn:E; cbn [log final host self input_lines app];
    [by rewrite E | done].
Qed.

Lemma reads_for_each {A} (f : A -> M unit) (l : list A) :
  (forall x, reads (f x)) -> reads (for_each f l).
Proof.
  intros Hf. induction l as [|x l IH]; [by intros s |].
  cbn [for_each]. apply reads_bind; [apply Hf | by intros _].
Qed.

Ltac reads_tac :=
  repeat first
    [ solve [intros ?; reflexivity]
    | apply reads_input
    | apply reads_bind; [| intros ?]
    | apply reads_for_each; intros ?
    | apply reads_try; [| intros ?]
    | progress cbv zeta
    | lazymatch goal with
      | |- reads (if ?b then _ else _) => destruct b
      | |- reads (match ?x with _ => _ end) => destruct x
      end
    | lazymatch goal with
      | |- reads ?m => let h := head_of m in progress unfold h
      end ].

Lemma iteration_reads env l task : reads (iteration env l task).
Proof. reads_tac. Qed.

Lemma session_loop_reads rounds env l : reads (session_loop rounds env l).
Proof.
  induction rounds as [|rounds IH]; [by intros s |].
  cbn [session_loop]. apply reads_bind; [apply reads_input |].
  intros task. destruct (is_exit task); [by intros s |].
  apply reads_bind; [apply iteration_reads | by intros _].
Qed.

Lemma prelude_reads env : reads (prelude env).
Proof. reads_tac. Qed.

(** X7. Standard input is consumed in order and only by [input]: the lines
    that a run of [interpreter_main] has read, tasks and answers to the
    confirmation of an execution alike, are the first lines of the input in
    their order, and the rest of the input is left as it was. *)
Theorem session_reads_stdin (env : Env) (s : Sys) :
  let r := interpreter_main env s in
  stdin (host s) = input_lines (log r) ++ stdin (host (final r)).
Proof.
  cbv zeta.
  cut (reads (interpreter_main env)); [intros H; apply H |].
  unfold interpreter_main. apply reads_bind; [apply prelude_reads |].
  intros l. apply reads_bind; [by intros s' |].
  intros h. apply session_loop_reads.
Qed.

(** X8. A session whose input never says [exit] or [quit] cannot end well:
    [interpreter_main] ends with an exception, that of the end of the input
    when nothing else raised before. *)
Theorem session_without_exit_raises (env : Env) (s : Sys)
    (Hno : Forall (fun line => is_exit line = false) (stdin (host s))) :
  exists msg, value (interpreter_main env s) = Raise msg.
Proof.
  pose proof (interpreter_main_finishes env s) as Hfin.
  destruct (value (interpreter_main env s)) as [[]|msg] eqn:Hv; [| done | by exists msg].
  exfalso. clear Hfin.
  unfold interpreter_main in Hv. rewrite value_bind in Hv.
  pose proof (prelude_reads env s) as Hpre.
  assert (Hq : input_lines (log (prelude env s)) = []).
  { assert (Hquiet : forall s, log (prelude env s) =
                                List.filter (fun e => negb match e with EvInput _ _ => true | _ => false end)
                                            (log (prelude env s))) by reflexivity.
    rewrite Hquiet. clear. induction (log (prelude env s)) as [|e lg IH]; [done |].
    destruct e; cbn; done. }
  rewrite Hq in Hpre. cbn [app] in Hpre.
  destruct (value (prelude env s)) as [l|]; [| done].
  rewrite value_bind in Hv. cbn [get_host value final] in Hv.
  apply session_loop_broke in Hv as (pre & task & Hlog & Hexit).
  pose proof (session_loop_reads (S (length (stdin (host (final (prelude env s))))))
                env l (final (prelude env s))) as Hrd.
  rewrite Hlog, input_lines_app, <- Hpre in Hrd. cbn [input_lines app] in Hrd.
  rewrite Hrd in Hno.
  rewrite <- app_assoc in Hno. apply Forall_app in Hno as [_ Hno].
  cbn [app] in Hno. apply Forall_cons in Hno as [Hno _]. congruence.
Qed.

Lemma session_without_exit_raises_witness :
  exists msg, value (interpreter_main sample_env (sample_sys None true ["plot a graph"]))
              = Raise msg.
Proof.
  apply session_without_exit_raises.
  vm_compute. repeat constructor.
Defined.

(** ** The resource files *)

Lemma remove_response_frame env file s :
  let r := remove_response env file s in
  value r = Ok tt /\ self (final r) = self s /\
  stdin (host (final r)) = stdin (host s) /\
  environ (host (final r)) = environ (host s) /\
  (forall other, other <> file ->
     files (host (final r)) !! other = files (host s) !! other) /\
  (files (host (final r)) !! file = files (host s) !! file \/
   files (host (final r)) !! file = None).
Proof.
  unfold remove_response, try_except, bind, isfile, tick, emit, modify_host. cbn.
  case_bool_decide as Hfile; cbn; [| by repeat split; auto].
  destruct (remove_error env (calls (host s)) file); cbn; [by repeat split; auto |].
  repeat split; [| right; apply lookup_delete_eq].
  intros other Hne. by rewrite lookup_delete_ne.
Qed.

Lemma for_each_remove_frame env (l : list string) s :
  let r := for_each (remove_response env) l s in
  value r = Ok tt /\ self (final r) = self s /\
  stdin (host (final r)) = stdin (host s) /\
  environ (host (final r)) = environ (host s) /\
  (forall file, files (host (final r)) !! file = files (host s) !! file \/
                (In file l /\ files (host (final r)) !! file = None)).
Proof.
  revert s. induction l as [|file l IH]; intros s; [by repeat split; auto |].
  destruct (remove_response_frame env file s) as (Hv & Hself & Hin & Henv & Hother & Hfile).
  destruct (IH (final (remove_response env file s))) as (IHv & IHself & IHin & IHenv & IHfiles).
  cbv zeta. cbn [for_each]. rewrite value_bind, final_bind, Hv.
  split; [exact IHv |]. split; [congruence |]. split; [congruence |]. split; [congruence |].
  intros f. destruct (IHfiles f) as [Hsame | [Hl Hnone]].
  - rewrite Hsame. destruct (decide (f = file)) as [-> | Hne].
    + destruct Hfile as [-> | Hnone]; [by left | right; split; [by left | done]].
    + left. by apply Hother.
  - right. split; [by right | done].
Qed.

(** X9. [_clean_responses] is safe to call at any time: it never raises, it
    leaves the object, standard input and the environment as they are, and
    of the files it touches only [graph.png], [chart.png] and [table.md]:
    every file is as it was before the call, or is one of the three and is
    gone. *)
Theorem clean_responses_frame (env : Env) (s : Sys) :
  let r := _clean_responses env s in
  value r = Ok tt /\ self (final r) = self s /\
  stdin (host (final r)) = stdin (host s) /\
  environ (host (final r)) = environ (host s) /\
  (forall file, files (host (final r)) !! file = files (host s) !! file \/
                (In file resource_files /\ files (host (final r)) !! file = None)).
Proof.
  cbv zeta. unfold _clean_responses. rewrite value_bind, final_bind.
  cbn [emit value final]. apply for_each_remove_frame.
Qed.

Lemma _open_resource_file_frame env file s :
  let r := _open_resource_file env file s in
  value r = Ok tt /\ self (final r) = self s /\
  files (host (final r)) = files (host s) /\
  Forall (opened_by (uname_system env) (files (host s)) [file]) (log r).
Proof.
  unfold _open_resource_file, try_except, bind, isfile, tick, emit, display, opened_by, opener_of.
  cbn.
  case_bool_decide as Hfile; cbn; [| by repeat split].
  destruct (String.eqb (uname_system env) "Windows"); cbn.
  { destruct (subprocess_error env (calls (host s)) "start" file); cbn;
      repeat split; repeat constructor; done. }
  destruct (String.eqb (uname_system env) "Darwin"); cbn.
  { destruct (subprocess_error env (calls (host s)) "open" file); cbn;
      repeat split; repeat constructor; done. }
  destruct (String.eqb (uname_system env) "Linux"); cbn.
  { destruct (subprocess_error env (calls (host s)) "xdg-open" file); cbn;
      repeat split; repeat constructor; done. }
  by repeat split.
Qed.

Lemma opened_by_more system fs (l1 l2 : list string) e :
  (forall f, In f l1 -> In f l2) -> opened_by system fs l1 e -> opened_by system fs l2 e.
Proof. intros Hl. destruct e; cbn; try done. intros (H1 & H2 & H3). auto. Qed.

(** X10. Opening the resource files never fails the iteration and changes
    neither the object nor a file. A file is opened only if it is one of
    [graph.png], [chart.png] and [table.md] and exists, and with the command
    of the platform, [start] on Windows, [open] on Darwin and [xdg-open] on
    Linux; on any other platform nothing is opened. Apart from these calls
    only messages are displayed. *)
Theorem open_resources_frame (env : Env) (s : Sys) :
  let r := open_resources env s in
  value r = Ok tt /\ self (final r) = self s /\
  files (host (final r)) = files (host s) /\
  Forall (opened_by (uname_system env) (files (host s)) resource_files) (log r) /\
  (opener_of (uname_system env) = None -> count_ev is_open (log r) = 0).
Proof.
  cbv zeta.
  assert (Hmain : let r := open_resources env s in
            value r = Ok tt /\ self (final r) = self s /\
            files (host (final r)) = files (host s) /\
            Forall (opened_by (uname_system env) (files (host s)) resource_files) (log r)).
  { cbv zeta. unfold open_resources.
    destruct (_open_resource_file_frame env "graph.png" s) as (V1 & S1 & F1 & L1).
    set (s1 := final (_open_resource_file env "graph.png" s)) in *.
    destruct (_open_resource_file_frame env "chart.png" s1) as (V2 & S2 & F2 & L2).
    set (s2 := final (_open_resource_file env "chart.png" s1)) in *.
    destruct (_open_resource_file_frame env "table.md" s2) as (V3 & S3 & F3 & L3).
    rewrite value_try, final_try, log_try.
    rewrite !value_bind, !final_bind, !log_bind.
    fold s1. rewrite V1. fold s2. rewrite V2, V3.
    rewrite app_nil_r.
    split; [done |]. split; [congruence |]. split; [congruence |].
    rewrite F2, F1 in L3. rewrite F1 in L2.
    rewrite !Forall_app. repeat split;
      (eapply Forall_impl; [eassumption |]); intros e;
      apply opened_by_more; intros f [<- | []]; cbn; auto. }
  destruct Hmain as (Hv & Hs & Hf & Hl). repeat split; try done.
  intros Hnone. apply (count_ev_forallb (fun e => negb (is_open e))).
  - intros e He. by destruct (is_open e).
  - apply forallb_forall. intros e He.
    rewrite List.Forall_forall in Hl. specialize (Hl e He).
    destruct e; try done. cbn in Hl. destruct Hl as (Hl & _). congruence.
Qed.

(** ** Execution *)

(** X11. The Execution Dispatcher lets no instance of [Exception] of a
    runner out: a call returns a pair; or it raises the exception of the end
    of the input, when auto-execute is off and the confirmation cannot be
    read, and no runner was called then; or it raises an exception that is
    not an instance of [Exception], which its clause [except Exception]
    does not catch. *)
Theorem execute_code_catches_exceptions (env : Env) (code os : string) (s : Sys) :
  let r := execute_code env code os s in
  (exists result, value r = Ok result) \/
  (value r = Raise "EOF when reading a line" /\
   EXECUTE_CODE (self s) = false /\ stdin (host s) = [] /\
   count_ev is_run (log r) = 0) \/
  (exists text, value r = Raise (BaseException text)).
Proof.
  cbv zeta. unfold execute_code.
  rewrite value_bind, log_bind. cbn [emit log value final].
  rewrite value_bind, log_bind. cbn [get_self log value final app].
  destruct (String.eqb (INTERPRETER_MODE (self s)) "Vision"); [left; by eexists |].
  rewrite value_bind, log_bind.
  assert (Hrun : forall s',
            (exists result,
               value (try_except (run_by_mode env (self s) code os)
                                 (fun msg => ret (None, Some msg)) s') = Ok result) \/
            (exists text,
               value (try_except (run_by_mode env (self s) code os)
                                 (fun msg => ret (None, Some msg)) s')
               = Raise (BaseException text))).
  { intros s'. rewrite value_try.
    destruct (value (run_by_mode env (self s) code os s')) as [result|[msg|text]];
      [left | left | right]; by eexists. }
  destruct (EXECUTE_CODE (self s)) eqn:Hx.
  - cbn [ret log value final]. change (String.eqb (Py.lower "y") "y") with true.
    cbv iota. destruct (Hrun s) as [H | H]; [by left | right; by right].
  - destruct (stdin (host s)) as [|answer rest] eqn:Hin.
    + right. left.
      assert (Hi : input "Execute the code? (Y/N): " s =
                   MkRun [] s (Raise "EOF when reading a line"))
        by (unfold input; by rewrite Hin).
      rewrite Hi. by cbn.
    + assert (Hi : input "Execute the code? (Y/N): " s =
                   MkRun [EvInput "Execute the code? (Y/N): " answer]
                         {| self := self s; host := set_stdin rest (host s) |} (Ok answer))
        by (unfold input; by rewrite Hin).
      rewrite Hi. cbn [log value final].
      destruct (String.eqb (Py.lower answer) "y"); [| left; by eexists].
      destruct (Hrun {| self := self s; host := set_stdin rest (host s) |}) as [H | H];
        [by left | right; by right].
Qed.

(** X12. A runner that raises does not end the dispatch, unless it raises
    past [except Exception]: with auto-execute on and outside Vision mode,
    when the runner of the mode raises an instance of [Exception], the
    dispatcher returns no output and the text of the exception as the
    error; an exception of another kind is raised by the dispatcher as it
    is. *)
Theorem runner_crash_is_returned (env : Env) (code os : string) (e : Exn) (s : Sys)
    (Hready : session_ready (self s) = true)
    (Hauto : EXECUTE_CODE (self s) = true)
    (Hmode : INTERPRETER_MODE (self s) <> "Vision")
    (Hcrash : run env (calls (host s)) (mode_runner (self s)) code
                  (runner_argument (self s) os) = Crashed e) :
  value (execute_code env code os s) =
    match e with
    | Exception msg => Ok (None, Some msg)
    | BaseException _ => Raise e
    end.
Proof.
  apply String.eqb_neq in Hmode.
  unfold execute_code.
  rewrite value_bind. cbn [emit log value final].
  rewrite value_bind. cbn [get_self log value final].
  rewrite Hmode, value_bind, Hauto. cbn [ret log value final].
  change (String.eqb (Py.lower "y") "y") with true. cbv iota.
  rewrite value_try.
  assert (Hcall : forall k a, run env (calls (host s)) k code a = Crashed e ->
                              value (call_runner env k code a s) = Raise e).
  { intros k a Hk. unfold call_runner. rewrite !value_bind.
    cbn [tick emit log value final]. rewrite !value_bind.
    cbn [emit log value final]. by rewrite Hk. }
  unfold mode_runner, runner_argument in Hcrash. unfold run_by_mode.
  destruct (SCRIPT_MODE (self s)) eqn:Es;
    [rewrite (Hcall _ _ Hcrash); by destruct e |].
  destruct (COMMAND_MODE (self s)) eqn:Ec;
    [rewrite (Hcall _ _ Hcrash); by destruct e |].
  destruct (CODE_MODE (self s)) eqn:Ek;
    [rewrite (Hcall _ _ Hcrash); by destruct e |].
  exfalso. unfold session_ready in Hready. rewrite Es, Ec, Ek in Hready.
  destruct (VISION_MODE (self s)); [| done].
  apply andb_true_iff in Hready as [_ Hname]. congruence.
Qed.

Lemma runner_crash_is_returned_witness :
  value (execute_code crash_env "import pandas" "Linux" (sample_sys None true []))
  = Ok (None, Some "killed").
Proof. apply (runner_crash_is_returned crash_env _ _ "killed"); by vm_compute. Defined.

(** *** What an iteration executes *)

Lemma iteration_count (P : Event -> bool) (I : Sys -> Prop) n env l task s :
  quiet P (build_prompt env l task) ->
  (forall p img, quiet P (generate_text env p img)) ->
  keeps I (build_prompt env l task) ->
  (forall p img, keeps I (generate_text env p img)) ->
  (forall s2 prompt out, I s2 ->
     count_ev P (log (after_generation env l task prompt out s2)) <= n) ->
  I s -> count_ev P (log (iteration env l task s)) <= n.
Proof.
  intros Qb Qg Kb Kg Ha Hs. unfold iteration.
  rewrite log_bind, count_ev_app, Qb.
  pose proof (Kb s Hs) as Hs1.
  destruct (value (build_prompt env l task s)) as [built|]; [| cbn; lia].
  rewrite log_bind, count_ev_app, Qg.
  pose proof (Kg built.1 built.2 _ Hs1) as Hs2.
  destruct (value (generate_text env built.1 built.2 _)) as [out|]; [| cbn; lia].
  cbn [Nat.add]. by apply Ha.
Qed.

Lemma build_prompt_quiet_execution env l task : quiet is_execution (build_prompt env l task).
Proof. quiet_tac. Qed.

Lemma generate_text_quiet_execution env p img : quiet is_execution (generate_text env p img).
Proof. quiet_tac. Qed.

Lemma build_prompt_settings v env l task :
  keeps (fun s => settings (self s) = v) (build_prompt env l task).
Proof. keeps_tac untouched. Qed.

Lemma generate_text_settings v env p img :
  keeps (fun s => settings (self s) = v) (generate_text env p img).
Proof. keeps_tac untouched. Qed.

(** X13. Vision mode executes nothing: an iteration in Vision mode saves no
    code, dispatches and runs nothing, installs no package, does not wait
    and opens no file, whatever the model answered. *)
Theorem vision_executes_nothing (env : Env) (l : Locals) (task : string) (s : Sys)
    (Hvision : INTERPRETER_MODE (self s) = "Vision") :
  count_ev is_execution (log (iteration env l task s)) = 0.
Proof.
  apply Nat.le_0_r.
  apply (iteration_count is_execution (fun s' => settings (self s') = settings (self s)));
    auto using build_prompt_quiet_execution, generate_text_quiet_execution,
               build_prompt_settings, generate_text_settings.
  intros s2 prompt out Hs2.
  rewrite after_generation_vision; [done |].
  assert (H : INTERPRETER_MODE (self s2) = INTERPRETER_MODE (self s)).
  { unfold settings in Hs2. congruence. }
  congruence.
Qed.

Lemma vision_executes_nothing_witness :
  count_ev is_execution
    (log (iteration vision_env sample_locals "describe cat.png" (vision_sys []))) = 0.
Proof. apply vision_executes_nothing. by vm_compute. Defined.

(** X14. Without code there is nothing to do: when the extraction finds no
    code in the answer that the model gave in this iteration, the iteration
    saves no file, dispatches and runs nothing, installs no package and
    opens no file. *)
Theorem no_code_executes_nothing (env : Env) (l : Locals) (task : string) (s : Sys)
    (built : string * option string) (answer : string)
    (Hbuilt : value (build_prompt env l task s) = Ok built)
    (Hanswer : value (generate_text env built.1 built.2
                        (final (build_prompt env l task s))) = Ok answer)
    (Hempty : extract_code env answer (start_sep l) (end_sep l) (skip_first_line l)
                           (CODE_MODE (self s)) = "") :
  count_ev is_execution (log (iteration env l task s)) = 0.
Proof.
  pose proof (build_prompt_settings (settings (self s)) env l task s eq_refl) as Hs1.
  pose proof (generate_text_settings (settings (self s)) env built.1 built.2 _ Hs1) as Hs2.
  cbv beta in Hs1, Hs2.
  assert (Hc : CODE_MODE (self (final (generate_text env built.1 built.2
                                         (final (build_prompt env l task s)))))
               = CODE_MODE (self s)).
  { unfold settings in Hs2. congruence. }
  unfold iteration.
  rewrite log_bind, Hbuilt, count_ev_app, build_prompt_quiet_execution.
  rewrite log_bind, Hanswer, count_ev_app, generate_text_quiet_execution.
  cbn [Nat.add]. unfold after_generation.
  rewrite log_bind, count_ev_app. cbn [get_self log value final].
  destruct (String.eqb _ "Vision"); [done |].
  rewrite Hc, Hempty. cbn [Py.truthy count_ev List.filter length Nat.add].
  by_quiet.
Qed.

Lemma no_code_executes_nothing_witness :
  count_ev is_execution
    (log (iteration silent_env sample_locals "say hello" (sample_sys None true []))) = 0.
Proof.
  apply (no_code_executes_nothing silent_env sample_locals "say hello"
           (sample_sys None true [])
           ("Generate the code in python language for this task 'say hello for Operating System: Linux'.",
            None)
           "I cannot help with that.");
    by vm_compute.
Defined.

Lemma execute_and_recover_quiet_save env code os :
  quiet is_save (execute_and_recover env code os).
Proof. quiet_tac. Qed.

Lemma open_resources_quiet_save env : quiet is_save (open_resources env).
Proof. quiet_tac. Qed.

Lemma save_extracted_count env code s :
  count_ev is_save (log (save_extracted env code s)) <=
    if SAVE_CODE (self s) then 1 else 0.
Proof.
  unfold save_extracted. rewrite log_bind. cbn [tick log value final app].
  rewrite log_bind. cbn [get_self log value final app self].
  destruct (SAVE_CODE (self s)); rewrite ?andb_false_r; cbn [andb];
    repeat lazymatch goal with
           | |- context [if ?b then _ else _] => destruct b
           end; cbn; lia.
Qed.

Lemma save_extracted_self env code s :
  self (final (save_extracted env code s)) = self s.
Proof.
  cut (keeps (fun s' => self s' = self s) (save_extracted env code));
    [intros H; by apply H | keeps_tac untouched].
Qed.

Lemma count_bind_quiet {A B} (P : Event -> bool) (m : M A) (f : A -> M B) s :
  (forall a, quiet P (f a)) -> count_ev P (log (bind m f s)) = count_ev P (log (m s)).
Proof.
  intros Hf. rewrite log_bind, count_ev_app.
  destruct (value (m s)); [rewrite Hf | cbn]; lia.
Qed.

Lemma after_generation_saves env l task prompt out s :
  count_ev is_save (log (after_generation env l task prompt out s)) <=
    count_ev is_save
      (log (save_extracted env
              (extract_code env out (start_sep l) (end_sep l) (skip_first_line l)
                            (CODE_MODE (self s))) s)).
Proof.
  unfold after_generation. rewrite log_bind. cbn [get_self log value final app].
  destruct (String.eqb (INTERPRETER_MODE (self s)) "Vision"); [cbn; lia |].
  set (code := extract_code env out _ _ _ _).
  rewrite log_bind, count_ev_app.
  assert (Hshown : (if DISPLAY_CODE (self s) then display code else ret tt) s =
                   MkRun (log ((if DISPLAY_CODE (self s) then display code else ret tt) s))
                         s (Ok tt)
                   /\ count_ev is_save
                        (log ((if DISPLAY_CODE (self s) then display code else ret tt) s)) = 0).
  { by destruct (DISPLAY_CODE (self s)). }
  destruct Hshown as [Hrun ->]. rewrite Hrun. cbn [log value final Nat.add].
  rewrite count_bind_quiet by (intros ?; quiet_tac).
  destruct (Py.truthy code); [| cbn; lia].
  unfold run_extracted. rewrite count_bind_quiet; [done |].
  intros ?. apply quiet_bind;
    [apply execute_and_recover_quiet_save | intros ?; apply open_resources_quiet_save].
Qed.

Lemma build_prompt_quiet_save env l task : quiet is_save (build_prompt env l task).
Proof. quiet_tac. Qed.

Lemma generate_text_quiet_save env p img : quiet is_save (generate_text env p img).
Proof. quiet_tac. Qed.

(** X15. An iteration saves the extracted code at most once, and never when
    the option [SAVE_CODE] is off. *)
Theorem iteration_saves_at_most_once (env : Env) (l : Locals) (task : string) (s : Sys) :
  count_ev is_save (log (iteration env l task s)) <= if SAVE_CODE (self s) then 1 else 0.
Proof.
  apply (iteration_count is_save (fun s' => settings (self s') = settings (self s)));
    auto using build_prompt_quiet_save, generate_text_quiet_save,
               build_prompt_settings, generate_text_settings.
  intros s2 prompt out Hs2.
  etransitivity; [apply after_generation_saves |].
  etransitivity; [apply save_extracted_count |].
  assert (H : SAVE_CODE (self s2) = SAVE_CODE (self s)).
  { unfold settings in Hs2. congruence. }
  by rewrite H.
Qed.

Lemma build_prompt_language v env l task :
  keeps (fun s => SCRIPT_MODE (self s) = false /\ INTERPRETER_LANGUAGE (self s) = v)
        (build_prompt env l task).
Proof.
  unfold build_prompt. apply keeps_bind; [apply get_mode_prompt_language |].
  intros ?; keeps_tac untouched.
Qed.

Lemma generate_text_language v env p img :
  keeps (fun s => SCRIPT_MODE (self s) = false /\ INTERPRETER_LANGUAGE (self s) = v)
        (generate_text env p img).
Proof. keeps_tac untouched. Qed.

Lemma keeps_and {A} (I J : Sys -> Prop) (m : M A) :
  keeps I m -> keeps J m -> keeps (fun s => I s /\ J s) m.
Proof. intros HI HJ s [H1 H2]. split; [by apply HI | by apply HJ]. Qed.

(** X16. Code in another language is never saved: in Code mode, with a
    target language that is neither [python] nor [javascript], an iteration
    saves no file even when the option [SAVE_CODE] is on. *)
Theorem other_language_is_not_saved (env : Env) (l : Locals) (task : string) (s : Sys)
    (Hready : session_ready (self s) = true)
    (Hcode : CODE_MODE (self s) = true)
    (Hpython : INTERPRETER_LANGUAGE (self s) <> "python")
    (Hjavascript : INTERPRETER_LANGUAGE (self s) <> "javascript") :
  count_ev is_save (log (iteration env l task s)) = 0.
Proof.
  assert (Hflags : SCRIPT_MODE (self s) = false /\ COMMAND_MODE (self s) = false).
  { unfold session_ready in Hready. rewrite Hcode in Hready.
    apply andb_true_iff in Hready as [Hone _].
    by destruct (SCRIPT_MODE (self s)), (COMMAND_MODE (self s)), (VISION_MODE (self s)). }
  destruct Hflags as [Hscript Hcommand].
  apply Nat.le_0_r.
  apply (iteration_count is_save
           (fun s' => settings (self s') = settings (self s) /\
                      (SCRIPT_MODE (self s') = false /\
                       INTERPRETER_LANGUAGE (self s') = INTERPRETER_LANGUAGE (self s))));
    auto using build_prompt_quiet_save, generate_text_quiet_save, keeps_and,
               build_prompt_settings, generate_text_settings,
               build_prompt_language, generate_text_language.
  intros s2 prompt out (Hs2 & _ & Hl2).
  etransitivity; [apply after_generation_saves |].
  unfold settings in Hs2.
  assert (Hc : CODE_MODE (self s2) = true) by congruence.
  assert (Hs : SCRIPT_MODE (self s2) = false) by congruence.
  assert (Hk : COMMAND_MODE (self s2) = false) by congruence.
  unfold save_extracted. rewrite log_bind. cbn [tick log value final app].
  rewrite log_bind. cbn [get_self log value final app self].
  rewrite Hl2, Hc, Hs, Hk.
  apply String.eqb_neq in Hpython, Hjavascript. rewrite Hpython, Hjavascript.
  cbn [andb]. rewrite !andb_false_r. done.
Qed.

Lemma other_language_is_not_saved_witness :
  count_ev is_save
    (log (iteration sample_env sample_locals "print the date"
            {| self := set_language "ruby" (self (sample_sys None true []));
               host := host (sample_sys None true []) |})) = 0.
Proof. apply other_language_is_not_saved; by vm_compute. Defined.

(** ** The call of the model *)

Lemma once_bind_l {A B} P (m : M A) (f : A -> M B) :
  quiet P m -> (forall a, once_to_return P (f a)) -> once_to_return P (bind m f).
Proof.
  intros Hm Hf s. rewrite log_bind, value_bind, count_ev_app.
  pose proof (Hm s) as H0. rewrite !H0. cbn [Nat.add].
  destruct (value (m s)) as [a|]; [apply Hf |]. cbn. split; [lia | done].
Qed.

Lemma once_bind_r {A B} P (m : M A) (f : A -> M B) :
  once_to_return P m -> (forall a, quiet P (f a)) -> once_to_return P (bind m f).
Proof.
  intros Hm Hf s. rewrite log_bind, value_bind, count_ev_app.
  destruct (Hm s) as [Hle Hone].
  destruct (value (m s)) as [a|]; [| cbn; split; [lia | done]].
  pose proof (Hf a (final (m s))) as H0. rewrite !H0, !Nat.add_0_r.
  split; [done |]. intros _ _. by apply (Hone a).
Qed.

Lemma once_raise {A} P msg : once_to_return P (@raise A msg).
Proof. intros s. cbn. split; [lia | done]. Qed.

Lemma call_completion_once env model messages api_base :
  once_to_return is_provider (call_completion env model messages api_base).
Proof.
  unfold call_completion. apply once_bind_l; [quiet_tac |]. intros n.
  apply once_bind_r; [| intros ?; quiet_tac].
  intros s. cbn. split; [lia | done].
Qed.

Lemma extracted_once env model messages api_base :
  once_to_return is_provider
    (let* response := call_completion env model messages api_base in
     _extract_content response).
Proof. apply once_bind_r; [apply call_completion_once | intros ?; quiet_tac]. Qed.

(** X17. One task, one call of the provider: [generate_text] calls the
    model provider ([litellm.completion] or Gemini Vision) at most once, and
    exactly once whenever it returns an answer. *)
Theorem generate_text_calls_once (env : Env) (prompt : string) (image : option string)
    (s : Sys) :
  let r := generate_text env prompt image s in
  count_ev is_provider (log r) <= 1 /\
  (forall out, value r = Ok out -> count_ev is_provider (log r) = 1).
Proof.
  cbv zeta. revert s.
  change (once_to_return is_provider (generate_text env prompt image)).
  unfold generate_text.
  apply once_bind_l; [quiet_tac |]. intros _.
  apply once_bind_l; [quiet_tac |]. intros i. cbv zeta.
  apply once_bind_l; [quiet_tac |]. intros api_base.
  destruct (INTERPRRETER_MODEL i) as [model|]; [| apply once_raise].
  destruct (Py.contains "gpt" model).
  { destruct api_base as [base|]; [| apply once_raise].
    destruct (negb (String.eqb base "None")); apply extracted_once. }
  destruct (Py.contains "palm" model).
  { apply once_bind_l; [quiet_tac |]. intros _. apply extracted_once. }
  destruct (Py.contains "gemini" model).
  { destruct (String.eqb (INTERPRETER_MODE i) "Vision").
    - apply once_bind_l; [quiet_tac |]. intros _.
      destruct (negb (Py.truthy_opt image)); [apply once_raise |].
      apply once_bind_l; [quiet_tac |]. intros n.
      apply once_bind_r; [intros s; cbn; split; [lia | done] |].
      intros _. destruct (_ || _); quiet_tac.
    - apply once_bind_l; [quiet_tac |]. intros _. apply extracted_once. }
  apply once_bind_l; [quiet_tac |]. intros _. apply extracted_once.
Qed.

(** X18. A [gpt] model cannot be called without configuration values: when
    the configuration is empty the variable [api_base] is never assigned,
    and [generate_text] raises before it calls the provider. *)
Theorem gpt_needs_configuration (env : Env) (prompt model : string)
    (image : option string) (s : Sys)
    (Hmodel : INTERPRRETER_MODEL (self s) = Some model)
    (Hgpt : Py.contains "gpt" model = true)
    (Hconfig : config_values (self s) = ∅) :
  let r := generate_text env prompt image s in
  (exists msg, value r = Raise msg) /\ count_ev is_provider (log r) = 0.
Proof.
  cbv zeta. unfold generate_text.
  rewrite value_bind, log_bind. cbn [emit log value final].
  rewrite value_bind, log_bind. cbn [get_self log value final]. cbv zeta.
  rewrite Hconfig. rewrite bool_decide_eq_true_2 by done.
  rewrite value_bind, log_bind. cbn [ret log value final].
  rewrite Hmodel, Hgpt. cbn. split; [by eexists | done].
Qed.

Lemma gpt_needs_configuration_witness :
  let s := {| self := set_config ∅ (self (sample_sys None true []));
              host := host (sample_sys None true []) |} in
  let r := generate_text sample_env "print the date" None s in
  (exists msg, value r = Raise msg) /\ count_ev is_provider (log r) = 0.
Proof. apply (gpt_needs_configuration sample_env _ "gpt-4"); by vm_compute. Defined.

Lemma provider_of_tagged (model : string) :
  provider_of model = HuggingFace -> provider_of (hf_tagged model) = HuggingFace.
Proof.
  unfold hf_tagged. destruct (negb (Py.contains "huggingface/" model)); [| done].
  unfold provider_of.
  change (Py.contains "gpt" ("huggingface/" +:+ model)) with (Py.contains "gpt" model).
  change (Py.contains "palm" ("huggingface/" +:+ model)) with (Py.contains "palm" model).
  change (Py.contains "gemini" ("huggingface/" +:+ model)) with (Py.contains "gemini" model).
  done.
Qed.

Lemma hf_tagged_twice (model : string) : hf_tagged (hf_tagged model) = hf_tagged model.
Proof.
  unfold hf_tagged at 2 3. destruct (Py.contains "huggingface/" model) eqn:E; cbn [negb].
  - unfold hf_tagged. by rewrite E.
  - unfold hf_tagged. by rewrite contains_here.
Qed.

Lemma generate_text_model env prompt image s model :
  INTERPRRETER_MODEL (self s) = Some model ->
  INTERPRRETER_MODEL (self (final (generate_text env prompt image s))) = Some model \/
  INTERPRRETER_MODEL (self (final (generate_text env prompt image s))) =
    Some (match provider_of model with
          | OpenAI => model
          | Palm => "palm/chat-bison"
          | Gemini => "gemini/gemini-pro"
          | HuggingFace => hf_tagged model
          end).
Proof.
  intros Hmodel. unfold generate_text.
  rewrite final_bind. cbn [emit value final].
  rewrite final_bind. cbn [get_self value final]. cbv zeta.
  rewrite final_bind.
  lazymatch goal with
  | |- context [value (?c s)] =>
      assert (Hc : final (c s) = s);
        [cut (keeps (fun s' => s' = s) c);
           [intros Hk; by apply Hk | keeps_tac untouched] |]
  end.
  lazymatch goal with
  | |- context [value (?c s)] => destruct (value (c s)) as [api_base|];
                                  [| left; by rewrite Hc]
  end.
  rewrite Hc, Hmodel. unfold provider_of, hf_tagged.
  assert (Hk : forall m m' msgs base s',
            INTERPRRETER_MODEL
              (self (final ((let* response := call_completion env m msgs base in
                             _extract_content response) s'))) = m' <->
            INTERPRRETER_MODEL (self s') = m').
  { intros m m' msgs base s'.
    assert (H : self (final ((let* response := call_completion env m msgs base in
                              _extract_content response) s')) = self s').
    { cut (keeps (fun s'' => self s'' = self s')
                 (let* response := call_completion env m msgs base in
                  _extract_content response));
        [intros Hk; by apply Hk | keeps_tac untouched]. }
    by rewrite H. }
  destruct (Py.contains "gpt" model).
  { left. destruct api_base as [base|]; [| done].
    destruct (negb (String.eqb base "None")); by apply Hk. }
  destruct (Py.contains "palm" model).
  { right. rewrite final_bind. cbn [modify_self value final]. by apply Hk. }
  destruct (Py.contains "gemini" model).
  { destruct (String.eqb (INTERPRETER_MODE (self s)) "Vision").
    - left.
      lazymatch goal with
      | |- INTERPRRETER_MODEL (self (final (?m s))) = _ =>
          cut (keeps (fun s' => INTERPRRETER_MODEL (self s') = Some model) m);
            [intros Hv; by apply Hv | keeps_tac untouched]
      end.
    - right. rewrite final_bind. cbn [modify_self value final]. by apply Hk. }
  right. rewrite final_bind. cbn [modify_self value final]. by apply Hk.
Qed.

(** X19. The rewriting of the model name does not change the provider: a
    call of [generate_text] may replace the name by [palm/chat-bison], by
    [gemini/gemini-pro] or by the name with the tag [huggingface/], and the
    name it leaves is routed to the provider that the name it found was
    routed to: the next call goes to the same provider. *)
Theorem generate_text_keeps_provider (env : Env) (prompt model : string)
    (image : option string) (s : Sys)
    (Hmodel : INTERPRRETER_MODEL (self s) = Some model) :
  exists model',
    INTERPRRETER_MODEL (self (final (generate_text env prompt image s))) = Some model' /\
    provider_of model' = provider_of model.
Proof.
  destruct (generate_text_model env prompt image s model Hmodel) as [-> | ->];
    [by eexists |].
  eexists. split; [done |].
  destruct (provider_of model) eqn:E; try done.
  by apply provider_of_tagged.
Qed.

Lemma generate_text_keeps_provider_witness :
  exists model',
    INTERPRRETER_MODEL
      (self (final (generate_text sample_env "print the date" None
                      {| self := set_model (Some "codellama/CodeLlama-34b")
                                   (self (sample_sys None true []));
                         host := host (sample_sys None true []) |}))) = Some model' /\
    provider_of model' = provider_of "codellama/CodeLlama-34b".
Proof. apply generate_text_keeps_provider. reflexivity. Defined.

(** X20. The tag of the Hugging Face provider is added once: for a model of
    no other provider, a call of [generate_text] that returns was made with
    the name [huggingface/] followed by the model name, or with the name as
    it is when it has the tag already; the object keeps that name, and
    tagging it again changes nothing. *)
Theorem huggingface_tag_once (env : Env) (prompt model out : string)
    (image : option string) (s : Sys)
    (Hmodel : INTERPRRETER_MODEL (self s) = Some model)
    (Hprovider : provider_of model = HuggingFace)
    (Hdone : value (generate_text env prompt image s) = Ok out) :
  let r := generate_text env prompt image s in
  INTERPRRETER_MODEL (self (final r)) = Some (hf_tagged model) /\
  List.filter is_provider (log r) =
    [EvCompletion (hf_tagged model) (get_prompt (self s) prompt)] /\
  hf_tagged (hf_tagged model) = hf_tagged model.
Proof.
  cbv zeta.
  cut (INTERPRRETER_MODEL (self (final (generate_text env prompt image s)))
         = Some (hf_tagged model) /\
       List.filter is_provider (log (generate_text env prompt image s)) =
         [EvCompletion (hf_tagged model) (get_prompt (self s) prompt)]);
    [intros [H1 H2]; split; [done | split; [done | apply hf_tagged_twice]] |].
  revert Hdone. unfold generate_text.
  rewrite value_bind, final_bind, log_bind. cbn [emit log value final].
  rewrite value_bind, final_bind, log_bind. cbn [get_self log value final app].
  cbv zeta.
  rewrite value_bind, final_bind, log_bind.
  lazymatch goal with
  | |- context [value (?c s)] =>
      assert (Hc : final (c s) = s /\ log (c s) = []);
        [split;
         [cut (keeps (fun s' => s' = s) c);
            [intros Hk; by apply Hk | keeps_tac untouched]
         |cut (quiet (fun _ => true) c);
            [intros Hq; specialize (Hq s); by destruct (log (c s)) | quiet_tac]] |];
      destruct Hc as [Hc Hl]; rewrite Hl; destruct (value (c s)) as [api_base|];
        [| done]
  end.
  rewrite Hc, Hmodel.
  unfold provider_of in Hprovider.
  destruct (Py.contains "gpt" model); [done |].
  destruct (Py.contains "palm" model); [done |].
  destruct (Py.contains "gemini" model); [done |].
  fold (hf_tagged model).
  unfold call_completion, bind.
  cbn [modify_self tick emit lift log value final app self host calls].
  destruct (completion env _ _ _ _) as [[content|]|];
    cbn [_extract_content ret raise log value final app self List.filter is_provider
         INTERPRRETER_MODEL set_model]; done.
Qed.

Lemma huggingface_tag_once_witness :
  let s := {| self := set_model (Some "codellama/CodeLlama-34b")
                        (self (sample_sys None true []));
              host := host (sample_sys None true []) |} in
  let r := generate_text sample_env "print the date" None s in
  INTERPRRETER_MODEL (self (final r)) = Some (hf_tagged "codellama/CodeLlama-34b") /\
  List.filter is_provider (log r) =
    [EvCompletion (hf_tagged "codellama/CodeLlama-34b") (get_prompt (self s) "print the date")] /\
  hf_tagged (hf_tagged "codellama/CodeLlama-34b") = hf_tagged "codellama/CodeLlama-34b".
Proof.
  apply (huggingface_tag_once sample_env "print the date" "codellama/CodeLlama-34b"
           "```import pandas```"); by vm_compute.
Defined.

(** ** The configuration file *)






Lemma open_text_run env path s :
  open_text env path s =
    MkRun [] s
      match files (host s) !! path with
      | None => Raise ("[Errno 2] No such file or directory: '" +:+ path +:+ "'")
      | Some bytes =>
          match open_error env path with
          | Some msg => Raise msg
          | None =>
              match decode_default env bytes with
              | Some text => Ok text
              | None => Raise "codec can't decode bytes of the file"
              end
          end
      end.
Proof.
  unfold open_text, bind. cbn.
  destruct (files (host s) !! path) as [bytes|]; [| done].
  destruct (open_error env path); [done |].
  by destruct (decode_default env bytes).
Qed.


Lemma read_config_file_silent env filename s :
  exists v, read_config_file env filename s = MkRun [] s v.
Proof.
  unfold read_config_file, bind. rewrite open_text_run. cbn.
  destruct (files (host s) !! filename) as [bytes|]; [| by eexists].
  destruct (open_error env filename); [by eexists |].
  destruct (decode_default env bytes) as [text|]; [| by eexists].
  destruct (parse_config _ _); by eexists.
Qed.

Lemma read_config_file_ok env filename s config :
  value (read_config_file env filename s) = Ok config ->
  exists bytes text,
    files (host s) !! filename = Some bytes /\
    open_error env filename = None /\
    decode_default env bytes = Some text /\
    parse_config (Py.lines text) ∅ = Ok config.
Proof.
  unfold read_config_file. rewrite value_bind, open_text_run. cbn [value final].
  destruct (files (host s) !! filename) as [bytes|]; [| done].
  destruct (open_error env filename) eqn:Hopen; [done |].
  destruct (decode_default env bytes) as [text|] eqn:Hdecode; [| done].
  cbn. intros Hparse. by exists bytes, text.
Qed.



(** A file whose lines end with CR and with CR LF is read as three lines. *)
Example config_line_ends :
  let s := {| self := blank;
              host := set_files (<["configs/local.config" :=
                                     "a=1" +:+ String "013" ("# b" +:+ String "013" nl)
                                     +:+ "c = 3"]> ∅)
                                (sample_host []) |} in
  value (read_config_file sample_env "configs/local.config" s) =
    Ok (<["c" := "3"]> (<["a" := "1"]> ∅)).
Proof. by vm_compute. Qed.

(** ** Client initialization, further *)

Lemma initialize_client_no_model env s :
  INTERPRRETER_MODEL (self s) = None ->
  exists msg, value (initialize_client env s) = Raise msg.
Proof.
  intros Hnone. unfold initialize_client, provider_checks.
  rewrite !value_bind. cbn [load_dotenv modify_host get_self value final self].
  rewrite Hnone. cbn. by eexists.
Qed.

(** X22. The model is not optional: without a model name on the command
    line, or with an empty one, [initialize] raises, for the missing system
    message or for the model that is [None]. *)
Theorem initialize_requires_model (env : Env) (args : Args) (s : Sys)
    (Hmodel : Py.truthy_opt (arg_model args) = false) :
  exists msg, value (initialize env args s) = Raise msg.
Proof.
  unfold initialize. rewrite value_bind. cbn [modify_self value final].
  rewrite Hmodel. set (s0 := {| self := _; host := host s |}).
  rewrite value_bind. cbn [get_self value final].
  rewrite value_bind.
  lazymatch goal with
  | |- context [value (?m s0)] =>
      assert (Hk : INTERPRRETER_MODEL (self (final (m s0))) = None);
        [cut (keeps (fun s' => INTERPRRETER_MODEL (self s') = None) m);
           [intros Hk; by apply Hk | keeps_tac untouched] |];
      destruct (value (m s0)); [| by eexists]
  end.
  rewrite value_bind.
  destruct (initialize_client_no_model env _ Hk) as (msg & ->). by eexists.
Qed.

Lemma initialize_requires_model_witness :
  exists msg,
    value (initialize sample_env
             {| arg_lang := None; arg_save_code := false; arg_exec := false;
                arg_display_code := false; arg_model := Some ""; arg_mode := None |}
             {| self := blank; host := sample_host [] |}) = Raise msg.
Proof. apply initialize_requires_model. reflexivity. Defined.

Lemma initialize_client_log env : quiet (fun _ => true) (initialize_client env).
Proof. quiet_tac. Qed.

Lemma initialize_client_host e0 f0 i0 env :
  keeps (fun s => e0 ⊆ environ (host s) /\ files (host s) = f0 /\ stdin (host s) = i0)
        (initialize_client env).
Proof.
  keeps_tac ltac:(first [ exact (fun H => H)
                        | cbn; intros (H1 & H2 & H3); repeat split; try done;
                          etransitivity; [exact H1 | apply map_union_subseteq_l] ]).
Qed.

(** X23. Client initialization only adds to the environment: whether it
    returns or raises, every variable of the process keeps its value (the
    [.env] files add the variables that are not set), no file is written,
    nothing is read from standard input and nothing is shown or run. *)
Theorem initialize_client_frame (env : Env) (s : Sys) :
  let r := initialize_client env s in
  environ (host s) ⊆ environ (host (final r)) /\
  files (host (final r)) = files (host s) /\
  stdin (host (final r)) = stdin (host s) /\
  log r = [].
Proof.
  cbv zeta.
  destruct (initialize_client_host (environ (host s)) (files (host s)) (stdin (host s)) env s)
    as (H1 & H2 & H3); [done |].
  repeat split; try done.
  pose proof (initialize_client_log env s) as Hlog.
  by destruct (log (initialize_client env s)).
Qed.

(** ** The prompt that is sent *)

Lemma fold_file_data_value env prompt s p name :
  value (fold_file_data env (Some prompt) s) = Ok (p, name) ->
  exists suffix, p = prompt +:+ suffix.
Proof.
  unfold fold_file_data, extract_file_name.
  assert (Hsame : forall n : option string,
            Ok (prompt, n) = Ok (p, name) -> exists suffix, p = prompt +:+ suffix).
  { intros n [= <- _]. exists "". by rewrite append_nil_r. }
  rewrite value_bind.
  destruct (re_search_file env prompt) as [file_name|];
    [| cbn [ret value final default]; apply Hsame].
  cbv zeta.
  destruct (Py.mem _ known_extensions); cbn [ret value final default];
    [| apply Hsame].
  destruct (_ || _); [cbn [ret value final]; apply Hsame |].
  destruct (get_full_file_path env file_name) as [full_path|]; [| done].
  rewrite value_bind. cbn [get_host value final].
  destruct (files (host s) !! full_path) as [bytes|];
    [| cbn [ret value final]; apply Hsame].
  cbv zeta. destruct (_ <? _)%N; [| cbn [ret value final]; apply Hsame].
  rewrite value_try, value_bind.
  destruct (value (read_file_data env full_path bytes s)) as [data|[msg|t]];
    [| cbn [ret value final]; apply Hsame | done].
  destruct (Py.any_in _ _); cbn [ret value final]; [| apply Hsame].
  intros [= <- _]. by eexists.
Qed.

(** X24. The prompt that is sent to the model starts with the prompt of the
    mode and so carries the task: the file data and the keyword
    instructions only follow it. *)
Theorem prompt_extends_mode_prompt (env : Env) (l : Locals) (task p : string)
    (name : option string) (s : Sys)
    (Hbuilt : value (build_prompt env l task s) = Ok (p, name)) :
  exists p0 suffix,
    value (get_mode_prompt task (os_name l) s) = Ok (Some p0) /\
    p = p0 +:+ suffix /\
    Py.contains task p = true.
Proof.
  unfold build_prompt in Hbuilt. rewrite value_bind in Hbuilt.
  assert (Hmode : forall p0, value (get_mode_prompt task (os_name l) s) = Ok (Some p0) ->
                             Py.contains task p0 = true).
  { intros p0. unfold get_mode_prompt. rewrite value_bind. cbn [emit value final].
    rewrite value_bind. cbn [get_self value final].
    destruct (CODE_MODE (self s));
      [| destruct (SCRIPT_MODE (self s));
         [| destruct (COMMAND_MODE (self s));
            [| destruct (VISION_MODE (self s)); [| done]]]];
      intros [= <-]; repeat first [apply contains_here | apply contains_prepend]. }
  destruct (value (get_mode_prompt task (os_name l) s)) as [[p0|]|]; [| | done].
  - specialize (Hmode p0 eq_refl).
    rewrite value_bind in Hbuilt.
    destruct (value (_clean_responses env _)); [| done].
    rewrite value_bind in Hbuilt.
    destruct (value (fold_file_data env (Some p0) _)) as [[p1 n1]|] eqn:Hfold; [| done].
    apply fold_file_data_value in Hfold as (x & ->).
    rewrite value_bind in Hbuilt. cbn [get_self ret value final fst snd] in Hbuilt.
    injection Hbuilt as <- _.
    assert (Haugment : forall language, exists y, augment language (p0 +:+ x) = (p0 +:+ x) +:+ y).
    { intros language. unfold augment.
      destruct (augment_graph_appends language (p0 +:+ x)) as (y1 & ->).
      destruct (augment_chart_appends language ((p0 +:+ x) +:+ y1)) as (y2 & ->).
      destruct (augment_table_appends language (((p0 +:+ x) +:+ y1) +:+ y2)) as (y3 & ->).
      exists (y1 +:+ y2 +:+ y3). by rewrite !append_assoc. }
    lazymatch goal with
    | |- context [augment ?lang ?q] => destruct (Haugment lang) as (y & Hy)
    end.
    exists p0, (x +:+ y). split; [done |].
    rewrite Hy, append_assoc. split; [done |].
    by apply contains_append.
  - rewrite value_bind in Hbuilt.
    destruct (value (_clean_responses env _)); [| done].
    rewrite value_bind in Hbuilt. by cbn in Hbuilt.
Qed.

Lemma prompt_extends_mode_prompt_witness :
  exists p0 suffix,
    value (get_mode_prompt "plot a graph" (os_name sample_locals) (sample_sys None true []))
      = Ok (Some p0) /\
    "Generate the code in python language for this task 'plot a graph for Operating System: Linux'."
      +:+ nl +:+ graph_python +:+ nl +:+ chart_python = p0 +:+ suffix /\
    Py.contains "plot a graph"
      ("Generate the code in python language for this task 'plot a graph for Operating System: Linux'."
       +:+ nl +:+ graph_python +:+ nl +:+ chart_python) = true.
Proof.
  apply (prompt_extends_mode_prompt sample_env sample_locals "plot a graph" _ None).
  by vm_compute.
Defined.

(** ** What a successful client initialization has checked *)

Lemma find_key_value env name s : value (find_key env name s) = Ok tt.
Proof.
  unfold find_key, getenv, load_dotenv, bind. cbn. by repeat (case_bool_decide; cbn).
Qed.

Lemma find_key_self env name s : self (final (find_key env name s)) = self s.
Proof.
  cut (keeps (fun s' => self s' = self s) (find_key env name));
    [intros H; by apply H | keeps_tac untouched].
Qed.

Lemma check_key_final name missing bad wrong s :
  final (check_key name missing bad wrong s) = s.
Proof.
  unfold check_key, getenv, bind. cbn.
  destruct (negb _); [done |]. by destruct (bad _).
Qed.

Lemma key_checked env name missing bad wrong s :
  value ((find_key env name;; check_key name missing bad wrong) s) = Ok tt ->
  key_accepted bad name
    (environ (host (final ((find_key env name;; check_key name missing bad wrong) s)))).
Proof.
  rewrite value_bind, final_bind, find_key_value, check_key_value, check_key_final.
  unfold key_accepted.
  destruct (environ (host (final (find_key env name s))) !! name) as [key|]; [| done].
  cbn [Py.truthy_opt default]. unfold id.
  destruct (Py.truthy key) eqn:Htruthy; cbn [negb]; [| done].
  destruct (bad key) eqn:Hbad; [done |]. intros _. by exists key.
Qed.

Lemma key_checked_self env name missing bad wrong s :
  self (final ((find_key env name;; check_key name missing bad wrong) s)) = self s.
Proof.
  rewrite final_bind, find_key_value, check_key_final. apply find_key_self.
Qed.

Ltac grows_leaf :=
  first [ exact (fun H => H)
        | cbn; intros (key & Hkey & Hrest); exists key; split;
          [by apply lookup_union_Some_l | exact Hrest] ].

Lemma check_openai_accepted bad name env :
  keeps (fun s => key_accepted bad name (environ (host s))) (check_openai env).
Proof. keeps_tac grows_leaf. Qed.

Lemma check_provider_accepted bad name env item :
  keeps (fun s => key_accepted bad name (environ (host s))) (check_provider env item).
Proof. keeps_tac grows_leaf. Qed.

Lemma check_huggingface_accepted bad name env :
  keeps (fun s => key_accepted bad name (environ (host s))) (check_huggingface env).
Proof. keeps_tac grows_leaf. Qed.

Lemma check_openai_self i env :
  keeps (fun s => self s = i) (check_openai env).
Proof. keeps_tac untouched. Qed.

Lemma check_provider_self i env item :
  keeps (fun s => self s = i) (check_provider env item).
Proof. keeps_tac untouched. Qed.

Lemma check_huggingface_self i env :
  keeps (fun s => self s = i) (check_huggingface env).
Proof. keeps_tac untouched. Qed.

Lemma check_provider_checked env model_part name model s :
  INTERPRRETER_MODEL (self s) = Some model ->
  Py.contains model_part model = true ->
  value (check_provider env (model_part, name) s) = Ok tt ->
  key_accepted bad_api_key name
    (environ (host (final (check_provider env (model_part, name) s)))).
Proof.
  intros Hmodel Hpart. unfold check_provider. cbv zeta. cbn [fst snd].
  rewrite value_bind, final_bind. cbn [get_self value final].
  rewrite Hmodel, Hpart. apply key_checked.
Qed.

Lemma bind_silent {A B} (m : M A) (f : A -> M B) s s' a :
  m s = MkRun [] s' (Ok a) -> bind m f s = f a s'.
Proof. intros H. unfold bind. rewrite H. cbn. by destruct (f a s'). Qed.

(** The checks that follow the reading of the configuration, for the model
    name that the configuration settles. *)
Lemma provider_checks_shape env s :
  value (provider_checks env s) = Ok tt ->
  exists model bytes text config,
    INTERPRRETER_MODEL (self s) = Some model /\
    files (host s) !! config_file_of model = Some bytes /\
    open_error env (config_file_of model) = None /\
    decode_default env bytes = Some text /\
    parse_config (Py.lines text) ∅ = Ok config /\
    let model' := default model (config !! "HF_MODEL") in
    let s2 := {| self := set_model (Some model') (set_config config (self s));
                 host := set_environ (environ (host s) ∪ dotenv_found env) (host s) |} in
    let checks := ((if Py.contains "gpt" model' then check_openai env else ret tt);;
                   for_each (check_provider env) model_api_keys) in
    value (checks s2) = Ok tt /\
    final (provider_checks env s) = final (checks s2).
Proof.
  unfold provider_checks.
  erewrite bind_silent by reflexivity.
  erewrite bind_silent by reflexivity.
  cbn [self].
  destruct (INTERPRRETER_MODEL (self s)) as [model|] eqn:Hmodel;
    [| by rewrite value_bind].
  assert (Hname : forall s',
            (match model with
             | "" => ret "configs/gpt-3.5-turbo.config"
             | _ => ret ("configs/" +:+ model +:+ ".config")
             end : M string) s' = MkRun [] s' (Ok (config_file_of model))).
  { intros s'. by destruct model. }
  erewrite bind_silent by apply Hname.
  set (s1 := {| self := self s; host := _ |}).
  destruct (read_config_file_silent env (config_file_of model) s1) as [[config|e] Hread];
    [| by rewrite value_bind, Hread].
  destruct (read_config_file_ok env (config_file_of model) s1 config)
    as (bytes & text & Hfile & Hopen & Hdecode & Hparse); [by rewrite Hread |].
  rewrite (bind_silent (read_config_file _ _) _ _ _ config Hread).
  subst s1.
  erewrite bind_silent by reflexivity.
  erewrite bind_silent by reflexivity.
  intros Hchecks. exists model, bytes, text, config.
  repeat split; try done.
Qed.

Lemma seq_ok {A B} (m : M A) (f : A -> M B) s b :
  value (bind m f s) = Ok b ->
  exists a, value (m s) = Ok a /\ value (f a (final (m s))) = Ok b /\
            final (bind m f s) = final (f a (final (m s))).
Proof.
  rewrite value_bind, final_bind. destruct (value (m s)) as [a|]; [| done].
  intros H. by exists a.
Qed.

Lemma after_checks_self env model' s2 :
  self (final (((if Py.contains "gpt" model' then check_openai env else ret tt);;
                for_each (check_provider env) model_api_keys;;
                check_huggingface env) s2)) = self s2.
Proof.
  cut (keeps (fun s' => self s' = self s2)
             ((if Py.contains "gpt" model' then check_openai env else ret tt);;
              for_each (check_provider env) model_api_keys;;
              check_huggingface env));
    [intros H; by apply H |].
  apply keeps_bind; [destruct (Py.contains "gpt" model');
                       [apply check_openai_self | by intros s' Hs'] |].
  intros _. apply keeps_bind; [| intros _; apply check_huggingface_self].
  apply keeps_for_each. intros item. apply check_provider_self.
Qed.

Lemma bind_assoc_run {A B C} (m : M A) (f : A -> M B) (g : B -> M C) s :
  bind (bind m f) g s = bind m (fun a => bind (f a) g) s.
Proof.
  unfold bind. destruct (value (m s)) as [a|]; cbn; [| done].
  destruct (value (f a (final (m s)))) as [b|]; cbn; [| done].
  by rewrite app_assoc.
Qed.

Lemma initialize_client_shape env s :
  value (initialize_client env s) = Ok tt ->
  exists model bytes text config,
    INTERPRRETER_MODEL (self s) = Some model /\
    files (host s) !! config_file_of model = Some bytes /\
    open_error env (config_file_of model) = None /\
    decode_default env bytes = Some text /\
    parse_config (Py.lines text) ∅ = Ok config /\
    let model' := default model (config !! "HF_MODEL") in
    let s2 := {| self := set_model (Some model') (set_config config (self s));
                 host := set_environ (environ (host s) ∪ dotenv_found env) (host s) |} in
    let checks := ((if Py.contains "gpt" model' then check_openai env else ret tt);;
                   for_each (check_provider env) model_api_keys;;
                   check_huggingface env) in
    value (checks s2) = Ok tt /\
    final (initialize_client env s) = final (checks s2).
Proof.
  unfold initialize_client. rewrite value_bind, final_bind.
  destruct (value (provider_checks env s)) as [[]|] eqn:Hpc; [| done].
  destruct (provider_checks_shape env s Hpc)
    as (model & bytes & text & config & Hmodel & Hfile & Hopen & Hdecode & Hparse & Hv & Hf).
  cbv zeta in Hv, Hf. intros Hhf.
  exists model, bytes, text, config. do 5 (split; [done |]).
  cbv zeta. rewrite <- bind_assoc_run.
  set (checks := bind _ (fun _ => for_each (check_provider env) model_api_keys)) in *.
  by rewrite value_bind, final_bind, Hv, <- Hf.
Qed.



(** X26. What a client initialization that returns has checked: the
    environment it leaves holds a Hugging Face key that starts with [hf_];
    for a model whose name contains [gpt], an OpenAI key that starts with
    [sk-]; and for a model whose name contains [palm] or [gemini-pro], the
    key of that provider, longer than 15 characters and without a space. *)
Theorem client_keys_accepted (env : Env) (s : Sys)
    (Hdone : value (initialize_client env s) = Ok tt) :
  let r := initialize_client env s in
  let e' := environ (host (final r)) in
  exists model,
    INTERPRRETER_MODEL (self (final r)) = Some model /\
    key_accepted bad_huggingface_key "HUGGINGFACE_API_KEY" e' /\
    (Py.contains "gpt" model = true -> key_accepted bad_openai_key "OPENAI_API_KEY" e') /\
    (Py.contains "palm" model = true -> key_accepted bad_api_key "PALM_API_KEY" e') /\
    (Py.contains "gemini-pro" model = true ->
       key_accepted bad_api_key "GEMINI_API_KEY" e').
Proof.
  cbv zeta.
  destruct (initialize_client_shape env s Hdone)
    as (model0 & bytes & text & config & Hmodel0 & Hfile & Hopen & Hdecode & Hparse & Hv & Hf).
  cbv zeta in Hv, Hf.
  set (model := default model0 (config !! "HF_MODEL")) in *.
  set (s2 := {| self := _; host := _ |}) in *.
  exists model. rewrite Hf. split; [by rewrite after_checks_self |].
  clear Hf Hdone.
  set (A := if Py.contains "gpt" model then check_openai env else ret tt) in *.
  apply seq_ok in Hv as ([] & HA & Hv & ->).
  set (sA := final (A s2)) in *.
  apply seq_ok in Hv as ([] & HB & HC & ->).
  cbn [for_each model_api_keys] in HB, HC |- *.
  apply seq_ok in HB as ([] & HP & HB & HfP).
  set (sP := final (check_provider env ("palm", "PALM_API_KEY") sA)) in *.
  apply seq_ok in HB as ([] & HG & _ & HfG).
  set (sG := final (check_provider env ("gemini-pro", "GEMINI_API_KEY") sP)) in *.
  cbn [ret final] in HfG. rewrite HfG in HfP. rewrite HfP in HC |- *. clear HfP HfG.
  assert (HmA : INTERPRRETER_MODEL (self sA) = Some model).
  { assert (H : self sA = self s2).
    { unfold sA, A. destruct (Py.contains "gpt" model); [| done].
      by apply (check_openai_self (self s2)). }
    by rewrite H. }
  assert (HmP : INTERPRRETER_MODEL (self sP) = Some model).
  { unfold sP. by rewrite (check_provider_self (self sA) env _ sA eq_refl). }
  split; [| split; [| split]].
  - apply (key_checked env "HUGGINGFACE_API_KEY" _ bad_huggingface_key _ sG HC).
  - intros Hgpt. apply check_huggingface_accepted.
    apply check_provider_accepted. apply check_provider_accepted.
    unfold sA, A in *. rewrite Hgpt in *.
    apply (key_checked env "OPENAI_API_KEY" _ bad_openai_key _ s2 HA).
  - intros Hpalm. apply check_huggingface_accepted.
    apply check_provider_accepted.
    by apply (check_provider_checked env "palm" "PALM_API_KEY" model sA).
  - intros Hgemini. apply check_huggingface_accepted.
    by apply (check_provider_checked env "gemini-pro" "GEMINI_API_KEY" model sP).
Qed.

Lemma client_keys_accepted_witness :
  let r := initialize_client sample_env
             {| self := set_model (Some "gpt-4") blank; host := sample_host [] |} in
  let e' := environ (host (final r)) in
  exists model,
    INTERPRRETER_MODEL (self (final r)) = Some model /\
    key_accepted bad_huggingface_key "HUGGINGFACE_API_KEY" e' /\
    (Py.contains "gpt" model = true -> key_accepted bad_openai_key "OPENAI_API_KEY" e') /\
    (Py.contains "palm" model = true -> key_accepted bad_api_key "PALM_API_KEY" e') /\
    (Py.contains "gemini-pro" model = true ->
       key_accepted bad_api_key "GEMINI_API_KEY" e').
Proof. apply client_keys_accepted. by vm_compute. Defined.

(** ** The file that a prompt names *)

(** X27. The data of a file enters the prompt only under all the conditions
    of the loop: when [fold_file_data] returns a prompt other than the one
    it was given, the prompt holds one of the words [graph], [graphs],
    [chart] and [charts], it names a file with one of the known extensions
    that is not a URL, and that file exists under its full path and is
    smaller than 50000 bytes. *)
Theorem file_data_needs_keyword (env : Env) (prompt p : string) (name : option string)
    (s : Sys)
    (Hfold : value (fold_file_data env (Some prompt) s) = Ok (p, name))
    (Hchanged : p <> prompt) :
  Py.any_in ["graph"; "graphs"; "chart"; "charts"] (Py.lower prompt) = true /\
  exists file full_path bytes,
    name = Some file /\
    Py.mem (Py.lower (splitext_ext env file)) known_extensions = true /\
    Py.contains "http" file || Py.contains "https" file || Py.contains "www." file = false /\
    get_full_file_path env file = Some full_path /\
    files (host s) !! full_path = Some bytes /\
    (N.of_nat (String.length bytes) < 50000)%N.
Proof.
  revert Hfold. unfold fold_file_data, extract_file_name.
  assert (Hsame : forall n : option string,
            Ok (prompt, n) = Ok (p, name) -> False).
  { intros n [= <- _]. by apply Hchanged. }
  rewrite value_bind.
  destruct (re_search_file env prompt) as [file|];
    [| cbn [ret value final default]; intros []%Hsame].
  cbv zeta.
  destruct (Py.mem _ known_extensions) eqn:Hext; cbn [ret value final default];
    [| intros []%Hsame].
  destruct (_ || _) eqn:Hurl; [cbn [ret value final]; intros []%Hsame |].
  destruct (get_full_file_path env file) as [full_path|] eqn:Hfull; [| done].
  rewrite value_bind. cbn [get_host value final].
  destruct (files (host s) !! full_path) as [bytes|] eqn:Hfile;
    [| cbn [ret value final]; intros []%Hsame].
  cbv zeta. destruct (_ <? _)%N eqn:Hsize; [| cbn [ret value final]; intros []%Hsame].
  rewrite value_try, value_bind.
  destruct (value (read_file_data env full_path bytes s)) as [data|[msg|t]];
    [| cbn [ret value final]; intros []%Hsame | done].
  destruct (Py.any_in _ _) eqn:Hword; cbn [ret value final]; [| intros []%Hsame].
  intros [= _ <-]. split; [done |].
  exists file, full_path, bytes. repeat split; try done.
  by apply N.ltb_lt.
Qed.

Lemma file_data_needs_keyword_witness :
  Py.any_in ["graph"; "graphs"; "chart"; "charts"]
    (Py.lower "draw a graph of sales.csv") = true /\
  exists file full_path bytes,
    Some "sales.csv" = Some file /\
    Py.mem (Py.lower (splitext_ext data_env file)) known_extensions = true /\
    Py.contains "http" file || Py.contains "https" file || Py.contains "www." file = false /\
    get_full_file_path data_env file = Some full_path /\
    files (host data_sys) !! full_path = Some bytes /\
    (N.of_nat (String.length bytes) < 50000)%N.
Proof.
  apply (file_data_needs_keyword data_env "draw a graph of sales.csv"
           ("draw a graph of sales.csv" +:+ nl +:+ "This is file data from user input: "
            +:+ "['month', 'total']" +:+ " use this to analyze the data."));
    by vm_compute.
Defined.

(** ** The start of a session, further *)

Lemma prelude_value env s :
  exists l, value (prelude env s) = Ok l /\ os_name l = (get_os_platform env).1.
Proof.
  unfold prelude. cbv zeta.
  rewrite value_bind. cbn [modify_self value final].
  rewrite value_bind. cbn [get_self value final].
  rewrite value_bind. cbn [display emit value final].
  rewrite value_bind. cbn [display emit ret value final].
  by eexists.
Qed.

(** X28. A session starts ready: whatever the arguments, when [initialize]
    and the start of [interpreter_main] return, exactly one mode flag is set
    and [INTERPRETER_MODE] names it, [Script], [Command], [Vision] or
    [code]; and the loop is given the name of the platform, one of [MacOS],
    [Linux], [Windows] and [Other]. *)
Theorem session_starts_ready (env : Env) (args : Args) (s : Sys) (l : Locals)
    (Hstart : value ((initialize env args;; prelude env) s) = Ok l) :
  session_ready (self (final ((initialize env args;; prelude env) s))) = true /\
  os_name l = (get_os_platform env).1 /\
  Py.mem (os_name l) ["MacOS"; "Linux"; "Windows"; "Other"] = true.
Proof.
  split; [by apply (start_ready env args s l) |].
  rewrite value_bind in Hstart.
  destruct (value (initialize env args s)) as [[]|]; [| done].
  destruct (prelude_value env (final (initialize env args s))) as (l' & Hl' & Hname).
  assert (l' = l) as -> by congruence.
  split; [done |]. rewrite Hname, get_os_platform_name.
  by destruct (String.eqb (uname_system env) "Darwin"),
       (String.eqb (uname_system env) "Linux"),
       (String.eqb (uname_system env) "Windows").
Qed.

Lemma session_starts_ready_witness :
  session_ready
    (self (final ((initialize sample_env (sample_args (Some "command") false);;
                   prelude sample_env)
                    {| self := blank; host := sample_host [] |}))) = true /\
  os_name sample_locals = (get_os_platform sample_env).1 /\
  Py.mem (os_name sample_locals) ["MacOS"; "Linux"; "Windows"; "Other"] = true.
Proof.
  apply (session_starts_ready sample_env (sample_args (Some "command") false) _ sample_locals).
  by vm_compute.
Defined.

(** ** Without the signature of a missing package *)

Lemma call_runner_error env k code a s result :
  (forall n k c a, missing_package (error_of (run env n k c a)) = false) ->
  value (try_except (call_runner env k code a) (fun msg => ret (None, Some msg)) s)
    = Ok result ->
  missing_package result.2 = false.
Proof.
  intros Hclean. specialize (Hclean (calls (host s)) k code a).
  unfold call_runner, try_except, bind, tick, emit. cbn.
  destruct (run env (calls (host s)) k code a) as [out err written|[msg|t]];
    cbn in *; try done; by intros [= <-].
Qed.

Lemma execute_code_error env code os s result :
  (forall n k c a, missing_package (error_of (run env n k c a)) = false) ->
  value (execute_code env code os s) = Ok result ->
  missing_package result.2 = false.
Proof.
  intros Hclean. unfold execute_code.
  rewrite value_bind. cbn [emit value final].
  rewrite value_bind. cbn [get_self value final].
  destruct (String.eqb (INTERPRETER_MODE (self s)) "Vision"); [by intros [= <-] |].
  rewrite value_bind.
  destruct (value ((if EXECUTE_CODE (self s) then ret "y"
                    else input "Execute the code? (Y/N): ") s)) as [execute|]; [| done].
  destruct (String.eqb (Py.lower execute) "y"); [| by intros [= <-]].
  unfold run_by_mode.
  destruct (SCRIPT_MODE (self s)); [by apply call_runner_error |].
  destruct (COMMAND_MODE (self s)); [by apply call_runner_error |].
  destruct (CODE_MODE (self s)); [by apply call_runner_error |].
  rewrite value_try. cbn [ret value]. by intros [= <-].
Qed.

Lemma execute_code_dispatches env code os s :
  count_ev is_dispatch (log (execute_code env code os s)) = 1.
Proof.
  destruct (execute_code_log env code os s) as (b & -> & Hb).
  rewrite count_ev_cons. cbn [is_dispatch].
  rewrite (count_ev_weaken is_recovery is_dispatch); [done | | done].
  by intros [].
Qed.

Lemma execute_and_recover_clean env code os s :
  (forall n k c a, missing_package (error_of (run env n k c a)) = false) ->
  count_ev is_install (log (execute_and_recover env code os s)) = 0 /\
  count_ev is_dispatch (log (execute_and_recover env code os s)) = 1.
Proof.
  intros Hclean. unfold execute_and_recover.
  rewrite log_bind, !count_ev_app, execute_code_dispatches.
  assert (Hq : count_ev is_install (log (execute_code env code os s)) = 0) by by_quiet.
  rewrite Hq.
  pose proof (execute_code_error env code os s) as Herr.
  destruct (value (execute_code env code os s)) as [result|]; [| by cbn].
  specialize (Herr result Hclean eq_refl).
  rewrite log_bind, !count_ev_app, show_result_same. cbn [log value final].
  unfold recover. rewrite Herr. cbn [ret log].
  assert (Hshow : forall P st, (forall text, P (EvDisplay text) = false) ->
                               count_ev P (log (show_result result st)) = 0).
  { intros P st HP. unfold show_result, display, emit.
    destruct (Py.truthy_opt result.1); cbn [log]; [by rewrite count_ev_cons, HP |].
    destruct (Py.truthy_opt result.2); cbn [log]; [by rewrite count_ev_cons, HP | done]. }
  by rewrite !Hshow.
Qed.

(** X29. Nothing is installed without the signature of a missing package:
    when no error of a runner, returned or raised, contains
    [ModuleNotFound], [ImportError], [No module named] or
    [Cannot find module], an iteration installs no package and dispatches
    the code at most once. *)
Theorem no_signature_no_recovery (env : Env) (l : Locals) (task : string) (s : Sys)
    (Hclean : forall n k c a, missing_package (error_of (run env n k c a)) = false) :
  count_ev is_install (log (iteration env l task s)) = 0 /\
  count_ev is_dispatch (log (iteration env l task s)) <= 1.
Proof.
  assert (Hafter : forall s2 prompt out,
            count_ev is_install (log (after_generation env l task prompt out s2)) = 0 /\
            count_ev is_dispatch (log (after_generation env l task prompt out s2)) <= 1).
  { intros s2 prompt out. unfold after_generation.
    rewrite log_bind. cbn [get_self log value final app].
    destruct (String.eqb (INTERPRETER_MODE (self s2)) "Vision"); [cbn; lia |].
    set (code := extract_code env out _ _ _ _).
    assert (Hshown : (if DISPLAY_CODE (self s2) then display code else ret tt) s2 =
                     MkRun (log ((if DISPLAY_CODE (self s2) then display code else ret tt) s2))
                           s2 (Ok tt)
                     /\ forall P, (forall text, P (EvDisplay text) = false) ->
                          count_ev P
                            (log ((if DISPLAY_CODE (self s2) then display code else ret tt) s2))
                          = 0).
    { destruct (DISPLAY_CODE (self s2)); (split; [done |]); intros P HP; [| done].
      unfold display, emit. cbn [log]. by rewrite count_ev_cons, HP. }
    destruct Hshown as [Hrun Hcount].
    rewrite log_bind, !count_ev_app, !Hcount by done. rewrite Hrun. cbn [log value final Nat.add].
    rewrite !count_bind_quiet by (intros ?; quiet_tac).
    destruct (Py.truthy code); [| cbn; lia].
    unfold run_extracted.
    rewrite log_bind, !count_ev_app.
    assert (Hsave : count_ev is_install (log (save_extracted env code s2)) = 0 /\
                    count_ev is_dispatch (log (save_extracted env code s2)) = 0)
      by (split; by_quiet).
    destruct Hsave as [-> ->].
    destruct (value (save_extracted env code s2)); [| cbn; lia].
    rewrite !count_bind_quiet by (intros ?; quiet_tac).
    destruct (execute_and_recover_clean env code (os_name l)
                (final (save_extracted env code s2)) Hclean) as [-> ->].
    lia. }
  split.
  - apply Nat.le_0_r.
    apply (iteration_count is_install (fun _ => True)); try done.
    + quiet_tac.
    + intros p img. quiet_tac.
    + intros s2 prompt out _. by destruct (Hafter s2 prompt out) as [-> _].
  - apply (iteration_count is_dispatch (fun _ => True)); try done.
    + quiet_tac.
    + intros p img. quiet_tac.
    + intros s2 prompt out _. by destruct (Hafter s2 prompt out) as [_ H].
Qed.

Lemma no_signature_no_recovery_witness :
  count_ev is_install
    (log (iteration crash_env sample_locals "print the date" (sample_sys None true []))) = 0 /\
  count_ev is_dispatch
    (log (iteration crash_env sample_locals "print the date" (sample_sys None true []))) <= 1.
Proof. apply no_signature_no_recovery. reflexivity. Defined.

(** ** The end of an iteration *)

(** Outside Vision mode, what follows the answer of the model never returns. *)
Lemma after_generation_raises env l task prompt answer s :
  INTERPRETER_MODE (self s) <> "Vision" ->
  let code := extract_code env answer (start_sep l) (end_sep l) (skip_first_line l)
                           (CODE_MODE (self s)) in
  value (after_generation env l task prompt answer s) =
    match value ((if Py.truthy code then run_extracted env code (os_name l) else ret tt) s) with
    | Ok _ => Raise "'UtilityManager' object has no attribute 'save_history_json'"
    | Raise e => Raise e
    end.
Proof.
  intros Hv%String.eqb_neq. cbv zeta. unfold after_generation.
  rewrite value_bind. cbn [get_self log value final].
  rewrite Hv.
  set (code := extract_code env answer _ _ _ _) in *.
  rewrite value_bind, display_code_run. cbn [log value final].
  rewrite value_bind.
  destruct (value _) as [[]|e]; [| done].
  by rewrite value_bind.
Qed.

(** X30. The statement that hands the interaction record raises: the class
    [UtilityManager] has no attribute [save_history_json]. So outside Vision
    mode no iteration returns; and when the prompt is built, the model has
    answered and the execution of the extracted code, if there is code, has
    returned, the iteration raises the [AttributeError] of that statement. *)
Theorem history_statement_raises (env : Env) (l : Locals) (task : string) (s : Sys)
    (Hmode : INTERPRETER_MODE (self s) <> "Vision") :
  let r := iteration env l task s in
  (exists e, value r = Raise e) /\
  forall (built : string * option string) (answer : string),
    value (build_prompt env l task s) = Ok built ->
    let s1 := final (build_prompt env l task s) in
    value (generate_text env built.1 built.2 s1) = Ok answer ->
    let s2 := final (generate_text env built.1 built.2 s1) in
    let code := extract_code env answer (start_sep l) (end_sep l) (skip_first_line l)
                             (CODE_MODE (self s2)) in
    (Py.truthy code = true -> value (run_extracted env code (os_name l) s2) = Ok tt) ->
    value r = Raise "'UtilityManager' object has no attribute 'save_history_json'".
Proof.
  cbv zeta.
  pose proof (build_prompt_mode (INTERPRETER_MODE (self s)) env l task s eq_refl) as Hm1.
  cbv beta in Hm1.
  assert (Hm2 : forall built,
            INTERPRETER_MODE
              (self (final (generate_text env built.1 built.2
                              (final (build_prompt env l task s))))) <> "Vision").
  { intros built.
    pose proof (generate_text_mode _ env built.1 built.2 _ Hm1) as H. cbv beta in H.
    congruence. }
  unfold iteration. split.
  - rewrite value_bind.
    destruct (value (build_prompt env l task s)) as [built|e]; [| by eexists].
    rewrite value_bind.
    destruct (value (generate_text env built.1 built.2 _)) as [answer|e]; [| by eexists].
    rewrite after_generation_raises by apply Hm2.
    destruct (value _) as [[]|e]; by eexists.
  - intros built answer Hbuilt Hanswer Hrun.
    rewrite value_bind, Hbuilt, value_bind, Hanswer.
    rewrite after_generation_raises by apply Hm2.
    destruct (Py.truthy _); [by rewrite Hrun | done].
Qed.

Lemma history_statement_raises_witness :
  let s := sample_sys (Some "command") true [] in
  let r := iteration sample_env sample_locals "list the files" s in
  (exists e, value r = Raise e) /\
  value r = Raise "'UtilityManager' object has no attribute 'save_history_json'".
Proof.
  cbv zeta.
  destruct (history_statement_raises sample_env sample_locals "list the files"
              (sample_sys (Some "command") true [])) as [H1 H2]; [by vm_compute |].
  split; [exact H1 |].
  apply (H2 ("Generate the single terminal command for this task 'list the files for Operating System is Linux'.",
             None) "```import pandas```"); by vm_compute.
Defined.
